(** * Stillmetal: FactSage XML -> CSV analyzer (main.py)

    A shallow embedding of the three-stage pipeline of [main.py]:
    the canonicalizer [convert_factsage_xml_to_txt], the reconstructor
    [parse_txt_pages], the phase classifier, the run grouper
    [group_simulations], the run analyzer [analyze_simulation] and the report
    assembler [run_liquid_analysis], together with the Python built-ins they
    rest on.

    Conventions of the embedding.
    - A Python [str] is a [string]; the character predicates ([\s], [\d],
      [\w], [str.lower], [str.strip]) are those of Python on ASCII text, and
      a character above 127 is a byte of a UTF-8 sequence that is neither
      space, digit nor word character.
    - A Python [float] is an IEEE-754 binary64 value, [spec_float] at
      precision 53 and maximal exponent 1024, with the correctly rounded
      operations of [SpecFloat]; [float(s)] and the [.Nf] format are the
      correctly rounded decimal conversions.
    - A raised exception is [None] in an [option] result.
    - A [dict] is an association list in insertion order. *)

From Stdlib Require Import ZArith NArith List Bool Ascii String Lia.
From Stdlib Require Import DecimalString DecimalN.
From Stdlib Require Import Floats.SpecFloat.
From Stdlib Require Import Permutation Sorted.
Import ListNotations.

Local Open Scope string_scope.
Local Open Scope Z_scope.

(** ** Python built-ins on text *)

Module Py.

Definition code (c : ascii) : N := N_of_ascii c.

Definition in_range (lo hi : N) (c : ascii) : bool :=
  (N.leb lo (code c) && N.leb (code c) hi)%bool.

(** [str.isspace] on one ASCII character: TAB..CR, FS..US and the space. *)
Definition is_space (c : ascii) : bool :=
  (in_range 9 13 c || in_range 28 32 c)%bool.

Definition is_digit (c : ascii) : bool := in_range 48 57 c.
Definition is_upper (c : ascii) : bool := in_range 65 90 c.
Definition is_lower (c : ascii) : bool := in_range 97 122 c.
Definition is_alpha (c : ascii) : bool := (is_upper c || is_lower c)%bool.

(** A word character of [re]: alphanumeric or the underscore. *)
Definition is_word (c : ascii) : bool :=
  (is_alpha c || is_digit c || Ascii.eqb c "_")%bool.

Definition lower_char (c : ascii) : ascii :=
  if is_upper c then ascii_of_N (code c + 32) else c.

Fixpoint lower (s : string) : string :=
  match s with
  | EmptyString => EmptyString
  | String c s' => String (lower_char c) (lower s')
  end.

Fixpoint lstrip (s : string) : string :=
  match s with
  | EmptyString => EmptyString
  | String c s' => if is_space c then lstrip s' else s
  end.

Fixpoint rstrip (s : string) : string :=
  match s with
  | EmptyString => EmptyString
  | String c s' =>
      match rstrip s' with
      | EmptyString => if is_space c then EmptyString else String c EmptyString
      | r => String c r
      end
  end.

Definition strip (s : string) : string := rstrip (lstrip s).

Definition startswith (s p : string) : bool := String.prefix p s.

(** [sub in s]. *)
Fixpoint contains (sub s : string) : bool :=
  (String.prefix sub s ||
   match s with
   | EmptyString => false
   | String _ s' => contains sub s'
   end)%bool.

Fixpoint drop (n : nat) (s : string) : string :=
  match n, s with
  | O, _ => s
  | S _, EmptyString => EmptyString
  | S k, String _ s' => drop k s'
  end.

(** [s.replace(old, new)] for a non-empty [old]: the occurrences are taken
    from the left and do not overlap; [skip] counts the characters of an
    occurrence still to be passed over. *)
Fixpoint replace_from (old new : string) (skip : nat) (s : string) : string :=
  match s with
  | EmptyString => EmptyString
  | String c s' =>
      match skip with
      | S k => replace_from old new k s'
      | O =>
          if String.prefix old s
          then new ++ replace_from old new (String.length old - 1) s'
          else String c (replace_from old new 0 s')
      end
  end.

Definition replace (old new s : string) : string := replace_from old new 0 s.

(** [s.partition(sep)]: the text before and after the first occurrence. *)
Fixpoint partition (sep s : string) : option (string * string) :=
  if String.prefix sep s then Some (EmptyString, drop (String.length sep) s)
  else match s with
       | EmptyString => None
       | String c s' =>
           match partition sep s' with
           | Some (b, a) => Some (String c b, a)
           | None => None
           end
       end.

(** [s.split(sep)[1]]; [None] is the IndexError of a text without [sep]. *)
Definition split_item1 (sep s : string) : option string :=
  match partition sep s with
  | None => None
  | Some (_, a) =>
      match partition sep a with
      | Some (b, _) => Some b
      | None => Some a
      end
  end.

Fixpoint spaces (n : nat) : string :=
  match n with
  | O => EmptyString
  | S k => String " " (spaces k)
  end.

(** [f"{s:<w}"] and [f"{s:>w}"]. *)
Definition ljust (w : nat) (s : string) : string :=
  s ++ spaces (w - String.length s).
Definition rjust (w : nat) (s : string) : string :=
  spaces (w - String.length s) ++ s.

(** [sep.join(l)]. *)
Fixpoint join (sep : string) (l : list string) : string :=
  match l with
  | [] => EmptyString
  | [x] => x
  | x :: l' => x ++ sep ++ join sep l'
  end.

Fixpoint repeat_char (c : ascii) (n : nat) : string :=
  match n with
  | O => EmptyString
  | S k => String c (repeat_char c k)
  end.

(** [str(n)] for a natural number. *)
Definition str_of_N (n : N) : string := NilZero.string_of_uint (N.to_uint n).

(** Code-point order on text, the order of [sorted] on a list of [str]. *)
Fixpoint str_ltb (a b : string) : bool :=
  match a, b with
  | EmptyString, EmptyString => false
  | EmptyString, String _ _ => true
  | String _ _, EmptyString => false
  | String x a', String y b' =>
      if N.ltb (code x) (code y) then true
      else if N.ltb (code y) (code x) then false
      else str_ltb a' b'
  end.

(** [sorted(set(l))]: increasing, without repetition. *)
Fixpoint insert_uniq (x : string) (l : list string) : list string :=
  match l with
  | [] => [x]
  | y :: l' =>
      if String.eqb x y then l
      else if str_ltb x y then x :: l
      else y :: insert_uniq x l'
  end.

Definition sorted_set (l : list string) : list string :=
  fold_left (fun acc x => insert_uniq x acc) l [].

(** A [dict] in insertion order: assignment to a present key keeps its
    place. *)
Section Dict.
Context {K V : Type} (keq : K -> K -> bool).

Fixpoint dict_get (k : K) (d : list (K * V)) : option V :=
  match d with
  | [] => None
  | (k', v) :: d' => if keq k k' then Some v else dict_get k d'
  end.

Fixpoint dict_set (k : K) (v : V) (d : list (K * V)) : list (K * V) :=
  match d with
  | [] => [(k, v)]
  | (k', v') :: d' =>
      if keq k k' then (k', v) :: d' else (k', v') :: dict_set k v d'
  end.

Definition dict_of (l : list (K * V)) : list (K * V) :=
  fold_left (fun d kv => dict_set (fst kv) (snd kv) d) l [].
End Dict.

Definition okey_eqb (a b : option string) : bool :=
  match a, b with
  | Some x, Some y => String.eqb x y
  | None, None => true
  | _, _ => false
  end.

End Py.

(** ** Python floats *)

Module PyFloat.
Import Py.

Definition float : Type := spec_float.

Definition prec : Z := 53.
Definition emax : Z := 1024.

Definition fadd : float -> float -> float := SFadd prec emax.
Definition fsub : float -> float -> float := SFsub prec emax.
Definition fmul : float -> float -> float := SFmul prec emax.
Definition fdiv : float -> float -> float := SFdiv prec emax.
Definition fabs : float -> float := SFabs.
Definition fneg : float -> float := SFopp.
Definition feqb : float -> float -> bool := SFeqb.
Definition fltb : float -> float -> bool := SFltb.
Definition fleb : float -> float -> bool := SFleb.
(** [x > y] and [x >= y]. *)
Definition fgtb (x y : float) : bool := fltb y x.
Definition fgeb (x y : float) : bool := fleb y x.

Definition fzero : float := S754_zero false.

(** [math.isfinite]. *)
Definition is_finite (x : float) : bool :=
  match x with
  | S754_zero _ | S754_finite _ _ _ => true
  | S754_infinity _ | S754_nan => false
  end.

(** The binary64 value nearest to [m * 10^e] (ties to even), negated when
    [neg]. *)
Definition float_of_decimal (neg : bool) (m : N) (e : Z) : float :=
  match m with
  | N0 => S754_zero neg
  | Npos p =>
      if 0 <=? e
      then binary_round prec emax neg (Z.to_pos (Zpos p * 10 ^ e)) 0
      else
        let '(q, e', l) :=
          SFdiv_core_binary prec emax (Zpos p) 0 (10 ^ (- e)) 0 in
        binary_round_aux prec emax neg q e' l
  end.

Definition digit_val (c : ascii) : N := (code c - 48)%N.

(** The rest of a [digitpart], digit (["_"] digit)*, after its first digit:
    the value read so far, the number of digits read and the text left. *)
Fixpoint digits_tail (acc : N) (cnt : nat) (s : string) {struct s}
  : N * nat * string :=
  match s with
  | String c s' =>
      if is_digit c then digits_tail (acc * 10 + digit_val c)%N (S cnt) s'
      else if Ascii.eqb c "_" then
        match s' with
        | String d s'' =>
            if is_digit d
            then digits_tail (acc * 10 + digit_val d)%N (S cnt) s''
            else (acc, cnt, s)
        | EmptyString => (acc, cnt, s)
        end
      else (acc, cnt, s)
  | EmptyString => (acc, cnt, s)
  end.

Definition digitpart (acc : N) (s : string) : option (N * nat * string) :=
  match s with
  | String c s' =>
      if is_digit c then Some (digits_tail (acc * 10 + digit_val c)%N 1 s')
      else None
  | EmptyString => None
  end.

Definition parse_sign (s : string) : bool * string :=
  match s with
  | String "-" s' => (true, s')
  | String "+" s' => (false, s')
  | _ => (false, s)
  end.

Definition parse_exponent (s : string) : option (Z * string) :=
  let '(neg, s1) := parse_sign s in
  match digitpart 0 s1 with
  | Some (v, _, rest) => Some (if neg then - Z.of_N v else Z.of_N v, rest)
  | None => None
  end.

(** [float(s)] on text: surrounding whitespace, an optional sign, then
    "inf", "infinity" or "nan" in any case, or a decimal literal with an
    optional exponent; [None] is ValueError. *)
Definition py_float (s0 : string) : option float :=
  let s := strip s0 in
  let '(neg, s1) := parse_sign s in
  let l := lower s1 in
  if (String.eqb l "inf" || String.eqb l "infinity")%bool
  then Some (S754_infinity neg)
  else if String.eqb l "nan" then Some S754_nan
  else
    let '(m1, n1, s2) :=
      match digitpart 0 s1 with
      | Some r => r
      | None => (0%N, O, s1)
      end in
    let '(m2, n2, s3) :=
      match s2 with
      | String "." s2' =>
          match digitpart m1 s2' with
          | Some r => r
          | None => (m1, O, s2')
          end
      | _ => (m1, O, s2)
      end in
    if (n1 + n2 =? 0)%nat then None
    else
      match s3 with
      | EmptyString => Some (float_of_decimal neg m2 (- Z.of_nat n2))
      | String c s4 =>
          if (Ascii.eqb c "e" || Ascii.eqb c "E")%bool then
            match parse_exponent s4 with
            | Some (e, EmptyString) =>
                Some (float_of_decimal neg m2 (e - Z.of_nat n2))
            | _ => None
            end
          else None
      end.

(** A float literal of the source text. *)
Definition lit (s : string) : float :=
  match py_float s with
  | Some x => x
  | None => S754_nan
  end.

(** [int(s)] on a run of ASCII digits, of at most 4300 digits (a longer
    run makes [int] raise ValueError). *)
Fixpoint int_digits (acc : N) (s : string) : N :=
  match s with
  | EmptyString => acc
  | String c s' => int_digits (acc * 10 + digit_val c)%N s'
  end.

(** The integer nearest to [m * 2^e * 10^k], ties to even. *)
Definition scaled_round (k : nat) (m : positive) (e : Z) : N :=
  let n := Zpos m * 10 ^ Z.of_nat k in
  if 0 <=? e then Z.to_N (n * 2 ^ e)
  else
    let d := 2 ^ (- e) in
    let q := n / d in
    let r := n mod d in
    Z.to_N
      match 2 * r ?= d with
      | Lt => q
      | Gt => q + 1
      | Eq => if Z.even q then q else q + 1
      end.

(** The digits of [n / 10^k] with exactly [k] digits after the point. *)
Definition fixed_digits (k : nat) (n : N) : string :=
  let ds := str_of_N n in
  let ds := repeat_char "0" (S k - String.length ds) ++ ds in
  let i := (String.length ds - k)%nat in
  match k with
  | O => ds
  | S _ => String.substring 0 i ds ++ "." ++ drop i ds
  end.

(** [f"{x:.kf}"]. *)
Definition format_fixed (k : nat) (x : float) : string :=
  match x with
  | S754_nan => "nan"
  | S754_infinity s => if s then "-inf" else "inf"
  | S754_zero s => (if s then "-" else "") ++ fixed_digits k 0
  | S754_finite s m e =>
      (if s then "-" else "") ++ fixed_digits k (scaled_round k m e)
  end.

End PyFloat.

(** ** Regular expressions of [re]

    The patterns of [main.py] repeat single characters only, so repetition
    is on a character class.  A matcher returns every way to match, in the
    order the backtracking search of [re] tries them: the first one is the
    match [re] reports. *)

Module Re.
Import Py.

Inductive regex : Type :=
| Eps                                (* the empty pattern *)
| Chr (c : ascii)                    (* a literal character *)
| Cls (p : ascii -> bool)            (* one character of a class *)
| Seq (r1 r2 : regex)
| Alt (r1 r2 : regex)                (* r1|r2 *)
| Opt (r : regex)                    (* r? *)
| Star (p : ascii -> bool)           (* [p]*, greedy *)
| Plus (p : ascii -> bool)           (* [p]+, greedy *)
| LazyStar (p : ascii -> bool)       (* [p]*?, lazy *)
| Group (n : nat) (r : regex)        (* capturing group number n *)
| Bol                                (* ^ *)
| Eol                                (* $ *)
| WordB                              (* \b *)
| Behind (p : ascii -> bool).        (* (?<=[p]) *)

(** A position in the subject: the character before it, if any, and the
    text from it on; with the groups captured so far. *)
Record state : Type := mkState {
  caps : list (nat * string);
  prev : option ascii;
  rest : string
}.

Definition is_word_opt (o : option ascii) : bool :=
  match o with
  | Some c => is_word c
  | None => false
  end.

Definition head_char (s : string) : option ascii :=
  match s with
  | String c _ => Some c
  | EmptyString => None
  end.

(** The ends of the greedy runs of [p] from a position, longest first. *)
Fixpoint star_ends (p : ascii -> bool) (pv : option ascii) (s : string)
  : list (option ascii * string) :=
  match s with
  | String c s' =>
      if p c then star_ends p (Some c) s' ++ [(pv, s)] else [(pv, s)]
  | EmptyString => [(pv, s)]
  end.

(** The ends of the lazy runs of [p], shortest first. *)
Fixpoint lazy_ends (p : ascii -> bool) (pv : option ascii) (s : string)
  : list (option ascii * string) :=
  match s with
  | String c s' =>
      if p c then (pv, s) :: lazy_ends p (Some c) s' else [(pv, s)]
  | EmptyString => [(pv, s)]
  end.

Definition move (st : state) (e : option ascii * string) : state :=
  mkState (caps st) (fst e) (snd e).

(** The text between two positions of one subject. *)
Definition taken (from to : string) : string :=
  String.substring 0 (String.length from - String.length to) from.

Fixpoint run (r : regex) (st : state) : list state :=
  match r with
  | Eps => [st]
  | Chr c =>
      match rest st with
      | String c' s' =>
          if Ascii.eqb c c' then [mkState (caps st) (Some c') s'] else []
      | EmptyString => []
      end
  | Cls p =>
      match rest st with
      | String c' s' =>
          if p c' then [mkState (caps st) (Some c') s'] else []
      | EmptyString => []
      end
  | Seq r1 r2 => flat_map (run r2) (run r1 st)
  | Alt r1 r2 => run r1 st ++ run r2 st
  | Opt r1 => run r1 st ++ [st]
  | Star p => map (move st) (star_ends p (prev st) (rest st))
  | Plus p =>
      match rest st with
      | String c' s' =>
          if p c' then map (move st) (star_ends p (Some c') s') else []
      | EmptyString => []
      end
  | LazyStar p => map (move st) (lazy_ends p (prev st) (rest st))
  | Group n r1 =>
      map (fun st' =>
             mkState ((n, taken (rest st) (rest st')) :: caps st')
                     (prev st') (rest st'))
          (run r1 st)
  | Bol => match prev st with None => [st] | Some _ => [] end
  | Eol =>
      if (String.eqb (rest st) "" || String.eqb (rest st) (String "010" ""))%bool
      then [st] else []
  | WordB =>
      if xorb (is_word_opt (prev st)) (is_word_opt (head_char (rest st)))
      then [st] else []
  | Behind p =>
      match prev st with
      | Some c => if p c then [st] else []
      | None => []
      end
  end.

(** A match object: the text left after the match and the groups. *)
Definition first_match (r : regex) (pv : option ascii) (s : string)
  : option state :=
  hd_error (run r (mkState [] pv s)).

(** [re.match(r, s)]. *)
Definition re_match (r : regex) (s : string) : option state :=
  first_match r None s.

(** [re.search(r, s)]: the first position, from the left, with a match. *)
Fixpoint search_from (r : regex) (pv : option ascii) (s : string)
  : option state :=
  match first_match r pv s with
  | Some m => Some m
  | None =>
      match s with
      | String c s' => search_from r (Some c) s'
      | EmptyString => None
      end
  end.

Definition re_search (r : regex) (s : string) : option state :=
  search_from r None s.

(** [m.group(n)] of a group that took part in the match. *)
Definition group (n : nat) (m : state) : string :=
  match dict_get Nat.eqb n (caps m) with
  | Some t => t
  | None => EmptyString
  end.

(** [re.sub(r, f, s)] for a pattern that matches no empty text: the matches
    are replaced from the left; [skip] counts the characters of a match
    still to be passed over. *)
Fixpoint sub_from (r : regex) (f : string -> string) (skip : nat)
    (pv : option ascii) (s : string) : string :=
  match s with
  | EmptyString => EmptyString
  | String c s' =>
      match skip with
      | S k => sub_from r f k (Some c) s'
      | O =>
          match first_match r pv s with
          | Some m =>
              let t := taken s (rest m) in
              f t ++ sub_from r f (String.length t - 1) (Some c) s'
          | None => String c (sub_from r f 0 (Some c) s')
          end
      end
  end.

Definition re_sub (r : regex) (f : string -> string) (s : string) : string :=
  sub_from r f 0 None s.

(** A sequence of patterns, and a literal text as a pattern. *)
Fixpoint seql (l : list regex) : regex :=
  match l with
  | [] => Eps
  | [r] => r
  | r :: l' => Seq r (seql l')
  end.

Fixpoint Lit (s : string) : regex :=
  match s with
  | EmptyString => Eps
  | String c EmptyString => Chr c
  | String c s' => Seq (Chr c) (Lit s')
  end.

Definition any_but_newline (c : ascii) : bool := negb (Ascii.eqb c "010").
Definition non_space (c : ascii) : bool := negb (is_space c).

End Re.

(** ** The element tree of [xml.etree.ElementTree] *)

Module ET.
Import Py.

#[warnings="-register-all"]
Inductive element : Type :=
| Element (tag : string) (attrib : list (string * string))
          (children : list element).

Definition tag (e : element) : string :=
  match e with Element t _ _ => t end.
Definition attrib (e : element) : list (string * string) :=
  match e with Element _ a _ => a end.
Definition children (e : element) : list element :=
  match e with Element _ _ c => c end.

(** [d.get(k)] on an attribute dictionary. *)
Definition get (k : string) (a : list (string * string)) : option string :=
  dict_get String.eqb k a.

(** [d.get(k, default)]. *)
Definition get_or (k dflt : string) (a : list (string * string)) : string :=
  match get k a with
  | Some v => v
  | None => dflt
  end.

(** [e.findall(tag)]: the children with that tag, in document order. *)
Definition findall (t : string) (e : element) : list element :=
  filter (fun c => String.eqb (tag c) t) (children e).

(** [e.findall("./t1/t2")]. *)
Definition findall2 (t1 t2 : string) (e : element) : list element :=
  flat_map (findall t2) (findall t1 e).

(** [e.iter(tag)]: the element and its descendants with that tag, in
    document order. *)
Fixpoint descendants (e : element) : list element :=
  match e with
  | Element _ _ cs => e :: flat_map descendants cs
  end.

Definition iter (t : string) (e : element) : list element :=
  filter (fun c => String.eqb (tag c) t) (descendants e).

(** [e.find("./t[@k='v']")]: the first child with that tag and attribute,
    for a value [v] without apostrophe (the value is spliced into the path,
    and an apostrophe would end the quoted text of the path). *)
Definition find_attr (t k v : string) (e : element) : option element :=
  hd_error
    (filter (fun c => match get k (attrib c) with
                      | Some v' => String.eqb v' v
                      | None => false
                      end)
            (findall t e)).

End ET.

Import Py PyFloat Re.

Definition bind {A B : Type} (a : option A) (f : A -> option B) : option B :=
  match a with
  | Some x => f x
  | None => None
  end.

Notation "'let*' x ':=' a 'in' b" := (bind a (fun x => b))
  (at level 10, x pattern, a at level 100, b at level 200).

(** [[f(x) for x in l]] where [f] may raise. *)
Fixpoint mapM {A B : Type} (f : A -> option B) (l : list A)
  : option (list B) :=
  match l with
  | [] => Some []
  | x :: l' =>
      let* y := f x in
      let* ys := mapM f l' in
      Some (y :: ys)
  end.

(** [sorted(l, key=key, reverse=True)]: decreasing keys, equal keys in
    their original order. *)
Fixpoint insert_desc {A : Type} (key : A -> float) (x : A) (l : list A)
  : list A :=
  match l with
  | [] => [x]
  | y :: l' =>
      if fltb (key y) (key x) then x :: l else y :: insert_desc key x l'
  end.

Definition sorted_desc {A : Type} (key : A -> float) (l : list A) : list A :=
  fold_left (fun acc x => insert_desc key x acc) l [].

(** [sorted(l, key=key)]: increasing keys, equal keys in their original
    order. *)
Fixpoint insert_asc {A : Type} (key : A -> float) (x : A) (l : list A)
  : list A :=
  match l with
  | [] => [x]
  | y :: l' =>
      if fltb (key x) (key y) then x :: l else y :: insert_asc key x l'
  end.

Definition sorted_asc {A : Type} (key : A -> float) (l : list A) : list A :=
  fold_left (fun acc x => insert_asc key x acc) l [].

(** ** Formatting and helpers *)

Definition sub_digit (c : ascii) : string :=
  if Ascii.eqb c "0" then "₀" else if Ascii.eqb c "1" then "₁"
  else if Ascii.eqb c "2" then "₂" else if Ascii.eqb c "3" then "₃"
  else if Ascii.eqb c "4" then "₄" else if Ascii.eqb c "5" then "₅"
  else if Ascii.eqb c "6" then "₆" else if Ascii.eqb c "7" then "₇"
  else if Ascii.eqb c "8" then "₈" else if Ascii.eqb c "9" then "₉"
  else String c "".

(** [s.translate(SUB_MAP)]. *)
Fixpoint translate_sub (s : string) : string :=
  match s with
  | EmptyString => EmptyString
  | String c s' => sub_digit c ++ translate_sub s'
  end.

(** [(?<=[A-Za-z\)])\d+] *)
Definition formula_digits_re : regex :=
  Seq (Behind (fun c => (is_alpha c || Ascii.eqb c ")")%bool)) (Plus is_digit).

Definition subscript_formula_digits (text : string) : string :=
  re_sub formula_digits_re translate_sub text.

(** [^FT[a-zA-Z]+-] *)
Definition ft_prefix_re : regex :=
  seql [Bol; Chr "F"; Chr "T"; Plus is_alpha; Chr "-"].

Definition clean_phase_state (raw_state : string) : string :=
  re_sub ft_prefix_re (fun _ => "") raw_state.

(** [fnum(x)]; [None] is the Python [None]. *)
Definition fnum (x : option string) : float :=
  match x with
  | None => fzero
  | Some t =>
      let s := replace "D" "E" (strip t) in
      if String.eqb s "" then fzero
      else match py_float s with
           | Some v => v
           | None => fzero
           end
  end.

Definition fmt3 (x : float) : string :=
  if feqb (fabs x) fzero then "0" else format_fixed 3 x.

Definition fmt4 (x : float) : string :=
  if feqb (fabs x) fzero then "0" else format_fixed 4 x.

(** [f"{x:.2f}"] *)
Definition fmt2f (x : float) : string := format_fixed 2 x.

Definition G_MIN : float := Eval vm_compute in lit "0.01".

(** ** XML -> TXT: the canonicalizer *)

Definition attrs : Type := list (string * string).

(** The three maps built from [./header/species_definition]; a missing
    [phase_id] is the key [None]. *)
Record species_def : Type := mkSpeciesDef {
  solution_name_map : list (option string * string);
  phase_species_ids : list (option string * list string);
  species_in_solutions : list (string * (string * option string))
}.

Definition empty_species_def : species_def := mkSpeciesDef [] [] [].

Definition add_solution (acc : option species_def) (sol : ET.element)
  : option species_def :=
  let* d := acc in
  let pid := ET.get "phase_id" (ET.attrib sol) in
  let names :=
    dict_set okey_eqb pid
      (clean_phase_state (ET.get_or "state" "" (ET.attrib sol)))
      (solution_name_map d) in
  let* r :=
    fold_left
      (fun acc sp =>
         let* (sis, ids) := acc in
         let* sid := ET.get "id" (ET.attrib sp) in
         Some (dict_set String.eqb sid
                 (ET.get_or "name" "" (ET.attrib sp), pid) sis,
               (ids ++ [sid])%list))
      (ET.findall "species" sol)
      (Some (species_in_solutions d, [])) in
  Some (mkSpeciesDef names
          (dict_set okey_eqb pid (snd r) (phase_species_ids d))
          (fst r)).

Definition read_species_def (root : ET.element) : option species_def :=
  match hd_error (ET.findall2 "header" "species_definition" root) with
  | None => Some empty_species_def
  | Some spec_def =>
      fold_left add_solution (ET.findall "solution" spec_def)
        (Some empty_species_def)
  end.

(** [{e.attrib["id"]: f(e) for e in l}]; a missing id is KeyError. *)
Definition dict_by_id {V : Type} (f : ET.element -> V) (l : list ET.element)
  : option (list (string * V)) :=
  let* kvs := mapM (fun e => let* k := ET.get "id" (ET.attrib e) in
                             Some (k, f e)) l in
  Some (dict_of String.eqb kvs).

Definition read_solid_species_map (root : ET.element)
  : option (list (string * attrs)) :=
  dict_by_id ET.attrib
    (filter (fun sp => match ET.get "phase" (ET.attrib sp) with
                       | Some v => String.eqb v "s"
                       | None => false
                       end)
            (ET.iter "species" root)).

Definition read_reactants_meta (root : ET.element)
  : option (list (string * (string * float))) :=
  dict_by_id (fun r => (ET.get_or "name" "" (ET.attrib r),
                        fnum (ET.get "mw" (ET.attrib r))))
    (ET.findall2 "header" "reactant" root).

(** [(-?\d+(?:\.\d+)?)\s*C] *)
Definition desc_temp_re : regex :=
  seql [Group 1 (seql [Opt (Chr "-"); Plus is_digit;
                       Opt (Seq (Chr ".") (Plus is_digit))]);
        Star is_space; Chr "C"].

(** The Celsius and kelvin temperature of a page. *)
Definition page_temperature (page : ET.element) : float * float :=
  let desc := strip (ET.get_or "description" "" (ET.attrib page)) in
  let t_raw := strip (ET.get_or "T" "" (ET.attrib page)) in
  if negb (String.eqb t_raw "") then
    let tK := fnum (Some t_raw) in
    (fsub tK (lit "273.15"), tK)
  else
    match re_search desc_temp_re desc with
    | Some m =>
        let tC := fnum (Some (group 1 m)) in
        (tC, fadd tC (lit "273.15"))
    | None => (lit "0.0", lit "273.15")
    end.

Definition page_pressure_atm (page : ET.element) : float :=
  let p_raw := strip (ET.get_or "P" "" (ET.attrib page)) in
  let pbar :=
    if negb (String.eqb p_raw "") then fnum (Some p_raw) else lit "1.01325" in
  fdiv pbar (lit "1.01325").

(** The reactants met on the page: name, moles and grams. *)
Definition page_reactants (metas : list (string * (string * float)))
    (page : ET.element) : list (string * float * float) :=
  flat_map
    (fun '(rid, (name, mw)) =>
       match ET.find_attr "reactant" "id" rid page with
       | None => []
       | Some rnode =>
           let n := fnum (ET.get "n" (ET.attrib rnode)) in
           let g := fmul n mw in
           [(name, n, g)]
       end)
    metas.

Definition reactant_line (r : string * float * float) : string :=
  let '(name, n, g) := r in
  "  " ++ ljust 4 name ++ " n = " ++ fmt3 n ++ " mol | m = " ++ fmt3 g ++ " g".

Definition reactant_lines (metas : list (string * (string * float)))
    (page : ET.element) : list string :=
  map reactant_line (page_reactants metas page).

Record species_row : Type := mkRow {
  row_name : string;
  row_g : float;
  row_W : float;
  row_n : float;
  row_X : float;
  row_a : float
}.

Definition phase_header_line : string :=
  ljust 16 "Compound" ++ rjust 10 "Mass(g)" ++ rjust 10 "W(%)"
    ++ rjust 8 "Mol" ++ rjust 8 "X" ++ rjust 12 "Activity".

Definition species_row_line (row : species_row) : string :=
  "  " ++ ljust 14 (row_name row) ++ rjust 10 (fmt3 (row_g row))
       ++ rjust 10 (fmt3 (fmul (row_W row) (lit "100")))
       ++ rjust 8 (fmt3 (row_n row)) ++ rjust 8 (fmt3 (row_X row))
       ++ rjust 12 (fmt4 (row_a row)).

Definition total_line (total_g total_n total_a : float) : string :=
  "  " ++ ljust 14 "TOTAL" ++ rjust 10 (fmt3 total_g)
       ++ rjust 10 (fmt3 (lit "100.00")) ++ rjust 8 (fmt3 total_n)
       ++ rjust 8 (fmt3 (lit "1.00")) ++ rjust 12 (fmt4 total_a).

(** The listed rows of one solution phase, in header order, with mass at
    least [G_MIN]. *)
Definition phase_rows (d : species_def) (results : list (string * attrs))
    (ph_id : string) : list species_row :=
  flat_map
    (fun sid =>
       match dict_get String.eqb sid (species_in_solutions d) with
       | None => []
       | Some sp =>
           let r := match dict_get String.eqb sid results with
                    | Some a => a
                    | None => []
                    end in
           let g := fnum (ET.get "g" r) in
           if fltb g G_MIN then []
           else [mkRow (fst sp) g (fnum (ET.get "W" r)) (fnum (ET.get "n" r))
                       (fnum (ET.get "X" r)) (fnum (ET.get "a" r))]
       end)
    (match dict_get okey_eqb (Some ph_id) (phase_species_ids d) with
     | Some ids => ids
     | None => []
     end).

Definition total_of (f : species_row -> float) (rows : list species_row)
  : float :=
  fold_left (fun t r => fadd t (f r)) rows (lit "0.0").

Definition phase_name (d : species_def) (ph_id : string) : string :=
  match dict_get okey_eqb (Some ph_id) (solution_name_map d) with
  | Some n => n
  | None => "Phase-" ++ ph_id
  end.

(** The section of a phase: title, column header, the rows by decreasing
    mass, the totals of the rows in header order, a blank line. *)
Definition section_lines (sec : string * list species_row) : list string :=
  let '(pname, rows) := sec in
  ([("PHASE: " ++ pname)%string; phase_header_line]
     ++ map species_row_line (sorted_desc row_g rows)
     ++ [total_line (total_of row_g rows) (total_of row_n rows)
           (total_of row_a rows); ""])%list.

Definition phase_section (d : species_def) (results : list (string * attrs))
    (ph_id : string) : list string :=
  section_lines (phase_name d ph_id, phase_rows d results ph_id).

Definition solids_header_line : string :=
  ljust 24 "Compound" ++ rjust 12 "g" ++ rjust 14 "Activity".

Definition solid_row_line (row : string * float * float) : string :=
  let '(name, g, a) := row in
  "  " ++ ljust 22 name ++ rjust 12 (fmt3 g) ++ rjust 14 (fmt4 a).

Definition solid_rows (solids : list (string * attrs))
    (results : list (string * attrs)) : list (string * float * float) :=
  flat_map
    (fun '(sid, sp) =>
       match dict_get String.eqb sid results with
       | None => []
       | Some r =>
           let g := fnum (ET.get "g" r) in
           let a := fnum (ET.get "a" r) in
           if fgeb g G_MIN then [(ET.get_or "name" "" sp, g, a)] else []
       end)
    solids.

Definition solid_g (r : string * float * float) : float := snd (fst r).

Definition solids_lines (rows : list (string * float * float))
  : list string :=
  match rows with
  | [] => []
  | _ =>
      (["PURE SOLIDS:"; solids_header_line]
         ++ map solid_row_line (sorted_desc solid_g rows)
         ++ [""])%list
  end.

Definition solids_section (solids : list (string * attrs))
    (results : list (string * attrs)) : list string :=
  solids_lines (solid_rows solids results).

Definition page_header_line (pid : string) (tC : float) : string :=
  "Page " ++ pid ++ " - " ++ fmt3 tC ++ " C".

Definition separator_line : string := repeat_char "=" 70.

Definition summary_line (tC tK patm : float) : string :=
  "T = " ++ fmt3 tC ++ " C | T(K) = " ++ fmt3 tK ++ " | P = "
         ++ fmt3 patm ++ " atm".

(** The block of lines of one page. *)
(** The values of one page that the block is written from. *)
Record page_values : Type := mkValues {
  v_pid : string;
  v_tC : float;
  v_tK : float;
  v_patm : float;
  v_reactants : list (string * float * float);
  v_sections : list (string * list species_row);
  v_solids : list (string * float * float)
}.

Definition page_values_of (d : species_def) (solids : list (string * attrs))
    (metas : list (string * (string * float))) (page : ET.element)
  : option page_values :=
  let pid := ET.get_or "id" "?" (ET.attrib page) in
  let '(tC, tK) := page_temperature page in
  let patm := page_pressure_atm page in
  let* results := dict_by_id ET.attrib (ET.findall "result" page) in
  let* phase_mass :=
    dict_by_id (fun s => fnum (ET.get "g" (ET.attrib s)))
      (ET.findall "solution" page) in
  let ordered :=
    map fst (sorted_desc snd
               (filter (fun kv => fgeb (snd kv) G_MIN) phase_mass)) in
  Some (mkValues pid tC tK patm (page_reactants metas page)
          (map (fun ph_id => (phase_name d ph_id, phase_rows d results ph_id))
             ordered)
          (solid_rows solids results)).

Definition block_lines (formula_pretty : string) (v : page_values)
  : list string :=
  ([separator_line;
    page_header_line (v_pid v) (v_tC v);
    formula_pretty;
    summary_line (v_tC v) (v_tK v) (v_patm v);
    "";
    "Reactants (page scope):"]
   ++ map reactant_line (v_reactants v)
   ++ [""]
   ++ flat_map section_lines (v_sections v)
   ++ solids_lines (v_solids v))%list.

(** The block of lines of one page. *)
Definition page_block (d : species_def) (solids : list (string * attrs))
    (metas : list (string * (string * float))) (formula_pretty : string)
    (page : ET.element) : option (list string) :=
  let* v := page_values_of d solids metas page in
  Some (block_lines formula_pretty v).

(** The lines written by [convert_factsage_xml_to_txt] for a parsed
    document. *)
Definition convert_lines (root : ET.element) : option (list string) :=
  let* d := read_species_def root in
  let* solids := read_solid_species_map root in
  let* metas := read_reactants_meta root in
  let formula_pretty :=
    subscript_formula_digits (ET.get_or "formula" "" (ET.attrib root)) in
  let* blocks :=
    mapM (page_block d solids metas formula_pretty)
      (ET.findall "page" root) in
  Some (List.concat blocks).

(** The text of the file: every line followed by a newline. *)
Definition write_lines (lines : list string) : string :=
  String.concat "" (map (fun l => l ++ String "010" "") lines).

Definition convert_factsage_xml_to_txt (root : ET.element) : option string :=
  let* lines := convert_lines root in
  Some (write_lines lines).

(** ** TXT parsing: the reconstructor *)

(** [f.readlines()] in text mode: the lines with their newline, a carriage
    return or a carriage return and newline read as one newline. *)
Fixpoint readlines (s : string) : list string :=
  match s with
  | EmptyString => []
  | String c s' =>
      let nl := String "010" "" in
      let ls := readlines s' in
      if Ascii.eqb c "010" then nl :: ls
      else if Ascii.eqb c "013" then
        match s' with
        | String "010" _ => ls
        | _ => nl :: ls
        end
      else
        match ls with
        | [] => [String c ""]
        | l :: ls' => String c l :: ls'
        end
  end.

Record phase : Type := mkPhase {
  ph_name : string;
  ph_rows : list species_row
}.

Record solid : Type := mkSolid {
  ps_name : string;
  ps_g : float
}.

Record page : Type := mkPage {
  page_num : N;
  T_C : float;
  Fe_g : option float;
  phases : list phase;
  pure_solids : list solid
}.

Definition num_dot (c : ascii) : bool := (is_digit c || Ascii.eqb c ".")%bool.
Definition num_dot_minus (c : ascii) : bool :=
  (is_digit c || Ascii.eqb c "." || Ascii.eqb c "-")%bool.

(** [^Page\s+(\d+)\s*-\s*([0-9.]+)\s*C] *)
Definition page_re : regex :=
  seql [Bol; Lit "Page"; Plus is_space; Group 1 (Plus is_digit);
        Star is_space; Chr "-"; Star is_space; Group 2 (Plus num_dot);
        Star is_space; Chr "C"].

(** [^\s*Fe\b.*?m\s*=\s*([0-9.]+)\s*g] *)
Definition fe_re : regex :=
  seql [Bol; Star is_space; Lit "Fe"; WordB; LazyStar any_but_newline;
        Chr "m"; Star is_space; Chr "="; Star is_space;
        Group 1 (Plus num_dot); Star is_space; Chr "g"].

(** [^\s*TOTAL] *)
Definition total_re : regex := seql [Bol; Star is_space; Lit "TOTAL"].

(** [^\s*(\S+)\s+([0-9.\-]+)\s+([0-9.\-]+)\s+([0-9.\-]+)\s+([0-9.\-]+)\s+([0-9.\-]+)\s*$] *)
Definition row_re : regex :=
  seql [Bol; Star is_space; Group 1 (Plus non_space);
        Plus is_space; Group 2 (Plus num_dot_minus);
        Plus is_space; Group 3 (Plus num_dot_minus);
        Plus is_space; Group 4 (Plus num_dot_minus);
        Plus is_space; Group 5 (Plus num_dot_minus);
        Plus is_space; Group 6 (Plus num_dot_minus);
        Star is_space; Eol].

(** [^\s*(\S+)\s+([0-9.\-]+)\s+([0-9.\-]+)\s*$] *)
Definition solid_re : regex :=
  seql [Bol; Star is_space; Group 1 (Plus non_space);
        Plus is_space; Group 2 (Plus num_dot_minus);
        Plus is_space; Group 3 (Plus num_dot_minus);
        Star is_space; Eol].

Definition is_some {A : Type} (o : option A) : bool :=
  match o with
  | Some _ => true
  | None => false
  end.

(** [next_is_page_sep(k)] on the lines from [k] on. *)
Definition next_is_page_sep (ls : list string) : bool :=
  match ls with
  | l0 :: l1 :: _ =>
      (startswith l0 (repeat_char "=" 10) && contains "Page" l1)%bool
  | _ => false
  end.

(** The inner loop over the reactant lines: the Fe mass read so far and the
    lines from [j] on. *)
Fixpoint scan_reactants (fe : option float) (ls : list string)
  : option float * list string :=
  match ls with
  | [] => (fe, [])
  | l :: ls' =>
      if (negb (String.eqb (strip l) "") && negb (startswith l "PHASE:"))%bool
      then
        let fe' :=
          match re_search fe_re l with
          | Some m =>
              match py_float (group 1 m) with
              | Some v => Some v
              | None => fe
              end
          | None => fe
          end in
        scan_reactants fe' ls'
      else (fe, ls)
  end.

(** The loop from the page header to the first ["PHASE:"] line or through
    the reactant list. *)
Fixpoint find_reactants (ls : list string) : option float * list string :=
  match ls with
  | [] => (None, [])
  | l :: ls' =>
      if startswith l "PHASE:" then (None, ls)
      else if startswith (strip l) "Reactants (page scope):"
      then scan_reactants None ls'
      else find_reactants ls'
  end.

(** The loop over the rows of a phase section; a field that [float]
    rejects raises. *)
Fixpoint read_phase_rows (ls : list string)
  : option (list species_row * list string) :=
  match ls with
  | [] => Some ([], [])
  | l :: ls' =>
      let s2 := strip l in
      if (String.eqb s2 "" || startswith s2 "PHASE:"
          || startswith s2 "PURE SOLIDS:"
          || startswith s2 "System Thermodynamics:")%bool
      then Some ([], ls)
      else if is_some (re_match total_re s2) then read_phase_rows ls'
      else
        match re_match row_re s2 with
        | Some m =>
            let* g := py_float (group 2 m) in
            let* W := py_float (group 3 m) in
            let* n := py_float (group 4 m) in
            let* X := py_float (group 5 m) in
            let* a := py_float (group 6 m) in
            let* (rows, rest) := read_phase_rows ls' in
            Some (mkRow (group 1 m) g W n X a :: rows, rest)
        | None => read_phase_rows ls'
        end
  end.

(** The loop over the rows of the pure solids section. *)
Fixpoint read_solid_rows (ls : list string)
  : option (list solid * list string) :=
  match ls with
  | [] => Some ([], [])
  | l :: ls' =>
      let s2 := strip l in
      if (String.eqb s2 "" || startswith s2 "PHASE:"
          || startswith s2 "System Thermodynamics:")%bool
      then Some ([], ls)
      else
        match re_match solid_re s2 with
        | Some m =>
            let* g := py_float (group 2 m) in
            let* (rows, rest) := read_solid_rows ls' in
            Some (mkSolid (group 1 m) g :: rows, rest)
        | None => read_solid_rows ls'
        end
  end.

(** The loop over the sections of one page, from line [k] to the next page
    separator; every round passes over at least one line, and [fuel] bounds
    the number of rounds. *)
Fixpoint read_sections (fuel : nat) (ls : list string)
  : option (list phase * list solid * list string) :=
  match fuel with
  | O => Some ([], [], ls)
  | S fuel' =>
      match ls with
      | [] => Some ([], [], [])
      | l :: ls' =>
          if next_is_page_sep ls then Some ([], [], ls)
          else
            let st := strip l in
            if startswith st "PHASE:" then
              let* item := split_item1 "PHASE:" st in
              let* (rows, rest) := read_phase_rows (tl ls') in
              let* (phs, sols, rest') := read_sections fuel' rest in
              Some (mkPhase (strip item) rows :: phs, sols, rest')
            else if startswith st "PURE SOLIDS:" then
              let* (srows, rest) := read_solid_rows (tl ls') in
              let* (phs, sols, rest') := read_sections fuel' rest in
              Some (phs, (srows ++ sols)%list, rest')
            else read_sections fuel' ls'
      end
  end.

(** The main loop of [parse_txt_pages] on the lines from [i] on. *)
Fixpoint parse_pages (fuel : nat) (ls : list string) : option (list page) :=
  match fuel with
  | O => Some []
  | S fuel' =>
      match ls with
      | [] => Some []
      | l :: ls' =>
          match re_match page_re (strip l) with
          | None => parse_pages fuel' ls'
          | Some m =>
              let num := int_digits 0 (group 1 m) in
              let* temp_C := py_float (group 2 m) in
              let '(fe_mass_g, ls_j) := find_reactants ls' in
              let* (phs, sols, ls_k) :=
                read_sections (S (List.length ls_j)) ls_j in
              let* pages := parse_pages fuel' ls_k in
              Some (mkPage num temp_C fe_mass_g phs sols :: pages)
          end
      end
  end.

Definition parse_lines (lines : list string) : option (list page) :=
  parse_pages (S (List.length lines)) lines.

Definition parse_txt_pages (txt : string) : option (list page) :=
  parse_lines (readlines txt).

(** ** Phase classification helpers *)

Definition is_metal_liquid_phase (name : string) : bool :=
  let n := lower name in
  (contains "fe-liq" n || contains "liquid" n)%bool.

Definition is_slag_liquid_phase (name : string) : bool :=
  let n := lower name in
  (contains "slag" n && (contains "liq" n || contains "liquid" n))%bool.

(** [\b(bcc|fcc|hcp)\b] *)
Definition crystal_re : regex :=
  seql [WordB; Group 1 (Alt (Lit "bcc") (Alt (Lit "fcc") (Lit "hcp"))); WordB].

Definition is_metal_intermetallic_phase (name : string) : bool :=
  let n := lower name in
  if (contains "liq" n || contains "liquid" n || contains "slag" n)%bool
  then false
  else (is_some (re_search crystal_re n)
        || (contains "fe" n && contains "si" n && negb (contains "o" n)))%bool.

Definition is_metal_intermetallic_puresolid (name : string) : bool :=
  let raw := replace "(s)" "" name in
  (contains "Fe" raw && contains "Si" raw && negb (contains "O" raw))%bool.

Definition is_slag_solid_phase (name : string) : bool :=
  let n := lower name in
  if (contains "liq" n || contains "liquid" n)%bool then false
  else if contains "slag" n then true
  else contains "o" n.

Definition is_slag_puresolid (name : string) : bool := contains "O" name.

(** ** Composition formatting *)

(** A composition: species name -> (W, a, g). *)
Definition comp : Type := list (string * (float * float * float)).

Definition comp_W (v : float * float * float) : float := fst (fst v).
Definition comp_a (v : float * float * float) : float := snd (fst v).
Definition comp_g (v : float * float * float) : float := snd v.

Definition format_comp (c : comp) : string :=
  join "  |  "
    (map (fun '(name, v) =>
            name ++ ":  " ++ fmt3 (comp_W v) ++ "  (a=" ++ fmt4 (comp_a v)
                 ++ ")  ")
         (sorted_desc (fun kv => comp_W (snd kv)) c)).

Definition comp_total_mass (c : comp) : float :=
  fold_left (fun total kv => fadd total (comp_g (snd kv))) c (lit "0.0").

Definition comp_text_with_total (c : comp) : string :=
  format_comp c ++ "  |  TOTAL: " ++ fmt3 (comp_total_mass c) ++ " g".

(** ** Group pages into simulations *)

Definition fe_tol : float := Eval vm_compute in lit "1e-3".

(** The [reset] test of one round of [group_simulations]. *)
Definition reset_test (cur : list page) (last_fe : option float) (p : page)
  : bool :=
  ((N.eqb (page_num p) 1 && negb (match cur with [] => true | _ => false end))
   || match last_fe, Fe_g p with
      | Some l, Some f => fgtb (fabs (fsub f l)) fe_tol
      | _, _ => false
      end)%bool.

(** The loop of [group_simulations]: the runs closed so far, the current
    run and the last Fe mass seen. *)
Fixpoint group_loop (sims : list (list page)) (cur : list page)
    (last_fe : option float) (pages : list page) : list (list page) :=
  match pages with
  | [] =>
      match cur with
      | [] => sims
      | _ => (sims ++ [cur])%list
      end
  | p :: pages' =>
      let reset := reset_test cur last_fe p in
      let sims' := if reset then (sims ++ [cur])%list else sims in
      let cur' := ((if reset then [] else cur) ++ [p])%list in
      let last_fe' := match Fe_g p with
                      | Some f => Some f
                      | None => last_fe
                      end in
      group_loop sims' cur' last_fe' pages'
  end.

Definition group_simulations (pages : list page) : list (list page) :=
  group_loop [] [] None pages.

(** ** Analyze a simulation *)

Record candidate : Type := mkCand {
  c_T_C : float;
  c_comp : comp;
  c_Si_w : float
}.

Record scan_state : Type := mkScan {
  collected : list candidate;
  s_stop_T : option float;
  s_stop_phases : list string;
  prev_slag_comp : option comp;
  s_slag_first_T : option float;
  s_slag_first_phases : list string;
  s_slag_comp_before : option comp
}.

Definition init_scan : scan_state := mkScan [] None [] None None [] None.

Definition has_rows (ph : phase) : bool :=
  match ph_rows ph with
  | [] => false
  | _ => true
  end.

Definition non_empty {A : Type} (l : list A) : bool :=
  match l with
  | [] => false
  | _ => true
  end.

Definition slag_phases_here (g_threshold : float) (pg : page) : list string :=
  (map ph_name
     (filter (fun ph => (has_rows ph && is_slag_solid_phase (ph_name ph))%bool)
        (phases pg))
   ++ map ps_name
     (filter (fun ps =>
                (fgeb (ps_g ps) g_threshold
                 && is_slag_puresolid (ps_name ps))%bool)
        (pure_solids pg)))%list.

Definition metal_phases_here (g_threshold : float) (pg : page)
  : list string :=
  (map ph_name
     (filter
        (fun ph =>
           (has_rows ph && is_metal_intermetallic_phase (ph_name ph))%bool)
        (phases pg))
   ++ map ps_name
     (filter (fun ps =>
                (fgeb (ps_g ps) g_threshold
                 && is_metal_intermetallic_puresolid (ps_name ps))%bool)
        (pure_solids pg)))%list.

(** [{r["name"]: (r["W"], r["a"], r["g"]) for r in rows}] *)
Definition comp_of_rows (rows : list species_row) : comp :=
  dict_of String.eqb
    (map (fun r => (row_name r, (row_W r, row_a r, row_g r))) rows).

(** The first phase of the page, in listed order, that passes [test] and
    has rows. *)
Definition first_phase (test : string -> bool) (pg : page) : option phase :=
  find (fun ph => (test (ph_name ph) && has_rows ph)%bool) (phases pg).

Definition slag_step (g_threshold : float) (st : scan_state) (pg : page)
  : scan_state :=
  match s_slag_first_T st with
  | Some _ => st
  | None =>
      match slag_phases_here g_threshold pg with
      | [] => st
      | here =>
          mkScan (collected st) (s_stop_T st) (s_stop_phases st)
            (prev_slag_comp st) (Some (T_C pg)) (sorted_set here)
            (prev_slag_comp st)
      end
  end.

Definition liquid_step (st : scan_state) (pg : page) : scan_state :=
  match first_phase is_metal_liquid_phase pg with
  | None => st
  | Some liq =>
      let c := comp_of_rows (ph_rows liq) in
      let si_w := match dict_get String.eqb "Si" c with
                  | Some v => comp_W v
                  | None => lit "0.0"
                  end in
      mkScan (collected st ++ [mkCand (T_C pg) c si_w])%list
        (s_stop_T st) (s_stop_phases st) (prev_slag_comp st)
        (s_slag_first_T st) (s_slag_first_phases st) (s_slag_comp_before st)
  end.

Definition slag_liquid_step (st : scan_state) (pg : page) : scan_state :=
  match first_phase is_slag_liquid_phase pg with
  | None => st
  | Some slag_liq =>
      mkScan (collected st) (s_stop_T st) (s_stop_phases st)
        (Some (comp_of_rows (ph_rows slag_liq)))
        (s_slag_first_T st) (s_slag_first_phases st) (s_slag_comp_before st)
  end.

(** The scan of the pages of one run, from high to low temperature. *)
Fixpoint scan (g_threshold : float) (st : scan_state) (pages : list page)
  : scan_state :=
  match pages with
  | [] => st
  | pg :: pages' =>
      let st1 := slag_step g_threshold st pg in
      let metal := metal_phases_here g_threshold pg in
      if (non_empty metal && negb (is_some (s_stop_T st1)))%bool
      then
        (* stop at first precipitation *)
        mkScan (collected st1) (Some (T_C pg)) (sorted_set metal)
          (prev_slag_comp st1) (s_slag_first_T st1) (s_slag_first_phases st1)
          (s_slag_comp_before st1)
      else
        scan g_threshold (slag_liquid_step (liquid_step st1 pg) pg) pages'
  end.

(** [max(l, key=key)]: the first element with the greatest key. *)
Definition max_by {A : Type} (key : A -> float) (x : A) (l : list A) : A :=
  fold_left (fun best y => if fgtb (key y) (key best) then y else best) l x.

Record analysis : Type := mkAnalysis {
  a_Fe_g : option float;
  best_T : option float;
  best_Si : option float;
  best_comp : comp;
  stop_T : option float;
  stop_phases : list string;
  slag_first_T : option float;
  slag_first_phases : list string;
  slag_comp_before : comp
}.

Definition or_empty (c : option comp) : comp :=
  match c with
  | Some d => d
  | None => []
  end.

Definition analyze_simulation_with (g_threshold : float)
    (sim_pages : list page) : analysis :=
  let sim_pages := sorted_desc T_C sim_pages in
  let fe_g := match sim_pages with
              | p :: _ => Fe_g p
              | [] => None
              end in
  let st := scan g_threshold init_scan sim_pages in
  match collected st with
  | [] =>
      mkAnalysis fe_g None None [] (s_stop_T st) (s_stop_phases st)
        (s_slag_first_T st) (s_slag_first_phases st)
        (or_empty (s_slag_comp_before st))
  | c :: cs =>
      let best := max_by c_Si_w c cs in
      mkAnalysis fe_g (Some (c_T_C best)) (Some (c_Si_w best)) (c_comp best)
        (s_stop_T st) (s_stop_phases st)
        (s_slag_first_T st) (s_slag_first_phases st)
        (or_empty (s_slag_comp_before st))
  end.

Definition analyze_simulation (sim_pages : list page) : analysis :=
  analyze_simulation_with G_MIN sim_pages.

(** The ranking of [run_liquid_analysis]: the runs with a best liquid, by
    decreasing silicon, the first [top_k] of them. *)
Definition neg_best_Si (r : analysis) : float :=
  match best_Si r with
  | Some s => fneg s
  | None => fzero
  end.

Definition rank_results (top_k : nat) (results : list analysis)
  : list analysis :=
  firstn top_k
    (sorted_asc neg_best_Si
       (filter (fun r => (is_some (best_Si r) && non_empty (best_comp r))%bool)
          results)).

Definition analyze_pages (top_k : nat) (pages : list page) : list analysis :=
  rank_results top_k (map analyze_simulation (group_simulations pages)).

Definition run_liquid_analysis (txt : string) (top_k : nat)
  : option (list analysis) :=
  let* pages := parse_txt_pages txt in
  Some (analyze_pages top_k pages).

(** ** The report rows *)

Definition not_found : string := "not found".

Definition opt_text (f : float -> string) (o : option float) : string :=
  match o with
  | None => not_found
  | Some x => f x
  end.

Definition names_text (l : list string) : string :=
  match l with
  | [] => not_found
  | _ => join ", " l
  end.

Definition comp_text (c : comp) : string :=
  match c with
  | [] => not_found
  | _ => comp_text_with_total c
  end.

(** The ten fields of the row written for the hit of rank [idx]. *)
Definition report_row (idx : N) (r : analysis) : list string :=
  [str_of_N idx;
   opt_text fmt3 (a_Fe_g r);
   opt_text fmt2f (best_T r);
   opt_text fmt3 (best_Si r);
   comp_text (best_comp r);
   opt_text fmt2f (stop_T r);
   names_text (stop_phases r);
   opt_text fmt2f (slag_first_T r);
   names_text (slag_first_phases r);
   comp_text (slag_comp_before r)].

Fixpoint enumerate {A : Type} (i : N) (l : list A) : list (N * A) :=
  match l with
  | [] => []
  | x :: l' => (i, x) :: enumerate (N.succ i) l'
  end.

Definition report_rows (hits : list analysis) : list (list string) :=
  map (fun '(idx, r) => report_row idx r) (enumerate 1 hits).

(** The data rows that [analyze_xml_path_to_file] hands to the CSV writer
    for a parsed document. *)
Definition analyze_xml_path_to_file (root : ET.element)
  : option (list (list string)) :=
  let* txt := convert_factsage_xml_to_txt root in
  let* hits := run_liquid_analysis txt 3 in
  Some (report_rows hits).


(** * Notions used in the statements *)

Definition is_nan (x : float) : bool :=
  match x with
  | S754_nan => true
  | _ => false
  end.

(** A float that is not NaN, placed on three integer axes: the comparison
    of [SpecFloat] is the lexicographic order of these places. *)
Definition place (x : float) : Z * Z * Z :=
  match x with
  | S754_nan => (0, 0, 0)
  | S754_infinity true => (-2, 0, 0)
  | S754_infinity false => (2, 0, 0)
  | S754_zero _ => (0, 0, 0)
  | S754_finite true m e => (-1, - e, - Zpos m)
  | S754_finite false m e => (1, e, Zpos m)
  end.

Definition lex3 (a b : Z * Z * Z) : comparison :=
  let '(a1, a2, a3) := a in
  let '(b1, b2, b3) := b in
  match a1 ?= b1 with
  | Eq => match a2 ?= b2 with
          | Eq => a3 ?= b3
          | c => c
          end
  | c => c
  end.


(** The keys of a list are free of NaN. *)
Definition keys_ok {A : Type} (key : A -> float) (l : list A) : Prop :=
  Forall (fun x => is_nan (key x) = false) l.

(** Increasing and decreasing order of keys. *)
Definition key_le {A : Type} (key : A -> float) (a b : A) : Prop :=
  fleb (key a) (key b) = true.
Definition key_ge {A : Type} (key : A -> float) (a b : A) : Prop :=
  fleb (key b) (key a) = true.

(** A run that has a best liquid. *)
Definition valid_run (r : analysis) : bool :=
  (is_some (best_Si r) && non_empty (best_comp r))%bool.

(** The best silicon value of [a] is at least that of [b]. *)
Definition si_ge (a b : analysis) : Prop :=
  match best_Si a, best_Si b with
  | Some x, Some y => fleb y x = true
  | _, _ => False
  end.

(** A one-page run whose metallic liquid holds silicon at the weight value
    written [w]. *)
Definition si_run (w : string) : page :=
  mkPage 1 (lit "1500") None
    [mkPhase "Fe-liq" [mkRow "Si" (lit "1") (lit w) fzero fzero fzero]] [].

(** The Fe mass of the last page of [l] that reports one. *)
Definition last_seen (start : option float) (l : list page) : option float :=
  fold_left (fun acc p => match Fe_g p with
                          | Some f => Some f
                          | None => acc
                          end) l start.

Definition last_reported (l : list page) : option float := last_seen None l.

(** The Fe mass of [p] differs by more than 1e-3 from [last]. *)
Definition mass_jump (last : option float) (p : page) : bool :=
  match last, Fe_g p with
  | Some l, Some f => fgtb (fabs (fsub f l)) (lit "1e-3")
  | _, _ => false
  end.

(** The indices, in the page sequence, at which the runs start. *)
Fixpoint run_starts (from : nat) (runs : list (list page)) : list nat :=
  match runs with
  | [] => []
  | r :: rs => from :: run_starts (from + List.length r) rs
  end.

(** The runs that [group_loop] still produces from a state. *)
Fixpoint group_from (cur : list page) (last_fe : option float)
    (pages : list page) : list (list page) :=
  match pages with
  | [] =>
      match cur with
      | [] => []
      | _ => [cur]
      end
  | p :: pages' =>
      let last_fe' := match Fe_g p with
                      | Some f => Some f
                      | None => last_fe
                      end in
      if reset_test cur last_fe p
      then cur :: group_from [p] last_fe' pages'
      else group_from (cur ++ [p])%list last_fe' pages'
  end.

Definition mass_page (num : N) (mass : string) : page :=
  mkPage num (lit "1500") (Some (lit mass)) [] [].

(** The candidates that the scan collects on pages without precipitate. *)
Definition candidate_of (pg : page) : list candidate :=
  match first_phase is_metal_liquid_phase pg with
  | None => []
  | Some liq =>
      let c := comp_of_rows (ph_rows liq) in
      [mkCand (T_C pg) c
         match dict_get String.eqb "Si" c with
         | Some v => comp_W v
         | None => lit "0.0"
         end]
  end.

Definition candidates_of (pages : list page) : list candidate :=
  flat_map candidate_of pages.

(** The synthetic two-condition document: one run, a metallic liquid
    "Fe-liq" with silicon at weight fraction 0.02 at 1600 C (1873.15 K) and
    0.05 at 1500 C (1773.15 K); with [solid], condition 2 also reports the
    pure solid "FeSi2(s)" at 1.0 g. *)
Definition two_condition_header (solid : bool) : ET.element :=
  ET.Element "header" []
    ([ET.Element "reactant" [("id", "1"); ("name", "Fe"); ("mw", "55.845")] [];
      ET.Element "reactant" [("id", "2"); ("name", "Si"); ("mw", "28.0855")] [];
      ET.Element "species_definition" []
        [ET.Element "solution" [("phase_id", "1"); ("state", "FTmisc-Fe-liq")]
           [ET.Element "species" [("id", "s1"); ("name", "Fe")] [];
            ET.Element "species" [("id", "s2"); ("name", "Si")] []]]]
     ++ (if solid
         then [ET.Element "species"
                 [("id", "s3"); ("name", "FeSi2(s)"); ("phase", "s")] []]
         else []))%list.

Definition two_condition_page (id T gFe wFe gSi wSi : string) (solid : bool)
  : ET.element :=
  ET.Element "page" [("id", id); ("T", T)]
    ([ET.Element "reactant" [("id", "1"); ("n", "1.5")] [];
      ET.Element "reactant" [("id", "2"); ("n", "0.1")] [];
      ET.Element "solution" [("id", "1"); ("g", "100")] [];
      ET.Element "result"
        [("id", "s1"); ("g", gFe); ("W", wFe); ("n", "1.7"); ("X", "0.9");
         ("a", "0.95")] [];
      ET.Element "result"
        [("id", "s2"); ("g", gSi); ("W", wSi); ("n", "0.07"); ("X", "0.1");
         ("a", "1.5D-03")] []]
     ++ (if solid
         then [ET.Element "result" [("id", "s3"); ("g", "1.0"); ("a", "1.0")] []]
         else []))%list.

Definition two_condition_doc (solid : bool) : ET.element :=
  ET.Element "factsage" [("formula", "Fe + Si")]
    [two_condition_header solid;
     two_condition_page "1" "1873.15" "98" "0.98" "2" "0.02" false;
     two_condition_page "2" "1773.15" "95" "0.95" "5" "0.05" solid].

(** The hits of the pipeline on a parsed document, before they are
    rendered. *)
Definition analyze_document (root : ET.element) : option (list analysis) :=
  let* txt := convert_factsage_xml_to_txt root in
  run_liquid_analysis txt 3.

Definition str_lt (a b : string) : Prop := str_ltb a b = true.

(** Every character of a text is in a class. *)
Fixpoint all_in (p : ascii -> bool) (t : string) : bool :=
  match t with
  | EmptyString => true
  | String c t' => (p c && all_in p t')%bool
  end.

(** The character before the position reached after the text [t]. *)
Fixpoint last_of (pv : option ascii) (t : string) : option ascii :=
  match t with
  | EmptyString => pv
  | String c t' => last_of (Some c) t'
  end.

(** The texts a pattern matches: [matches r pv t s'] when [r] matches
    the text [t], that stands after the character [pv] and before the
    text [s']. *)
Fixpoint matches (r : regex) (pv : option ascii) (t s' : string) : Prop :=
  match r with
  | Eps => t = ""
  | Chr c => t = String c ""
  | Cls p => exists c, t = String c "" /\ p c = true
  | Seq r1 r2 =>
      exists t1 t2, t = t1 ++ t2
                    /\ matches r1 pv t1 (t2 ++ s')
                    /\ matches r2 (last_of pv t1) t2 s'
  | Alt r1 r2 => matches r1 pv t s' \/ matches r2 pv t s'
  | Opt r1 => t = "" \/ matches r1 pv t s'
  | Star p | LazyStar p => all_in p t = true
  | Plus p => t <> "" /\ all_in p t = true
  | Group _ r1 => matches r1 pv t s'
  | Bol => t = "" /\ pv = None
  | Eol => t = "" /\ (s' = "" \/ s' = String "010" "")
  | WordB =>
      t = "" /\ xorb (is_word_opt pv) (is_word_opt (head_char s')) = true
  | Behind p => t = "" /\ exists c, pv = Some c /\ p c = true
  end.

(** Following the words of the spec: the prefix that [cleanPhaseLabel]
    strips is "two uppercase letters followed by lowercase letters followed
    by a hyphen", [^[A-Z][A-Z][a-z]+-]. *)
Definition spec_prefix_re : regex :=
  seql [Bol; Cls is_upper; Cls is_upper; Plus is_lower; Chr "-"].

Definition cleanPhaseLabel_spec (text : string) : string :=
  re_sub spec_prefix_re (fun _ => "") text.

(** The match the search of [re] reports first. *)
Definition heads (r : regex) (st st' : state) : Prop :=
  exists l, run r st = st' :: l.

(** The next character, if any, is outside the class. *)
Definition stops (p : ascii -> bool) (s : string) : Prop :=
  match s with
  | String c _ => p c = false
  | EmptyString => True
  end.

(** The pages of the precipitation scenario, as the reconstructor returns
    them. *)
Definition liquid_rows (wFe wSi : string) : list species_row :=
  [mkRow "Fe" (lit "95") (lit wFe) (lit "1.7") (lit "0.9") (lit "0.95");
   mkRow "Si" (lit "5") (lit wSi) (lit "0.07") (lit "0.1") (lit "0.0015")].

Definition precipitation_pages : list page :=
  [mkPage 1 (lit "1600") (Some (lit "83.767"))
     [mkPhase "Fe-liq" (liquid_rows "98" "2")] [];
   mkPage 2 (lit "1500") (Some (lit "83.767"))
     [mkPhase "Fe-liq" (liquid_rows "95" "5")]
     [mkSolid "FeSi2(s)" (lit "1")]].

(** The precipitation scenario with the pure solid at the mass written
    [g]. *)
Definition threshold_pages (g : string) : list page :=
  [mkPage 1 (lit "1600") None [mkPhase "Fe-liq" (liquid_rows "98" "2")] [];
   mkPage 2 (lit "1500") None [mkPhase "Fe-liq" (liquid_rows "95" "5")]
     [mkSolid "FeSi2(s)" (lit g)]].

(** A run whose pages are not listed by temperature: 1400 C with the pure
    solid, then 1600 C, then 1500 C. *)
Definition unsorted_pages : list page :=
  [mkPage 3 (lit "1400") None [mkPhase "Fe-liq" (liquid_rows "91" "9")]
     [mkSolid "FeSi2(s)" (lit "1")];
   mkPage 1 (lit "1600") None [mkPhase "Fe-liq" (liquid_rows "98" "2")] [];
   mkPage 2 (lit "1500") None [mkPhase "Fe-liq" (liquid_rows "95" "5")] []].

Definition ranking_runs : list analysis :=
  map analyze_simulation
    (group_simulations (map si_run ["0.03"; "0.07"; "0.01"; "0.09"])).

Definition grouping_pages : list page :=
  [mass_page 1 "10"; mass_page 2 "10"; mass_page 3 "10";
   mass_page 1 "20"; mass_page 2 "20"].

(** A page that reports no Fe mass. *)
Definition massless_page (num : N) : page :=
  mkPage num (lit "1500") None [] [].

(** Page sequences without a page number 1 after the first page: only
    the mass rule can split them. *)
Definition drifting_pages : list page :=
  [mass_page 2 "10"; mass_page 3 "10.0005"; mass_page 4 "10.002"].

Definition gap_pages : list page :=
  [mass_page 2 "10"; massless_page 3; mass_page 4 "10.0005";
   massless_page 5; mass_page 6 "10.002"].

Definition at_tolerance_pages : list page :=
  [mass_page 2 "0"; mass_page 3 "1e-3"; mass_page 4 "0.0021"].

(** The text that [fnum] hands to [float]. *)
Definition fnum_text (s : string) : string := replace "D" "E" (strip s).

(** An optionally signed "inf", "infinity" or "nan", in any letter case. *)
Definition special_literal (s : string) : bool :=
  let l := lower (snd (parse_sign (strip s))) in
  (String.eqb l "inf" || String.eqb l "infinity" || String.eqb l "nan")%bool.

(** A line as [readlines] returns it. *)
Definition nl : string := String "010" "".
Definition as_read (lines : list string) : list string :=
  map (fun l => l ++ nl) lines.

(** The line, read back, is a page header for the reconstructor. *)
Definition is_header (line : string) : bool :=
  is_some (re_match page_re (strip line)).

(** A document of three conditions, the second of which has no T
    attribute and the description "-5 C". *)
Definition cold_page : ET.element :=
  ET.Element "page" [("id", "2"); ("description", "cooled to -5 C")]
    [ET.Element "reactant" [("id", "1"); ("n", "1.5")] [];
     ET.Element "solution" [("id", "1"); ("g", "100")] [];
     ET.Element "result"
       [("id", "s1"); ("g", "97"); ("W", "0.97"); ("n", "1.7"); ("X", "0.9");
        ("a", "0.95")] [];
     ET.Element "result"
       [("id", "s2"); ("g", "3"); ("W", "0.03"); ("n", "0.07"); ("X", "0.1");
        ("a", "1.5D-03")] []].

Definition cold_doc : ET.element :=
  ET.Element "factsage" [("formula", "Fe + Si")]
    [two_condition_header false;
     two_condition_page "1" "1873.15" "98" "0.98" "2" "0.02" false;
     cold_page;
     two_condition_page "3" "1773.15" "95" "0.95" "5" "0.05" false].

(** A text without white space at either end. *)
Definition trimmed (s : string) : Prop :=
  stops is_space s
  /\ match last_of None s with
     | Some d => is_space d = false
     | None => True
     end.

(** The float that [float] reads from the text of [x] with [k] decimals:
    the double nearest to the decimal number, of [k] decimals, nearest to
    [x]. *)
Definition reread (k : nat) (x : float) : float :=
  match x with
  | S754_finite s m e =>
      float_of_decimal s (scaled_round k m e) (- Z.of_nat k)
  | _ => x
  end.

(** The float read from [fmt3 x] and [fmt4 x]: a zero is written "0". *)
Definition reread_fmt (k : nat) (x : float) : float :=
  match x with
  | S754_zero _ => S754_zero false
  | _ => reread k x
  end.

Definition digit_or_underscore (c : ascii) : bool :=
  (is_digit c || Ascii.eqb c "_")%bool.

(** A character that the lazy [.*?] of the Fe pattern passes over without
    a choice: any character but a newline and the letter m. *)
Definition not_m (c : ascii) : bool :=
  (any_but_newline c && negb (Ascii.eqb c "m"))%bool.

(** The text of a number in a column: [fmt3] or [fmt4]. *)
Definition fmt (k : nat) (x : float) : string :=
  if feqb (fabs x) fzero then "0" else format_fixed k x.

(** A non-empty text of one class. *)
Definition token (p : ascii -> bool) (t : string) : Prop :=
  t <> "" /\ all_in p t = true.

(** The row that the reconstructor reads from the line of [r]. *)
Definition reread_row (r : species_row) : species_row :=
  mkRow (row_name r) (reread_fmt 3 (row_g r))
    (reread_fmt 3 (fmul (row_W r) (lit "100")))
    (reread_fmt 3 (row_n r)) (reread_fmt 3 (row_X r))
    (reread_fmt 4 (row_a r)).

Definition reread_solid (r : string * float * float) : solid :=
  mkSolid (fst (fst r)) (reread_fmt 3 (solid_g r)).

(** A species or solid name that a row can carry: not empty, without
    white space, and not beginning like a section marker. *)
Definition name_ok (name : string) : Prop :=
  token non_space name
  /\ startswith name "TOTAL" = false
  /\ startswith name "PHASE:" = false
  /\ startswith name "PURE" = false
  /\ startswith name "System" = false.

(** A number fits a column of width [w] when a space is left before it. *)
Definition fits (w : nat) (t : string) : Prop := (String.length t < w)%nat.

Definition row_ok (r : species_row) : Prop :=
  name_ok (row_name r)
  /\ is_finite (row_g r) = true
  /\ is_finite (fmul (row_W r) (lit "100")) = true
  /\ is_finite (row_n r) = true
  /\ is_finite (row_X r) = true
  /\ is_finite (row_a r) = true
  /\ fits 10 (fmt3 (row_g r))
  /\ fits 10 (fmt3 (fmul (row_W r) (lit "100")))
  /\ fits 8 (fmt3 (row_n r))
  /\ fits 8 (fmt3 (row_X r))
  /\ fits 12 (fmt4 (row_a r)).

Definition solid_ok (r : string * float * float) : Prop :=
  name_ok (fst (fst r))
  /\ is_finite (solid_g r) = true
  /\ is_finite (snd r) = true
  /\ fits 12 (fmt3 (solid_g r))
  /\ fits 14 (fmt4 (snd r)).

(** The pages that the scan of a run passes before it stops: those before
    the first page with a metal-intermetallic match. *)
Fixpoint before_stop (g : float) (pages : list page) : list page :=
  match pages with
  | [] => []
  | pg :: pages' =>
      if non_empty (metal_phases_here g pg) then []
      else pg :: before_stop g pages'
  end.

(** The metallic liquids that the analysis of a run chooses from. *)
Definition liquids_seen (sim : list page) : list candidate :=
  candidates_of (before_stop G_MIN (sorted_desc T_C sim)).

(** Three pages of one run: silicon 5 at 1600 C, 7 at 1500 C and 7 at
    1400 C. *)
Definition si_page (num : N) (T w : string) : page :=
  mkPage num (lit T) None
    [mkPhase "Fe-liq" [mkRow "Si" (lit "1") (lit w) fzero fzero fzero]] [].

Definition tie_pages : list page :=
  [si_page 1 "1600" "5"; si_page 2 "1500" "7"; si_page 3 "1400" "7"].

(** The composition of the slag liquid of the last page of [pre] that has
    one. *)
Fixpoint last_slag_liquid (pre : list page) : option comp :=
  match pre with
  | [] => None
  | q :: pre' =>
      match last_slag_liquid pre' with
      | Some c => Some c
      | None =>
          match first_phase is_slag_liquid_phase q with
          | Some l => Some (comp_of_rows (ph_rows l))
          | None => None
          end
      end
  end.

(** A run of a slag liquid at 1600 C and 1500 C and a slag solid at
    1400 C. *)
Definition slag_page (num : N) (T name w : string) : page :=
  mkPage num (lit T) None
    [mkPhase name [mkRow "SiO2" (lit "1") (lit w) fzero fzero fzero]] [].

Definition slag_pages : list page :=
  [slag_page 1 "1600" "Slag-liq" "40"; slag_page 2 "1500" "Slag-liq" "45";
   slag_page 3 "1400" "Olivine" "100"].

(** The values of the second page of the two-condition document with the
    pure solid. *)
Definition sample_def : species_def :=
  match read_species_def (two_condition_doc true) with
  | Some d => d
  | None => empty_species_def
  end.

Definition sample_solids : list (string * attrs) :=
  match read_solid_species_map (two_condition_doc true) with
  | Some s => s
  | None => []
  end.

Definition sample_metas : list (string * (string * float)) :=
  match read_reactants_meta (two_condition_doc true) with
  | Some m => m
  | None => []
  end.

Definition sample_page : ET.element :=
  two_condition_page "2" "1773.15" "95" "0.95" "5" "0.05" true.

Definition sample_values : page_values :=
  match page_values_of sample_def sample_solids sample_metas sample_page with
  | Some v => v
  | None => mkValues "" fzero fzero fzero [] [] []
  end.

(** A digit becomes a subscript when the run of digits it stands in
    follows a letter or a closing parenthesis; [after] tells whether the
    last character that is no digit was one of these. *)
Definition formula_char (c : ascii) : bool :=
  (is_alpha c || Ascii.eqb c ")")%bool.

(** The subscript of a digit d, the character U+2080 + d, as the three
    bytes E2 82 80+d of its UTF-8 text. *)
Definition subscript_glyph (c : ascii) : string :=
  String "226" (String "130" (String (ascii_of_N (code c + 80)) "")).

Fixpoint subscript_spec (after : bool) (s : string) : string :=
  match s with
  | EmptyString => EmptyString
  | String c s' =>
      if is_digit c
      then (if after then subscript_glyph c else String c "")
             ++ subscript_spec after s'
      else String c (subscript_spec (formula_char c) s')
  end.

Definition no_newline (c : ascii) : bool :=
  negb (Ascii.eqb c "010" || Ascii.eqb c "013").

(** The part of the Fe pattern after its lazy [.*?]. *)
Definition fe_tail : regex :=
  seql [Chr "m"; Star is_space; Chr "="; Star is_space;
        Group 1 (Plus num_dot); Star is_space; Chr "g"].

(** A reactant whose line the Fe pattern passes by: its name is without
    white space and does not begin with the whole word "Fe". *)
Definition other_reactant (name : string) : Prop :=
  token non_space name
  /\ (startswith name "Fe" = true ->
      is_word_opt (head_char (drop 2 name)) = true).

(** A reactant line that is read as meant: the reactant "Fe" with a finite
    mass that is not negative, or a reactant that the Fe pattern passes
    by. *)
Definition reactant_ok (r : string * float * float) : Prop :=
  (fst (fst r) = "Fe" /\ is_finite (snd r) = true
   /\ fltb (snd r) fzero = false)
  \/ other_reactant (fst (fst r)).

(** The Fe mass read from the reactant lines: that of the last reactant
    "Fe". *)
Definition fe_mass_from (start : option float)
    (rs : list (string * float * float)) : option float :=
  fold_left
    (fun acc r =>
       if String.eqb (fst (fst r)) "Fe" then Some (reread_fmt 3 (snd r))
       else acc)
    rs start.

(** A formula line that the loop to the reactant list passes over. *)
Definition formula_ok (formula : string) : Prop :=
  startswith formula "PHASE:" = false
  /\ startswith (strip formula) "Reactants (page scope):" = false.

(** A phase section that is read as meant: the name of the phase is
    without white space at its ends and does not hold the marker, and the
    rows are well formed. *)
Definition section_ok (sec : string * list species_row) : Prop :=
  trimmed (fst sec) /\ contains "PHASE:" (fst sec) = false
  /\ Forall row_ok (snd sec).

(** The phase that the reconstructor reads from a section. *)
Definition section_phase (sec : string * list species_row) : phase :=
  mkPhase (fst sec) (map reread_row (sorted_desc row_g (snd sec))).

(** The lines after a block: none, or a separator line followed by a line
    that holds "Page". *)
Definition rest_ok (rest : list string) : Prop :=
  rest = [] \/ next_is_page_sep rest = true.

(** The values of a page from which a block is written that is read as
    meant. *)
Definition values_ok (formula : string) (v : page_values) : Prop :=
  v_pid v <> "" /\ all_in is_digit (v_pid v) = true
  /\ is_finite (v_tC v) = true /\ fltb (v_tC v) fzero = false
  /\ formula_ok formula
  /\ Forall reactant_ok (v_reactants v)
  /\ Forall section_ok (v_sections v)
  /\ Forall solid_ok (v_solids v).

(** The page that the reconstructor reads from the block of [v]. *)
Definition page_read (v : page_values) : page :=
  mkPage (int_digits 0 (v_pid v)) (reread_fmt 3 (v_tC v))
    (fe_mass_from None (v_reactants v))
    (map section_phase (v_sections v))
    (map reread_solid (sorted_desc solid_g (v_solids v))).

(** The values that the canonicalizer writes a document from: the formula
    line and the values of the pages. *)
Definition document_values (root : ET.element)
  : option (string * list page_values) :=
  let* d := read_species_def root in
  let* solids := read_solid_species_map root in
  let* metas := read_reactants_meta root in
  let* vs := mapM (page_values_of d solids metas) (ET.findall "page" root) in
  Some (subscript_formula_digits (ET.get_or "formula" "" (ET.attrib root)),
        vs).

(** The formula and the phase names hold no newline and no carriage
    return, so that every line is written as one line. *)
Definition written_ok (formula : string) (v : page_values) : Prop :=
  all_in no_newline formula = true
  /\ Forall (fun sec => all_in no_newline (fst sec) = true) (v_sections v).

(** The formula line and the page values of the two-condition document
    with the pure solid. *)
Definition sample_formula : string :=
  match document_values (two_condition_doc true) with
  | Some fv => fst fv
  | None => ""
  end.

Definition sample_pages : list page_values :=
  match document_values (two_condition_doc true) with
  | Some fv => snd fv
  | None => []
  end.

(** The rows of the liquid and the pure solid of the sample page. *)
Definition sample_rows : list species_row :=
  match v_sections sample_values with
  | sec :: _ => snd sec
  | [] => []
  end.

(** A page with a result element that has no id. *)
Definition page_without_id : ET.element :=
  ET.Element "page" [("id", "1"); ("T", "1873.15")]
    [ET.Element "result" [("g", "98"); ("W", "0.98")] []].

Definition doc_without_id : ET.element :=
  ET.Element "factsage" [("formula", "Fe + Si")]
    [two_condition_header false; page_without_id].

(** The place of the temperature of a page on the axes of [place]: two
    pages have the same place exactly when their temperatures are equal as
    numbers. *)
Definition temp_place (p : page) : Z * Z * Z := place (T_C p).

(** A character of ASCII, and a text of such characters: on these the
    character classes of the embedding are those of Python. *)
Definition plain_char (c : ascii) : bool := N.ltb (code c) 128.

Definition plain (t : string) : Prop := all_in plain_char t = true.

(** The names that a page is written from are ASCII text. *)
Definition plain_values (v : page_values) : Prop :=
  Forall (fun r => plain (fst (fst r))) (v_reactants v)
  /\ Forall (fun sec => plain (fst sec)
                        /\ Forall (fun r => plain (row_name r)) (snd sec))
       (v_sections v)
  /\ Forall (fun r => plain (fst (fst r))) (v_solids v).

(** The names on a page are ASCII text. *)
Definition plain_page (pg : page) : Prop :=
  Forall (fun ph => plain (ph_name ph)) (phases pg)
  /\ Forall (fun ps => plain (ps_name ps)) (pure_solids pg).

(** The phase does not pass [test] or has no rows. *)
Definition passed_over (test : string -> bool) (ph : phase) : Prop :=
  (test (ph_name ph) && has_rows ph)%bool = false.

(** A page that lists a metallic liquid without rows, a spinel, a slag
    liquid without silicon and a metallic liquid with silicon, in this
    order. *)
Definition slag_liquid_rows : list species_row :=
  [mkRow "SiO2" (lit "40") (lit "40") (lit "0.7") (lit "0.4") (lit "0.3");
   mkRow "CaO" (lit "60") (lit "60") (lit "1.1") (lit "0.6") (lit "0.5")].

Definition overlap_page : page :=
  mkPage 1 (lit "1600") None
    [mkPhase "Fe-liq" [];
     mkPhase "Spinel" [mkRow "MgAl2" (lit "3") (lit "100") fzero fzero fzero];
     mkPhase "Slag-liquid" slag_liquid_rows;
     mkPhase "Fe-liq" (liquid_rows "98" "2")]
    [].

(** The sign, the digits and the power of ten that [float] reads from a
    decimal literal: after trimming, an optional sign, digits with an
    optional point (at least one digit in all) and an optional exponent;
    [Some (neg, m, e)] stands for the number [m * 10^e], negated when
    [neg]. *)
Definition decimal_literal (t : string) : option (bool * N * Z) :=
  let '(neg, s1) := parse_sign (strip t) in
  let '(m1, n1, s2) :=
    match digitpart 0 s1 with
    | Some r => r
    | None => (0%N, O, s1)
    end in
  let '(m2, n2, s3) :=
    match s2 with
    | String "." s2' =>
        match digitpart m1 s2' with
        | Some r => r
        | None => (m1, O, s2')
        end
    | _ => (m1, O, s2)
    end in
  if (n1 + n2 =? 0)%nat then None
  else
    match s3 with
    | EmptyString => Some (neg, m2, - Z.of_nat n2)
    | String c s4 =>
        if (Ascii.eqb c "e" || Ascii.eqb c "E")%bool then
          match parse_exponent s4 with
          | Some (e, EmptyString) => Some (neg, m2, e - Z.of_nat n2)
          | _ => None
          end
        else None
    end.

(** The float nearest to the number of a decimal literal. *)
Definition decimal_value (d : bool * N * Z) : float :=
  let '(neg, m, e) := d in float_of_decimal neg m e.

(** The page id is short enough for [int]: at most 4300 digits. *)
Definition short_id (v : page_values) : Prop :=
  Nat.leb (String.length (v_pid v)) 4300 = true.

(** Every tag, attribute name and attribute value of the tree is ASCII
    text. *)
Fixpoint plain_element (e : ET.element) : bool :=
  match e with
  | ET.Element t a cs =>
      (all_in plain_char t
       && forallb (fun kv => (all_in plain_char (fst kv)
                              && all_in plain_char (snd kv))%bool) a
       && forallb plain_element cs)%bool
  end.

(** No reactant id of the header holds an apostrophe, so that the path
    [./reactant[@id='...']] made from it selects by equality of the id. *)
Definition quote_free_ids (root : ET.element) : Prop :=
  Forall (fun r => contains "'" (ET.get_or "id" "" (ET.attrib r)) = false)
    (ET.findall2 "header" "reactant" root).



(** * Facts about the built-ins *)

(** ** The order of floats *)

Section FloatOrder.

Lemma compare_place (x y : float) :
  is_nan x = false -> is_nan y = false ->
  SFcompare x y = Some (lex3 (place x) (place y)).
Proof.
  destruct x as [sx|sx| |sx mx ex], y as [sy|sy| |sy my ey];
    try discriminate; intros _ _;
    try (destruct sx; destruct sy; reflexivity);
    try (destruct sx; reflexivity); try (destruct sy; reflexivity).
  destruct sx, sy; try reflexivity; cbn [SFcompare place lex3].
  change (-1 ?= -1) with Eq. cbn iota.
  rewrite (Z.compare_opp ex ey), (Z.compare_antisym ex ey).
  destruct (ex ?= ey); reflexivity.
Qed.

Lemma lex3_le_trans (a b c : Z * Z * Z) :
  lex3 a b <> Gt -> lex3 b c <> Gt -> lex3 a c <> Gt.
Proof.
  destruct a as [[a1 a2] a3], b as [[b1 b2] b3], c as [[c1 c2] c3].
  unfold lex3.
  destruct (Z.compare_spec a1 b1), (Z.compare_spec b1 c1),
    (Z.compare_spec a1 c1); try lia; try congruence;
  destruct (Z.compare_spec a2 b2), (Z.compare_spec b2 c2),
    (Z.compare_spec a2 c2); try lia; try congruence;
  destruct (Z.compare_spec a3 b3), (Z.compare_spec b3 c3),
    (Z.compare_spec a3 c3); try lia; try congruence.
Qed.

Lemma lex3_antisym (a b : Z * Z * Z) : lex3 b a = CompOpp (lex3 a b).
Proof.
  destruct a as [[a1 a2] a3], b as [[b1 b2] b3]. unfold lex3.
  rewrite (Z.compare_antisym a1 b1), (Z.compare_antisym a2 b2),
    (Z.compare_antisym a3 b3).
  destruct (a1 ?= b1), (a2 ?= b2), (a3 ?= b3); reflexivity.
Qed.

Lemma fleb_place (x y : float) :
  is_nan x = false -> is_nan y = false ->
  fleb x y = true <-> lex3 (place x) (place y) <> Gt.
Proof.
  intros Hx Hy. unfold fleb, SFleb. rewrite (compare_place x y Hx Hy).
  destruct (lex3 (place x) (place y)); split; congruence.
Qed.

Lemma fltb_place (x y : float) :
  is_nan x = false -> is_nan y = false ->
  fltb x y = true <-> lex3 (place x) (place y) = Lt.
Proof.
  intros Hx Hy. unfold fltb, SFltb. rewrite (compare_place x y Hx Hy).
  destruct (lex3 (place x) (place y)); split; congruence.
Qed.

(** Without NaN the order is total and transitive. *)
Lemma fleb_trans (x y z : float) :
  is_nan x = false -> is_nan y = false -> is_nan z = false ->
  fleb x y = true -> fleb y z = true -> fleb x z = true.
Proof.
  intros Hx Hy Hz. rewrite !fleb_place by assumption.
  apply lex3_le_trans.
Qed.

Lemma fltb_false_fleb (x y : float) :
  is_nan x = false -> is_nan y = false ->
  fltb x y = false -> fleb y x = true.
Proof.
  intros Hx Hy H. apply fleb_place; try assumption.
  rewrite lex3_antisym. intro E.
  assert (L : lex3 (place x) (place y) = Lt)
    by (destruct (lex3 (place x) (place y)); try discriminate; reflexivity).
  apply fltb_place in L; try assumption. congruence.
Qed.

Lemma fltb_true_fleb (x y : float) :
  fltb x y = true -> fleb x y = true.
Proof.
  unfold fltb, fleb, SFltb, SFleb.
  destruct (SFcompare x y) as [[]|]; congruence.
Qed.

Lemma fleb_refl (x : float) : is_nan x = false -> fleb x x = true.
Proof.
  intro Hx. apply fleb_place; try assumption.
  pose proof (lex3_antisym (place x) (place x)) as A.
  destruct (lex3 (place x) (place x)); try discriminate; congruence.
Qed.

Lemma place_fneg (x : float) :
  place (fneg x) =
  let '(a, b, c) := place x in (- a, - b, - c).
Proof.
  destruct x as [s|s| |s m e]; try destruct s; cbn;
    rewrite ?Z.opp_involutive; reflexivity.
Qed.

Lemma is_nan_fneg (x : float) : is_nan (fneg x) = is_nan x.
Proof. destruct x; reflexivity. Qed.

Lemma lex3_opp (a1 a2 a3 b1 b2 b3 : Z) :
  lex3 (- a1, - a2, - a3) (- b1, - b2, - b3) = lex3 (b1, b2, b3) (a1, a2, a3).
Proof.
  unfold lex3. rewrite !Z.compare_opp. 
  rewrite (Z.compare_antisym a1 b1), (Z.compare_antisym a2 b2).
  destruct (a1 ?= b1), (a2 ?= b2); reflexivity.
Qed.

(** Negation reverses the order. *)
Lemma fleb_fneg (x y : float) :
  is_nan x = false -> is_nan y = false ->
  fleb (fneg x) (fneg y) = fleb y x.
Proof.
  intros Hx Hy.
  assert (E : lex3 (place (fneg x)) (place (fneg y))
              = lex3 (place y) (place x)).
  { rewrite !place_fneg.
    destruct (place x) as [[a1 a2] a3], (place y) as [[b1 b2] b3].
    apply lex3_opp. }
  unfold fleb, SFleb.
  rewrite (compare_place (fneg x) (fneg y)), (compare_place y x), E;
    try assumption; try (rewrite is_nan_fneg; assumption).
  reflexivity.
Qed.

End FloatOrder.

(** ** The two sorts *)

Section Sorts.
Context {A : Type} (key : A -> float).

Lemma insert_asc_perm (x : A) (l : list A) :
  Permutation (insert_asc key x l) (x :: l).
Proof.
  induction l as [|y l IH]; cbn.
  - apply Permutation_refl.
  - destruct (fltb (key x) (key y)).
    + apply Permutation_refl.
    + eapply Permutation_trans; [apply perm_skip, IH | apply perm_swap].
Qed.

Lemma insert_desc_perm (x : A) (l : list A) :
  Permutation (insert_desc key x l) (x :: l).
Proof.
  induction l as [|y l IH]; cbn.
  - apply Permutation_refl.
  - destruct (fltb (key y) (key x)).
    + apply Permutation_refl.
    + eapply Permutation_trans; [apply perm_skip, IH | apply perm_swap].
Qed.

Lemma fold_insert_perm (ins : A -> list A -> list A)
    (Hins : forall x l, Permutation (ins x l) (x :: l))
    (l acc : list A) :
  Permutation (fold_left (fun acc x => ins x acc) l acc) (acc ++ l).
Proof.
  revert acc. induction l as [|x l IH]; intro acc; cbn.
  - rewrite app_nil_r. apply Permutation_refl.
  - eapply Permutation_trans; [apply IH|].
    eapply Permutation_trans;
      [apply Permutation_app_tail, Hins|].
    cbn. apply Permutation_cons_app. apply Permutation_refl.
Qed.

Lemma sorted_asc_perm (l : list A) : Permutation (sorted_asc key l) l.
Proof. apply (fold_insert_perm (insert_asc key) insert_asc_perm l []). Qed.

Lemma sorted_desc_perm (l : list A) : Permutation (sorted_desc key l) l.
Proof. apply (fold_insert_perm (insert_desc key) insert_desc_perm l []). Qed.

Lemma insert_asc_sorted (x : A) (l : list A) :
  is_nan (key x) = false -> keys_ok key l ->
  StronglySorted (key_le key) l ->
  StronglySorted (key_le key) (insert_asc key x l).
Proof.
  intros Hx Hl Hs. induction Hs as [|y l Hs IH Hy]; cbn.
  - repeat constructor.
  - inversion Hl as [|? ? Hyn Hl']; subst.
    destruct (fltb (key x) (key y)) eqn:E.
    + constructor; [constructor; assumption|].
      constructor; [apply fltb_true_fleb, E|].
      unfold keys_ok in Hl'. rewrite Forall_forall in *. intros z Hz.
      apply (fleb_trans (key x) (key y) (key z));
        [assumption | assumption | apply Hl', Hz
        | apply fltb_true_fleb, E | apply Hy, Hz].
    + constructor; [apply IH, Hl'|].
      eapply Permutation_Forall;
        [apply Permutation_sym, insert_asc_perm|].
      constructor; [|assumption].
      apply fltb_false_fleb; assumption.
Qed.

Lemma insert_desc_sorted (x : A) (l : list A) :
  is_nan (key x) = false -> keys_ok key l ->
  StronglySorted (key_ge key) l ->
  StronglySorted (key_ge key) (insert_desc key x l).
Proof.
  intros Hx Hl Hs. induction Hs as [|y l Hs IH Hy]; cbn.
  - repeat constructor.
  - inversion Hl as [|? ? Hyn Hl']; subst.
    destruct (fltb (key y) (key x)) eqn:E.
    + constructor; [constructor; assumption|].
      constructor; [apply fltb_true_fleb, E|].
      unfold keys_ok in Hl'. rewrite Forall_forall in *. intros z Hz.
      apply (fleb_trans (key z) (key y) (key x));
        [apply Hl', Hz | assumption | assumption
        | apply Hy, Hz | apply fltb_true_fleb, E].
    + constructor; [apply IH, Hl'|].
      eapply Permutation_Forall;
        [apply Permutation_sym, insert_desc_perm|].
      constructor; [|assumption].
      apply fltb_false_fleb; assumption.
Qed.

Lemma fold_insert_sorted (R : A -> A -> Prop)
    (ins : A -> list A -> list A)
    (Hperm : forall x l, Permutation (ins x l) (x :: l))
    (Hins : forall x l, is_nan (key x) = false -> keys_ok key l ->
                        StronglySorted R l -> StronglySorted R (ins x l))
    (l acc : list A) :
  keys_ok key l -> keys_ok key acc -> StronglySorted R acc ->
  StronglySorted R (fold_left (fun acc x => ins x acc) l acc).
Proof.
  revert acc. induction l as [|x l IH]; intros acc Hl Hacc Hs; cbn.
  - assumption.
  - inversion Hl; subst. apply IH; try assumption.
    + unfold keys_ok.
      eapply Permutation_Forall; [apply Permutation_sym, Hperm|].
      constructor; assumption.
    + apply Hins; assumption.
Qed.

Lemma sorted_asc_sorted (l : list A) :
  keys_ok key l -> StronglySorted (key_le key) (sorted_asc key l).
Proof.
  intro Hl.
  apply (fold_insert_sorted (key_le key) (insert_asc key) insert_asc_perm
           insert_asc_sorted l []); try assumption; constructor.
Qed.

Lemma sorted_desc_sorted (l : list A) :
  keys_ok key l -> StronglySorted (key_ge key) (sorted_desc key l).
Proof.
  intro Hl.
  apply (fold_insert_sorted (key_ge key) (insert_desc key) insert_desc_perm
           insert_desc_sorted l []); try assumption; constructor.
Qed.

End Sorts.

(** * The report assembler *)

Lemma StronglySorted_weaken {A : Type} (R R' : A -> A -> Prop) (l : list A) :
  (forall a b, In a l -> In b l -> R a b -> R' a b) ->
  StronglySorted R l -> StronglySorted R' l.
Proof.
  intros H Hs. induction Hs as [|x l Hs IH Hx].
  - constructor.
  - constructor.
    + apply IH. intros a b Ha Hb. apply H; right; assumption.
    + rewrite Forall_forall in *. intros y Hy.
      apply H; [left; reflexivity | right; assumption | apply Hx, Hy].
Qed.

Lemma valid_run_key (r : analysis) :
  best_Si r <> Some S754_nan -> is_nan (neg_best_Si r) = false.
Proof.
  unfold neg_best_Si. destruct (best_Si r) as [s|]; [|reflexivity].
  intro H. rewrite is_nan_fneg. destruct s; try reflexivity.
  exfalso. apply H. reflexivity.
Qed.

Lemma key_le_si_ge (a b : analysis) :
  best_Si a <> Some S754_nan -> best_Si b <> Some S754_nan ->
  valid_run a = true -> valid_run b = true ->
  key_le neg_best_Si a b -> si_ge a b.
Proof.
  unfold valid_run, key_le, si_ge, neg_best_Si.
  destruct (best_Si a) as [x|], (best_Si b) as [y|]; try discriminate.
  intros Hx Hy _ _. rewrite fleb_fneg; [trivial| |].
  - destruct x; try reflexivity. exfalso. apply Hx. reflexivity.
  - destruct y; try reflexivity. exfalso. apply Hy. reflexivity.
Qed.

(** C7. The report keeps the runs that have a best liquid, ranked by
    decreasing best silicon value, and of these the first three; a run
    without a best liquid is left out, not ranked as zero; an unset field of
    a row is written "not found"; runs with the best silicon values 0.03,
    0.07, 0.01 and 0.09 are reported in the order 0.09, 0.07, 0.03. *)
Theorem report_ranking :
  (forall results : list analysis,
      Forall (fun r => best_Si r <> Some S754_nan) results ->
      exists ranked : list analysis,
        Permutation ranked (filter valid_run results)
        /\ StronglySorted si_ge ranked
        /\ rank_results 3 results = firstn 3 ranked)
  /\ (forall (txt : string) (hits : list analysis),
         run_liquid_analysis txt 3 = Some hits ->
         exists pages,
           parse_txt_pages txt = Some pages
           /\ hits = rank_results 3
                       (map analyze_simulation (group_simulations pages)))
  /\ (forall (idx : N) (r : analysis),
         let row := report_row idx r in
         (a_Fe_g r = None -> nth 1 row "" = "not found")
         /\ (best_T r = None -> nth 2 row "" = "not found")
         /\ (best_Si r = None -> nth 3 row "" = "not found")
         /\ (best_comp r = [] -> nth 4 row "" = "not found")
         /\ (stop_T r = None -> nth 5 row "" = "not found")
         /\ (stop_phases r = [] -> nth 6 row "" = "not found")
         /\ (slag_first_T r = None -> nth 7 row "" = "not found")
         /\ (slag_first_phases r = [] -> nth 8 row "" = "not found")
         /\ (slag_comp_before r = [] -> nth 9 row "" = "not found"))
  /\ (let hits := analyze_pages 3 (map si_run ["0.03"; "0.07"; "0.01"; "0.09"])
      in
      map best_Si hits = [Some (lit "0.09"); Some (lit "0.07"); Some (lit "0.03")]
      /\ map (fun row => nth 3 row "") (report_rows hits)
         = ["0.090"; "0.070"; "0.030"]).
Proof.
  split; [|split; [|split; [|split]]].
  - intros results Hnan.
    exists (sorted_asc neg_best_Si (filter valid_run results)).
    assert (Hf : Forall (fun r => best_Si r <> Some S754_nan
                                  /\ valid_run r = true)
                   (filter valid_run results)).
    { rewrite Forall_forall in *. intros r Hr.
      apply filter_In in Hr. destruct Hr as [Hin Hv].
      split; [apply Hnan, Hin | exact Hv]. }
    split; [apply sorted_asc_perm|]. split; [|reflexivity].
    apply (StronglySorted_weaken (key_le neg_best_Si)).
    + intros a b Ha Hb.
      assert (P : Permutation (sorted_asc neg_best_Si (filter valid_run results))
                    (filter valid_run results)) by apply sorted_asc_perm.
      rewrite Forall_forall in Hf.
      destruct (Hf a (Permutation_in _ P Ha)) as [Ha1 Ha2].
      destruct (Hf b (Permutation_in _ P Hb)) as [Hb1 Hb2].
      apply key_le_si_ge; assumption.
    + apply sorted_asc_sorted. unfold keys_ok.
      eapply Forall_impl; [|exact Hf].
      intros r [Hr _]. apply valid_run_key, Hr.
  - intros txt hits H. unfold run_liquid_analysis, bind in H.
    destruct (parse_txt_pages txt) as [pages|]; [|discriminate].
    exists pages. split; [reflexivity|]. injection H as <-. reflexivity.
  - intros idx r. cbn.
    repeat split; intro H; rewrite H; reflexivity.
  - vm_compute. split; reflexivity.
  - vm_compute. reflexivity.
Qed.

Lemma report_ranking_witness :
  (exists ranked : list analysis,
      Permutation ranked (filter valid_run ranking_runs)
      /\ StronglySorted si_ge ranked
      /\ rank_results 3 ranking_runs = firstn 3 ranked)
  /\ nth 5 (report_row 1 (mkAnalysis None None None [] None [] None [] []))
         "" = "not found".
Proof.
  split.
  - apply (proj1 report_ranking ranking_runs).
    repeat constructor; intro H; vm_compute in H; discriminate.
  - apply (proj1 (proj2 (proj2 report_ranking)) 1%N
             (mkAnalysis None None None [] None [] None [] [])).
    reflexivity.
Defined.


(** * The run grouper *)

Lemma group_loop_from (sims : list (list page)) (cur : list page)
    (last : option float) (pages : list page) :
  group_loop sims cur last pages = (sims ++ group_from cur last pages)%list.
Proof.
  revert sims cur last. induction pages as [|p ps IH]; intros sims cur last.
  - cbn. destruct cur; [rewrite app_nil_r|]; reflexivity.
  - cbn. destruct (reset_test cur last p).
    + rewrite IH, <- app_assoc. reflexivity.
    + rewrite IH. reflexivity.
Qed.

Lemma group_from_concat (cur : list page) (last : option float)
    (ps : list page) :
  List.concat (group_from cur last ps) = (cur ++ ps)%list.
Proof.
  revert cur last. induction ps as [|p ps IH]; intros cur last; cbn.
  - destruct cur; cbn; rewrite ?app_nil_r; reflexivity.
  - destruct (reset_test cur last p); cbn.
    + rewrite IH. reflexivity.
    + rewrite IH, <- app_assoc. reflexivity.
Qed.

Lemma reset_test_spec (cur : list page) (last : option float) (p : page) :
  cur <> [] ->
  reset_test cur last p = true <-> page_num p = 1%N \/ mass_jump last p = true.
Proof.
  intro Hc. unfold reset_test, mass_jump.
  change (lit "1e-3") with fe_tol.
  destruct cur as [|c cur]; [congruence|]. cbn [negb andb].
  rewrite orb_true_iff, andb_true_r, N.eqb_eq. reflexivity.
Qed.

Lemma reset_test_nil (p : page) : reset_test [] None p = false.
Proof. unfold reset_test. cbn. rewrite andb_false_r. reflexivity. Qed.

(** The loop never closes an empty run. *)
Lemma group_from_nonempty (cur : list page) (last : option float)
    (ps : list page) :
  (cur = [] -> last = None) ->
  Forall (fun r => r <> []) (group_from cur last ps).
Proof.
  revert cur last. induction ps as [|p ps IH]; intros cur last I; cbn.
  - destruct cur; repeat constructor. discriminate.
  - destruct (reset_test cur last p) eqn:E.
    + constructor.
      * intro C. subst cur. rewrite (I eq_refl), reset_test_nil in E.
        discriminate.
      * apply IH. discriminate.
    + apply IH. intro C. destruct cur; discriminate.
Qed.

Lemma group_from_not_nil (cur : list page) (last : option float)
    (ps : list page) :
  cur <> [] -> group_from cur last ps <> [].
Proof.
  intros Hc H. pose proof (group_from_concat cur last ps) as C.
  rewrite H in C. cbn in C. destruct cur; [congruence | discriminate].
Qed.

Lemma run_starts_ge (from : nat) (runs : list (list page)) (i : nat) :
  In i (run_starts from runs) -> (from <= i)%nat.
Proof.
  revert from. induction runs as [|r rs IH]; intros from; cbn.
  - intros [].
  - intros [<-|H]; [lia|]. apply IH in H. lia.
Qed.

(** A run in progress is not cut before its end. *)
Lemma group_from_starts (cur : list page) (last : option float)
    (ps : list page) (from i : nat) :
  cur <> [] ->
  In i (run_starts from (group_from cur last ps)) ->
  i = from \/ (from + List.length cur <= i)%nat.
Proof.
  revert cur last. induction ps as [|p ps IH]; intros cur last Hc; cbn.
  - destruct cur; [congruence|]. cbn. intros [<-|[]]. left. reflexivity.
  - destruct (reset_test cur last p).
    + cbn. intros [<-|H]; [left; reflexivity|].
      right. apply run_starts_ge in H. exact H.
    + intro H. apply IH in H.
      * rewrite length_app in H. cbn in H. lia.
      * destruct cur; discriminate.
Qed.

Lemma group_from_boundary (cur : list page) (last : option float)
    (pre : list page) (p : page) (post : list page) (from : nat) :
  (cur = [] -> last = None) ->
  cur <> [] \/ pre <> [] ->
  In (from + List.length cur + List.length pre)%nat
     (run_starts from (group_from cur last (pre ++ p :: post)))
  <-> page_num p = 1%N \/ mass_jump (last_seen last pre) p = true.
Proof.
  revert cur last from.
  induction pre as [|q pre IH]; intros cur last from I Hne.
  - destruct Hne as [Hc|Hc]; [|congruence].
    cbn [app last_seen fold_left List.length group_from].
    rewrite <- (reset_test_spec cur last p Hc), Nat.add_0_r.
    destruct (reset_test cur last p) eqn:E.
    + split; [reflexivity|]. intros _. cbn [run_starts]. right.
      destruct (group_from [p]
                  match Fe_g p with Some f => Some f | None => last end post)
        as [|r rs] eqn:G.
      * exfalso. revert G. apply group_from_not_nil. discriminate.
      * cbn. left. reflexivity.
    + split; [|discriminate]. intro H.
      apply group_from_starts in H; [|destruct cur; discriminate].
      rewrite length_app in H. cbn in H.
      destruct cur; [congruence|]. cbn in H. lia.
  - cbn [app group_from List.length].
    change (last_seen last (q :: pre))
      with (last_seen match Fe_g q with Some f => Some f | None => last end
              pre).
    destruct (reset_test cur last q) eqn:E.
    + assert (Hc : cur <> []).
      { intro C. subst cur. rewrite (I eq_refl), reset_test_nil in E.
        discriminate. }
      cbn [run_starts].
      rewrite <- (IH [q] _ (from + List.length cur)%nat);
        [|discriminate | left; discriminate].
      cbn [List.length].
      replace (from + List.length cur + 1 + List.length pre)%nat
        with (from + List.length cur + S (List.length pre))%nat by lia.
      split; [|intro H; right; exact H].
      intros [H|H]; [|exact H].
      destruct cur; [congruence|]. cbn in H. lia.
    + rewrite <- (IH (cur ++ [q])%list _ from);
        [| intro C; destruct cur; discriminate
         | left; destruct cur; discriminate].
      rewrite length_app. cbn [List.length].
      replace (from + (List.length cur + 1) + List.length pre)%nat
        with (from + List.length cur + S (List.length pre))%nat by lia.
      reflexivity.
Qed.

(** C6. The run grouper returns the pages cut into non-empty runs; after
    the first page, a run starts at a page exactly when its page number is 1
    or its Fe mass differs by more than 1e-3 from the mass of the last
    earlier page that reports one, where "more than 1e-3" is
    [abs (f - l) > 1e-3] on floats, with the literal of the source, and
    the tolerance of the code is this float, 4611686018427388 * 2^-62; a
    page
    without Fe mass never splits on the mass rule; masses 10, 10, 10, 20,
    20 with the page numbers 1, 2, 3, 1, 2 give two runs, of 3 and of 2
    pages.  On pages numbered from 2 on, where only the mass rule applies:
    masses 10, 10.0005, 10.002 give runs of 2 and 1 pages (the third mass
    is compared with the second, not the first); the same masses with
    pages without mass in between give runs of 4 and 1 pages, the split
    falling on the page that reports the changed mass; and masses 0,
    0.001, 0.0021 give runs of 2 and 1 pages, a difference of exactly 1e-3
    being no split. *)
Theorem group_simulations_runs :
  (forall pages : list page,
      List.concat (group_simulations pages) = pages
      /\ Forall (fun r => r <> []) (group_simulations pages)
      /\ forall pre p post,
           pages = (pre ++ p :: post)%list -> pre <> [] ->
           (In (List.length pre) (run_starts 0 (group_simulations pages))
            <-> page_num p = 1%N \/ mass_jump (last_reported pre) p = true))
  /\ (forall last p, Fe_g p = None -> mass_jump last p = false)
  /\ map (@List.length page)
       (group_simulations
          [mass_page 1 "10"; mass_page 2 "10"; mass_page 3 "10";
           mass_page 1 "20"; mass_page 2 "20"])
     = [3%nat; 2%nat]
  /\ (forall l f p,
        Fe_g p = Some f ->
        mass_jump (Some l) p = fgtb (fabs (fsub f l)) (lit "1e-3")
        /\ (forall cur, N.eqb (page_num p) 1 = false ->
                        reset_test cur (Some l) p
                        = fgtb (fabs (fsub f l)) (lit "1e-3")))
  /\ fe_tol = S754_finite false 4611686018427388 (-62)
  /\ group_simulations drifting_pages
     = [[mass_page 2 "10"; mass_page 3 "10.0005"]; [mass_page 4 "10.002"]]
  /\ group_simulations gap_pages
     = [[mass_page 2 "10"; massless_page 3; mass_page 4 "10.0005";
         massless_page 5]; [mass_page 6 "10.002"]]
  /\ group_simulations at_tolerance_pages
     = [[mass_page 2 "0"; mass_page 3 "1e-3"]; [mass_page 4 "0.0021"]].
Proof.
  split; [|split; [|split; [|split]]].
  - intro pages. unfold group_simulations.
    rewrite group_loop_from. cbn [app]. split; [|split].
    + apply group_from_concat.
    + apply group_from_nonempty. reflexivity.
    + intros pre p post -> Hpre.
      apply (group_from_boundary [] None pre p post 0);
        [reflexivity | right; exact Hpre].
  - intros last p H. unfold mass_jump. rewrite H.
    destruct last; reflexivity.
  - vm_compute. reflexivity.
  - intros l f p H. unfold mass_jump, reset_test. rewrite H.
    split; [reflexivity|].
    intros cur H1. rewrite H1. reflexivity.
  - vm_compute. repeat split; reflexivity.
Qed.

Lemma group_simulations_runs_witness :
  (In 3%nat (run_starts 0 (group_simulations grouping_pages))
   <-> page_num (mass_page 1 "20") = 1%N
       \/ mass_jump (last_reported (firstn 3 grouping_pages))
             (mass_page 1 "20") = true)
  /\ (In 2%nat (run_starts 0 (group_simulations drifting_pages))
      <-> page_num (mass_page 4 "10.002") = 1%N
          \/ mass_jump (last_reported (firstn 2 drifting_pages))
                (mass_page 4 "10.002") = true).
Proof.
  split.
  - apply (proj2 (proj2 (proj1 group_simulations_runs grouping_pages))
             (firstn 3 grouping_pages) (mass_page 1 "20")
             [mass_page 2 "20"]).
    + reflexivity.
    + discriminate.
  - apply (proj2 (proj2 (proj1 group_simulations_runs drifting_pages))
             (firstn 2 drifting_pages) (mass_page 4 "10.002") []).
    + reflexivity.
    + discriminate.
Defined.


(** * The run analyzer *)

Lemma slag_step_keeps (g : float) (st : scan_state) (pg : page) :
  collected (slag_step g st pg) = collected st
  /\ s_stop_T (slag_step g st pg) = s_stop_T st.
Proof.
  unfold slag_step. destruct (s_slag_first_T st); [split; reflexivity|].
  destruct (slag_phases_here g pg); split; reflexivity.
Qed.

Lemma liquid_step_collects (st : scan_state) (pg : page) :
  collected (liquid_step st pg) = (collected st ++ candidate_of pg)%list
  /\ s_stop_T (liquid_step st pg) = s_stop_T st.
Proof.
  unfold liquid_step, candidate_of.
  destruct (first_phase is_metal_liquid_phase pg); cbn.
  - split; reflexivity.
  - rewrite app_nil_r. split; reflexivity.
Qed.

Lemma slag_liquid_step_keeps (st : scan_state) (pg : page) :
  collected (slag_liquid_step st pg) = collected st
  /\ s_stop_T (slag_liquid_step st pg) = s_stop_T st.
Proof.
  unfold slag_liquid_step.
  destruct (first_phase is_slag_liquid_phase pg); split; reflexivity.
Qed.

(** The scan up to and including the first page with a precipitate. *)
Lemma scan_stops (g : float) (st : scan_state)
    (pre : list page) (pg : page) (post : list page) :
  s_stop_T st = None ->
  Forall (fun q => metal_phases_here g q = []) pre ->
  metal_phases_here g pg <> [] ->
  let st' := scan g st (pre ++ pg :: post) in
  s_stop_T st' = Some (T_C pg)
  /\ s_stop_phases st' = sorted_set (metal_phases_here g pg)
  /\ collected st' = (collected st ++ candidates_of pre)%list.
Proof.
  revert st. induction pre as [|q pre IH]; intros st Hs Hpre Hpg; cbn zeta.
  - cbn [app scan].
    destruct (slag_step_keeps g st pg) as [Hc Ht].
    rewrite Ht, Hs. cbn [is_some negb andb].
    destruct (metal_phases_here g pg) eqn:E; [congruence|].
    cbn [non_empty andb s_stop_T s_stop_phases collected candidates_of flat_map].
    rewrite app_nil_r. auto.
  - inversion Hpre as [|? ? Hq Hpre']; subst.
    cbn [app scan]. rewrite Hq. cbn [non_empty andb].
    destruct (slag_step_keeps g st q) as [Hc Ht].
    destruct (liquid_step_collects (slag_step g st q) q) as [Hc1 Ht1].
    destruct (slag_liquid_step_keeps (liquid_step (slag_step g st q) q) q)
      as [Hc2 Ht2].
    specialize (IH (slag_liquid_step (liquid_step (slag_step g st q) q) q)).
    cbn zeta in IH. rewrite Ht2, Ht1, Ht, Hc2, Hc1, Hc in IH.
    destruct (IH Hs Hpre' Hpg) as (A & B & C).
    split; [exact A | split; [exact B|]].
    rewrite C. cbn [candidates_of flat_map]. rewrite app_assoc. reflexivity.
Qed.

Lemma metal_phases_here_spec (g : float) (pg : page) (name : string) :
  In name (metal_phases_here g pg)
  <-> (exists ph, In ph (phases pg) /\ ph_name ph = name
                  /\ ph_rows ph <> []
                  /\ is_metal_intermetallic_phase name = true)
      \/ (exists ps, In ps (pure_solids pg) /\ ps_name ps = name
                     /\ fgeb (ps_g ps) g = true
                     /\ is_metal_intermetallic_puresolid name = true).
Proof.
  unfold metal_phases_here. rewrite in_app_iff, !in_map_iff.
  split.
  - intros [[ph [Hn Hin]]|[ps [Hn Hin]]]; apply filter_In in Hin;
      destruct Hin as [Hin Hb]; apply andb_true_iff in Hb;
      destruct Hb as [H1 H2]; subst name.
    + left. exists ph. repeat split; try assumption.
      unfold has_rows in H1. destruct (ph_rows ph); congruence.
    + right. exists ps. repeat split; assumption.
  - intros [[ph (Hin & Hn & Hr & Hc)]|[ps (Hin & Hn & Hg & Hc)]]; subst name.
    + left. exists ph. split; [reflexivity|]. apply filter_In.
      split; [assumption|]. rewrite Hc, andb_true_r.
      unfold has_rows. destruct (ph_rows ph); congruence.
    + right. exists ps. split; [reflexivity|]. apply filter_In.
      split; [assumption|]. rewrite Hg, Hc. reflexivity.
Qed.

(** ** [sorted(set(l))] *)

Lemma code_inj (x y : ascii) : code x = code y -> x = y.
Proof.
  unfold code. intro H.
  rewrite <- (ascii_N_embedding x), <- (ascii_N_embedding y), H. reflexivity.
Qed.

Lemma str_ltb_trans (a b c : string) :
  str_ltb a b = true -> str_ltb b c = true -> str_ltb a c = true.
Proof.
  revert b c. induction a as [|x a IH]; intros [|y b] [|z c]; cbn;
    try congruence.
  destruct (N.ltb_spec (code x) (code y)), (N.ltb_spec (code y) (code x)),
    (N.ltb_spec (code y) (code z)), (N.ltb_spec (code z) (code y)),
    (N.ltb_spec (code x) (code z)), (N.ltb_spec (code z) (code x));
    try congruence; try lia.
  apply IH.
Qed.

Lemma str_ltb_irrefl (a : string) : str_ltb a a = false.
Proof.
  induction a as [|x a IH]; cbn; [reflexivity|].
  rewrite N.ltb_irrefl. exact IH.
Qed.

Lemma str_ltb_total (a b : string) :
  str_ltb a b = false -> String.eqb a b = false -> str_ltb b a = true.
Proof.
  revert b. induction a as [|x a IH]; intros [|y b]; cbn; try congruence.
  destruct (N.ltb_spec (code x) (code y)), (N.ltb_spec (code y) (code x));
    try congruence; try lia.
  assert (x = y) by (apply code_inj; lia). subst y.
  rewrite Ascii.eqb_refl. apply IH.
Qed.

Lemma insert_uniq_In (x y : string) (l : list string) :
  In y (insert_uniq x l) <-> y = x \/ In y l.
Proof.
  induction l as [|z l IH]; cbn.
  - intuition congruence.
  - destruct (String.eqb_spec x z) as [->|Hne].
    + cbn. intuition congruence.
    + destruct (str_ltb x z); cbn; [intuition congruence|].
      rewrite IH. intuition congruence.
Qed.

Lemma insert_uniq_sorted (x : string) (l : list string) :
  StronglySorted str_lt l -> StronglySorted str_lt (insert_uniq x l).
Proof.
  intro Hs. induction Hs as [|z l Hs IH Hz]; cbn.
  - repeat constructor.
  - destruct (String.eqb x z) eqn:E; [constructor; assumption|].
    destruct (str_ltb x z) eqn:L.
    + constructor; [constructor; assumption|].
      constructor; [exact L|].
      rewrite Forall_forall in *. intros w Hw.
      apply (str_ltb_trans x z w); [exact L | apply Hz, Hw].
    + constructor; [exact IH|].
      rewrite Forall_forall in *. intros w Hw.
      apply insert_uniq_In in Hw. destruct Hw as [->|Hw]; [|apply Hz, Hw].
      apply (str_ltb_total x z); [exact L | exact E].
Qed.

(** [sorted_set] lists the members of [l], each once, in increasing
    order. *)
Lemma sorted_set_spec (l : list string) :
  StronglySorted str_lt (sorted_set l)
  /\ forall x, In x (sorted_set l) <-> In x l.
Proof.
  unfold sorted_set.
  assert (G : forall acc, StronglySorted str_lt acc ->
              StronglySorted str_lt
                (fold_left (fun acc x => insert_uniq x acc) l acc)
              /\ forall x, In x (fold_left (fun acc x => insert_uniq x acc)
                                   l acc)
                           <-> In x acc \/ In x l).
  { induction l as [|y l IH]; intros acc Hacc; cbn.
    - split; [assumption|]. intuition.
    - destruct (IH (insert_uniq y acc) (insert_uniq_sorted y acc Hacc))
        as [S I].
      split; [exact S|]. intro x. rewrite I, insert_uniq_In.
      intuition congruence. }
  destruct (G [] (SSorted_nil _)) as [S I].
  split; [exact S|]. intro x. rewrite I. cbn. intuition.
Qed.

(** C3. The scan of a run goes through its pages by decreasing
    temperature: the scan order is a permutation of the run that, when no
    temperature is NaN, is sorted from high to low.  In that order, the
    first page with a metal-intermetallic match (a solution phase with
    rows, or a pure solid of mass at least 0.01, that the classifier
    accepts) gives the stop temperature and the sorted, duplicate-free
    match names, and ends the scan: the best liquid is chosen among the
    pages before it only.  In the precipitation scenario the best liquid
    is that of condition 1 at 1600 C, the stop temperature is 1500 and the
    stop phases are ["FeSi2(s)"].  A run listed as 1400 C (with the solid),
    1600 C, 1500 C stops at 1400 and takes its best liquid at 1500 C.  A
    pure solid of exactly 0.01 g stops the scan, one of 0.0099999 g does
    not. *)
Theorem stop_at_first_precipitation :
  (forall (sim pre : list page) (pg : page) (post : list page),
      sorted_desc T_C sim = (pre ++ pg :: post)%list ->
      Forall (fun q => metal_phases_here (lit "0.01") q = []) pre ->
      metal_phases_here (lit "0.01") pg <> [] ->
      let r := analyze_simulation sim in
      stop_T r = Some (T_C pg)
      /\ stop_phases r = sorted_set (metal_phases_here (lit "0.01") pg)
      /\ match candidates_of pre with
         | [] => best_T r = None /\ best_Si r = None /\ best_comp r = []
         | c :: cs =>
             let best := max_by c_Si_w c cs in
             best_T r = Some (c_T_C best)
             /\ best_Si r = Some (c_Si_w best)
             /\ best_comp r = c_comp best
         end)
  /\ (forall (pg : page) (name : string),
         In name (metal_phases_here (lit "0.01") pg)
         <-> (exists ph, In ph (phases pg) /\ ph_name ph = name
                         /\ ph_rows ph <> []
                         /\ is_metal_intermetallic_phase name = true)
             \/ (exists ps, In ps (pure_solids pg) /\ ps_name ps = name
                            /\ fgeb (ps_g ps) (lit "0.01") = true
                            /\ is_metal_intermetallic_puresolid name = true))
  /\ (forall l : list string,
         StronglySorted str_lt (sorted_set l)
         /\ forall x, In x (sorted_set l) <-> In x l)
  /\ (exists r : analysis,
         analyze_document (two_condition_doc true) = Some [r]
         /\ best_T r = Some (lit "1600")
         /\ stop_T r = Some (lit "1500")
         /\ stop_phases r = ["FeSi2(s)"]
         /\ firstn 3 (skipn 5 (report_row 1 r))
            = ["1500.00"; "FeSi2(s)"; "not found"])
  /\ (forall sim : list page,
         Permutation (sorted_desc T_C sim) sim
         /\ (keys_ok T_C sim ->
             StronglySorted (key_ge T_C) (sorted_desc T_C sim)))
  /\ G_MIN = lit "0.01"
  /\ (let r := analyze_simulation unsorted_pages in
      stop_T r = Some (lit "1400")
      /\ stop_phases r = ["FeSi2(s)"]
      /\ best_T r = Some (lit "1500")
      /\ best_Si r = Some (lit "5"))
  /\ (let r := analyze_simulation (threshold_pages "0.01") in
      stop_T r = Some (lit "1500")
      /\ stop_phases r = ["FeSi2(s)"]
      /\ best_T r = Some (lit "1600"))
  /\ (let r := analyze_simulation (threshold_pages "0.0099999") in
      stop_T r = None
      /\ stop_phases r = []
      /\ best_T r = Some (lit "1500")
      /\ best_Si r = Some (lit "5")).
Proof.
  change (lit "0.01") with G_MIN.
  split; [|split; [|split; [|split; [|split; [|split]]]]].
  - intros sim pre pg post Hsort Hpre Hpg.
    unfold analyze_simulation, analyze_simulation_with. cbn zeta.
    rewrite Hsort.
    destruct (scan_stops G_MIN init_scan pre pg post eq_refl Hpre Hpg)
      as (A & B & C).
    cbn [collected init_scan app] in C.
    destruct (candidates_of pre) as [|c cs] eqn:E; rewrite C; cbn;
      rewrite A, B; repeat split; reflexivity.
  - apply metal_phases_here_spec.
  - apply sorted_set_spec.
  - eexists. split; [vm_compute; reflexivity|].
    vm_compute. repeat split; reflexivity.
  - intro sim. split; [apply sorted_desc_perm | apply sorted_desc_sorted].
  - reflexivity.
  - vm_compute. repeat split; reflexivity.
Qed.

Lemma stop_at_first_precipitation_witness :
  stop_T (analyze_simulation precipitation_pages) = Some (lit "1500")
  /\ stop_phases (analyze_simulation precipitation_pages) = ["FeSi2(s)"].
Proof.
  destruct (proj1 stop_at_first_precipitation precipitation_pages
              (firstn 1 precipitation_pages)
              (mkPage 2 (lit "1500") (Some (lit "83.767"))
                 [mkPhase "Fe-liq" (liquid_rows "95" "5")]
                 [mkSolid "FeSi2(s)" (lit "1")])
              []) as (A & B & _).
  - vm_compute. reflexivity.
  - repeat constructor.
  - vm_compute. discriminate.
  - split; [exact A | exact B].
Defined.


(** * The phase classifier *)

Lemma prefix_trans (a b s : string) :
  String.prefix a b = true -> String.prefix b s = true ->
  String.prefix a s = true.
Proof.
  revert b s. induction a as [|x a IH]; intros b s; [destruct s; reflexivity|].
  destruct b as [|y b]; [discriminate|].
  destruct s as [|z s]; [discriminate|]. cbn.
  destruct (Ascii.ascii_dec x y) as [->|]; [|discriminate].
  destruct (Ascii.ascii_dec y z) as [->|]; [|discriminate].
  destruct (Ascii.ascii_dec z z); [|congruence].
  apply IH.
Qed.

(** A text that contains [b] contains every prefix of [b]. *)
Lemma contains_prefix (a b s : string) :
  String.prefix a b = true -> contains b s = true -> contains a s = true.
Proof.
  intro Hab. induction s as [|c s IH]; cbn [contains].
  - rewrite !orb_false_r. apply prefix_trans, Hab.
  - rewrite !orb_true_iff. intros [H|H].
    + left. exact (prefix_trans a b _ Hab H).
    + right. apply IH, H.
Qed.

Lemma liquid_not_solid (name : string) :
  contains "liquid" (lower name) = true ->
  is_metal_intermetallic_phase name = false
  /\ is_slag_solid_phase name = false.
Proof.
  intro H.
  assert (L : contains "liq" (lower name) = true)
    by (apply (contains_prefix "liq" "liquid"); [reflexivity | exact H]).
  unfold is_metal_intermetallic_phase, is_slag_solid_phase.
  cbn zeta. rewrite L. split; reflexivity.
Qed.

Lemma first_phase_first (test : string -> bool) (pg : page)
    (pre : list phase) (ph : phase) (post : list phase) :
  phases pg = (pre ++ ph :: post)%list ->
  Forall (passed_over test) pre ->
  (test (ph_name ph) && has_rows ph)%bool = true ->
  first_phase test pg = Some ph.
Proof.
  intros E Hpre Hph. unfold first_phase. rewrite E. clear E.
  induction Hpre as [|q pre Hq Hpre IH]; cbn [app find].
  - rewrite Hph. reflexivity.
  - unfold passed_over in Hq. rewrite Hq. exact IH.
Qed.

(** The analysis of a run of one page on which nothing precipitates. *)
Lemma one_page_best (pg : page) (liq : phase) :
  metal_phases_here G_MIN pg = [] ->
  first_phase is_metal_liquid_phase pg = Some liq ->
  let r := analyze_simulation [pg] in
  best_T r = Some (T_C pg)
  /\ best_comp r = comp_of_rows (ph_rows liq)
  /\ best_Si r
     = Some match dict_get String.eqb "Si" (comp_of_rows (ph_rows liq)) with
            | Some v => comp_W v
            | None => lit "0.0"
            end.
Proof.
  intros Hmetal Hliq.
  unfold analyze_simulation, analyze_simulation_with, sorted_desc.
  cbn [fold_left insert_desc scan].
  rewrite Hmetal. cbn [non_empty andb].
  destruct (slag_step_keeps G_MIN init_scan pg) as [Hc _].
  destruct (liquid_step_collects (slag_step G_MIN init_scan pg) pg)
    as [Hc1 _].
  destruct (slag_liquid_step_keeps
              (liquid_step (slag_step G_MIN init_scan pg) pg) pg) as [Hc2 _].
  rewrite Hc2, Hc1, Hc. unfold candidate_of. rewrite Hliq.
  cbn [collected init_scan app max_by fold_left best_T best_comp best_Si
         c_T_C c_comp c_Si_w].
  repeat split; reflexivity.
Qed.

(** C10. The classes overlap: a label that contains both "slag" and
    "liquid", in any letter case, is a metallic liquid and a slag liquid at
    once.  The search for the metallic liquid of a page takes the first
    phase, in listed order, that passes the metallic-liquid test and has
    rows.  So on a page where a phase with such a label and with rows
    comes before every other phase that passes the test, that slag phase
    is the metallic-liquid snapshot, and in a run of this one page without
    precipitate its composition is the best liquid, whatever phases are
    listed after it.  On the page that lists a metallic liquid without
    rows, a spinel, "Slag-liquid" and "Fe-liq", the best liquid is the
    slag, with silicon value 0.0, and not the "Fe-liq" phase listed after
    it. *)
Theorem slag_liquid_taken_as_metal_liquid :
  (forall name : string,
      contains "slag" (lower name) = true ->
      contains "liquid" (lower name) = true ->
      is_metal_liquid_phase name = true /\ is_slag_liquid_phase name = true)
  /\ (forall (name : string) (rows : list species_row) (num : N) (T : float)
             (fe : option float),
         contains "slag" (lower name) = true ->
         contains "liquid" (lower name) = true ->
         rows <> [] ->
         let pg := mkPage num T fe [mkPhase name rows] [] in
         first_phase is_metal_liquid_phase pg = Some (mkPhase name rows)
         /\ best_T (analyze_simulation [pg]) = Some T
         /\ best_comp (analyze_simulation [pg]) = comp_of_rows rows)
  /\ (is_metal_liquid_phase "Slag-liquid" = true
      /\ is_slag_liquid_phase "Slag-liquid" = true)
  /\ (forall (test : string -> bool) (pg : page)
             (pre : list phase) (ph : phase) (post : list phase),
         phases pg = (pre ++ ph :: post)%list ->
         Forall (passed_over test) pre ->
         test (ph_name ph) = true -> ph_rows ph <> [] ->
         first_phase test pg = Some ph)
  /\ (forall (test : string -> bool) (pg : page),
         Forall (passed_over test) (phases pg) ->
         first_phase test pg = None)
  /\ (forall (pg : page) (pre : list phase) (ph : phase) (post : list phase),
         plain_page pg ->
         phases pg = (pre ++ ph :: post)%list ->
         Forall (passed_over is_metal_liquid_phase) pre ->
         contains "slag" (lower (ph_name ph)) = true ->
         contains "liquid" (lower (ph_name ph)) = true ->
         ph_rows ph <> [] ->
         metal_phases_here (lit "0.01") pg = [] ->
         let r := analyze_simulation [pg] in
         first_phase is_metal_liquid_phase pg = Some ph
         /\ is_slag_liquid_phase (ph_name ph) = true
         /\ best_T r = Some (T_C pg)
         /\ best_comp r = comp_of_rows (ph_rows ph)
         /\ best_Si r
            = Some match dict_get String.eqb "Si" (comp_of_rows (ph_rows ph))
                   with
                   | Some v => comp_W v
                   | None => lit "0.0"
                   end)
  /\ (let r := analyze_simulation [overlap_page] in
      first_phase is_metal_liquid_phase overlap_page
      = Some (mkPhase "Slag-liquid" slag_liquid_rows)
      /\ best_comp r = comp_of_rows slag_liquid_rows
      /\ best_comp r <> comp_of_rows (liquid_rows "98" "2")
      /\ best_Si r = Some (lit "0.0")
      /\ stop_T r = None).
Proof.
  assert (Both : forall name : string,
             contains "slag" (lower name) = true ->
             contains "liquid" (lower name) = true ->
             is_metal_liquid_phase name = true
             /\ is_slag_liquid_phase name = true).
  { intros name Hs Hl. unfold is_metal_liquid_phase, is_slag_liquid_phase.
    cbn zeta. rewrite Hs, Hl, !orb_true_r. split; reflexivity. }
  assert (Rows : forall ph, ph_rows ph <> [] -> has_rows ph = true).
  { intros ph H. unfold has_rows. destruct (ph_rows ph); congruence. }
  split; [exact Both|].
  split; [|split; [split; reflexivity|]].
  { intros name rows num T fe Hs Hl Hrows pg.
    destruct (Both name Hs Hl) as [Hm Hsl].
    destruct (liquid_not_solid name Hl) as [Hni Hnss].
    assert (Hliq : first_phase is_metal_liquid_phase pg
                   = Some (mkPhase name rows)).
    { apply (first_phase_first _ pg [] _ []); [reflexivity | constructor |].
      cbn [ph_name]. rewrite Hm. apply Rows, Hrows. }
    assert (Hmetal : metal_phases_here G_MIN pg = []).
    { unfold metal_phases_here, pg.
      cbn [phases pure_solids filter map app ph_name].
      rewrite Hni, andb_false_r. reflexivity. }
    destruct (one_page_best pg _ Hmetal Hliq) as (A & B & _).
    split; [exact Hliq | split; [exact A | exact B]]. }
  split; [|split; [|split]].
  - intros test pg pre ph post E Hpre Ht Hr.
    apply (first_phase_first test pg pre ph post E Hpre).
    rewrite Ht. apply Rows, Hr.
  - intros test pg H. unfold first_phase.
    induction H as [|q l Hq H IH]; cbn [find]; [reflexivity|].
    unfold passed_over in Hq. rewrite Hq. exact IH.
  - intros pg pre ph post _ E Hpre Hs Hl Hr Hmetal r.
    destruct (Both _ Hs Hl) as [Hm Hsl].
    assert (Hliq : first_phase is_metal_liquid_phase pg = Some ph).
    { apply (first_phase_first _ pg pre ph post E Hpre).
      rewrite Hm. apply Rows, Hr. }
    destruct (one_page_best pg ph Hmetal Hliq) as (A & B & C).
    split; [exact Hliq | split; [exact Hsl|]].
    split; [exact A | split; [exact B | exact C]].
  - cbn zeta. split; [vm_compute; reflexivity|].
    split; [vm_compute; reflexivity|].
    split; [vm_compute; discriminate|].
    split; vm_compute; reflexivity.
Qed.

Lemma slag_liquid_taken_as_metal_liquid_witness :
  (is_metal_liquid_phase "Slag-liquid" = true
   /\ is_slag_liquid_phase "Slag-liquid" = true)
  /\ best_comp (analyze_simulation [overlap_page])
     = comp_of_rows slag_liquid_rows.
Proof.
  split.
  - apply (proj1 slag_liquid_taken_as_metal_liquid "Slag-liquid");
      vm_compute; reflexivity.
  - apply (proj1 (proj2 (proj2 (proj2 (proj2 (proj2
             slag_liquid_taken_as_metal_liquid)))))
             overlap_page
             (firstn 2 (phases overlap_page))
             (mkPhase "Slag-liquid" slag_liquid_rows)
             (skipn 3 (phases overlap_page))).
    + split; repeat (constructor; try reflexivity).
    + reflexivity.
    + repeat (constructor; try reflexivity).
    + reflexivity.
    + reflexivity.
    + discriminate.
    + vm_compute. reflexivity.
Defined.


(** C4, as the code has it. "FeSi2(s)" is a metal-intermetallic pure
    solid; "Slag-liq" is a slag liquid and not a metallic liquid; "bcc_A2"
    is not a metal-intermetallic solution phase: the pattern
    \b(bcc|fcc|hcp)\b finds nothing in "bcc_a2", since the underscore is a
    word character and no word ends after "bcc", and the label has no "fe"
    and "si".  The same holds for "FCC_A1" and "HCP_A3", while the bare
    tags "bcc", "bcc-A2" and "BCC#1" are accepted.  A page whose solution
    phase "bcc_A2" has rows therefore has no metal-intermetallic match and
    does not stop the scan of its run. *)
Theorem classifier_examples :
  is_metal_intermetallic_puresolid "FeSi2(s)" = true
  /\ is_slag_liquid_phase "Slag-liq" = true
  /\ is_metal_liquid_phase "Slag-liq" = false
  /\ is_metal_intermetallic_phase "bcc_A2" = false
  /\ re_search crystal_re (lower "bcc_A2") = None
  /\ is_word "_" = true
  /\ is_metal_intermetallic_phase "bcc" = true
  /\ is_metal_intermetallic_phase "bcc-A2" = true
  /\ is_metal_intermetallic_phase "BCC#1" = true
  /\ is_metal_intermetallic_phase "FCC_A1" = false
  /\ is_metal_intermetallic_phase "HCP_A3" = false
  /\ (let pg := mkPage 1 (lit "1500") None
                  [mkPhase "bcc_A2" (liquid_rows "95" "5")] [] in
      metal_phases_here (lit "0.01") pg = []
      /\ stop_T (analyze_simulation [pg]) = None
      /\ stop_phases (analyze_simulation [pg]) = []).
Proof. vm_compute. repeat split; reflexivity. Qed.

(** C4 fails on the code: "bcc_A2" is not classified as a metal-intermetallic
    solution phase. *)
Lemma bcc_A2_not_intermetallic :
  ~ (is_metal_intermetallic_puresolid "FeSi2(s)" = true
     /\ is_slag_liquid_phase "Slag-liq" = true
     /\ is_metal_liquid_phase "Slag-liq" = false
     /\ is_metal_intermetallic_phase "bcc_A2" = true).
Proof. intros (_ & _ & _ & H). vm_compute in H. discriminate. Qed.

(** * The pipeline on the two-condition document *)

(** C2, as the code has it. On the two-condition document without
    precipitate (silicon weight fraction 0.02 at 1600 C and 0.05 at 1500 C)
    the pipeline yields one report row, with best temperature 1500
    ("1500.00"), both stop fields "not found", and the best silicon value
    5.0 ("5.000"): the canonicalizer writes the weight fraction times 100
    in the W(%) column and the reconstructor reads the column back as it
    is. *)
Theorem two_condition_report :
  (exists r : analysis,
      analyze_document (two_condition_doc false) = Some [r]
      /\ best_T r = Some (lit "1500")
      /\ best_Si r = Some (lit "5")
      /\ best_Si r = Some (fmul (lit "0.05") (lit "100"))
      /\ stop_T r = None
      /\ stop_phases r = [])
  /\ (exists row : list string,
         analyze_xml_path_to_file (two_condition_doc false) = Some [row]
         /\ nth 2 row "" = "1500.00"
         /\ nth 3 row "" = "5.000"
         /\ nth 5 row "" = "not found"
         /\ nth 6 row "" = "not found").
Proof.
  split.
  - eexists. split; [vm_compute; reflexivity|].
    vm_compute. repeat split; reflexivity.
  - eexists. split; [vm_compute; reflexivity|].
    vm_compute. repeat split; reflexivity.
Qed.

(** C2 fails on the code: the best silicon value of the report is not the
    weight fraction 0.05, and is not written "0.050". *)
Lemma two_condition_best_Si_not_fraction :
  ~ (exists r : analysis,
        analyze_document (two_condition_doc false) = Some [r]
        /\ best_T r = Some (lit "1500")
        /\ best_Si r = Some (lit "0.05")
        /\ nth 5 (report_row 1 r) "" = "not found"
        /\ nth 6 (report_row 1 r) "" = "not found").
Proof.
  intros (r & H & _ & HSi & _).
  vm_compute in H. injection H as <-.
  vm_compute in HSi. discriminate.
Qed.

(** * Facts about text *)

Lemma append_nil_r (s : string) : s ++ "" = s.
Proof. induction s as [|c s IH]; cbn; [|rewrite IH]; reflexivity. Qed.

Lemma append_assoc (a b c : string) : (a ++ b) ++ c = a ++ (b ++ c).
Proof. induction a as [|x a IH]; cbn; [|rewrite IH]; reflexivity. Qed.

Lemma length_append (a b : string) :
  String.length (a ++ b) = (String.length a + String.length b)%nat.
Proof. induction a as [|x a IH]; cbn; [|rewrite IH]; reflexivity. Qed.

Lemma substring_append (a b : string) :
  String.substring 0 (String.length a) (a ++ b) = a.
Proof.
  induction a as [|x a IH]; cbn.
  - destruct b; reflexivity.
  - rewrite IH. reflexivity.
Qed.

Lemma drop_append (a b : string) : drop (String.length a) (a ++ b) = b.
Proof. induction a as [|x a IH]; cbn; [destruct b|]; auto. Qed.

Lemma last_of_append (pv : option ascii) (a b : string) :
  last_of pv (a ++ b) = last_of (last_of pv a) b.
Proof. revert pv. induction a as [|x a IH]; intro pv; cbn; auto. Qed.

Lemma all_in_append (p : ascii -> bool) (a b : string) :
  all_in p (a ++ b) = (all_in p a && all_in p b)%bool.
Proof.
  induction a as [|x a IH]; cbn; [reflexivity|].
  rewrite IH, andb_assoc. reflexivity.
Qed.

Lemma prefix_append (a b : string) : String.prefix a (a ++ b) = true.
Proof.
  induction a as [|x a IH]; cbn; [destruct b; reflexivity|].
  destruct (Ascii.ascii_dec x x); [exact IH | congruence].
Qed.

Lemma prefix_split (a s : string) :
  String.prefix a s = true -> exists b, s = a ++ b.
Proof.
  revert s. induction a as [|x a IH]; intros s H.
  - exists s. reflexivity.
  - destruct s as [|y s]; [discriminate|]. cbn in H.
    destruct (Ascii.ascii_dec x y) as [->|]; [|discriminate].
    destruct (IH s H) as [b ->]. exists b. reflexivity.
Qed.

(** * Facts about the matcher *)

Lemma taken_append (t s' : string) : taken (t ++ s') s' = t.
Proof.
  unfold taken. rewrite length_append, Nat.add_sub. apply substring_append.
Qed.

Lemma star_ends_sound (p : ascii -> bool) (pv pv' : option ascii)
    (s e : string) :
  In (pv', e) (star_ends p pv s) ->
  exists t, s = t ++ e /\ all_in p t = true /\ pv' = last_of pv t.
Proof.
  revert pv. induction s as [|c s IH]; intro pv; cbn.
  - intros [H|[]]. injection H as <- <-. exists "". auto.
  - destruct (p c) eqn:E.
    + rewrite in_app_iff. intros [H|[H|[]]].
      * destruct (IH _ H) as (t & -> & Ht & Hp).
        exists (String c t). cbn. rewrite E, Ht. auto.
      * injection H as <- <-. exists "". auto.
    + intros [H|[]]. injection H as <- <-. exists "". auto.
Qed.

Lemma lazy_ends_sound (p : ascii -> bool) (pv pv' : option ascii)
    (s e : string) :
  In (pv', e) (lazy_ends p pv s) ->
  exists t, s = t ++ e /\ all_in p t = true /\ pv' = last_of pv t.
Proof.
  revert pv. induction s as [|c s IH]; intro pv; cbn.
  - intros [H|[]]. injection H as <- <-. exists "". auto.
  - destruct (p c) eqn:E.
    + intros [H|H].
      * injection H as <- <-. exists "". auto.
      * destruct (IH _ H) as (t & -> & Ht & Hp).
        exists (String c t). cbn. rewrite E, Ht. auto.
    + intros [H|[]]. injection H as <- <-. exists "". auto.
Qed.

(** Every match the matcher returns is a match of the pattern. *)
Lemma run_sound (r : regex) (st st' : state) :
  In st' (run r st) ->
  exists t, rest st = t ++ rest st'
            /\ prev st' = last_of (prev st) t
            /\ matches r (prev st) t (rest st').
Proof.
  revert st st'. induction r; intros st st'; cbn [run matches].
  - (* Eps *) intros [<-|[]]. exists "". auto.
  - (* Chr *) destruct (rest st) as [|c' s'] eqn:E; [intros []|].
    destruct (Ascii.eqb_spec c c') as [<-|]; [|intros []].
    intros [<-|[]]. exists (String c ""). cbn. auto.
  - (* Cls *) destruct (rest st) as [|c' s'] eqn:E; [intros []|].
    destruct (p c') eqn:P; [|intros []].
    intros [<-|[]]. exists (String c' ""). cbn. eauto.
  - (* Seq *) rewrite in_flat_map. intros (st1 & H1 & H2).
    destruct (IHr1 _ _ H1) as (t1 & E1 & P1 & M1).
    destruct (IHr2 _ _ H2) as (t2 & E2 & P2 & M2).
    exists (t1 ++ t2).
    split; [rewrite append_assoc, <- E2; exact E1|].
    split; [rewrite last_of_append, <- P1; exact P2|].
    exists t1, t2. rewrite <- E2, <- P1. auto.
  - (* Alt *) rewrite in_app_iff. intros [H|H].
    + destruct (IHr1 _ _ H) as (t & ? & ? & ?). exists t. auto.
    + destruct (IHr2 _ _ H) as (t & ? & ? & ?). exists t. auto.
  - (* Opt *) rewrite in_app_iff. intros [H|[<-|[]]].
    + destruct (IHr _ _ H) as (t & ? & ? & ?). exists t. auto.
    + exists "". auto.
  - (* Star *) rewrite in_map_iff. intros ([pv' e] & <- & H).
    destruct (star_ends_sound _ _ _ _ _ H) as (t & ? & ? & ?).
    exists t. auto.
  - (* Plus *) destruct (rest st) as [|c' s'] eqn:E; [intros []|].
    destruct (p c') eqn:P; [|intros []].
    rewrite in_map_iff. intros ([pv' e] & <- & H).
    destruct (star_ends_sound _ _ _ _ _ H) as (t & -> & Ht & ->).
    exists (String c' t). cbn. rewrite P, Ht.
    repeat split; auto. discriminate.
  - (* LazyStar *) rewrite in_map_iff. intros ([pv' e] & <- & H).
    destruct (lazy_ends_sound _ _ _ _ _ H) as (t & ? & ? & ?).
    exists t. auto.
  - (* Group *) rewrite in_map_iff. intros (st1 & <- & H).
    destruct (IHr _ _ H) as (t & ? & ? & ?). exists t. auto.
  - (* Bol *) destruct (prev st) eqn:E; [intros []|].
    intros [<-|[]]. exists "". rewrite E. auto.
  - (* Eol *)
    destruct (String.eqb_spec (rest st) "") as [E|E].
    + intros [<-|[]]. exists "". auto.
    + destruct (String.eqb_spec (rest st) (String "010" "")) as [E'|E'];
        [|intros []].
      intros [<-|[]]. exists "". auto.
  - (* WordB *)
    destruct (xorb (is_word_opt (prev st)) (is_word_opt (head_char (rest st))))
      eqn:E; [|intros []].
    intros [<-|[]]. exists "". auto.
  - (* Behind *) destruct (prev st) as [c|] eqn:E; [|intros []].
    destruct (p c) eqn:P; [|intros []].
    intros [<-|[]]. exists "". rewrite E. eauto 6.
Qed.

Lemma first_match_sound (r : regex) (pv : option ascii) (s : string)
    (m : state) :
  first_match r pv s = Some m ->
  exists t, s = t ++ rest m /\ matches r pv t (rest m).
Proof.
  unfold first_match. intro H.
  destruct (run r (mkState [] pv s)) as [|x l] eqn:E; [discriminate|].
  injection H as ->.
  destruct (run_sound r (mkState [] pv s) m) as (t & A & _ & B).
  - rewrite E. left. reflexivity.
  - exists t. auto.
Qed.

(** The first match, step by step. *)
Lemma heads_first (r : regex) (pv : option ascii) (s : string) (m : state) :
  heads r (mkState [] pv s) m -> first_match r pv s = Some m.
Proof. intros [l H]. unfold first_match. rewrite H. reflexivity. Qed.

Lemma heads_seq (r1 r2 : regex) (st st1 st2 : state) :
  heads r1 st st1 -> heads r2 st1 st2 -> heads (Seq r1 r2) st st2.
Proof.
  intros [l1 H1] [l2 H2]. unfold heads. cbn [run].
  rewrite H1. cbn [flat_map]. rewrite H2. eexists. reflexivity.
Qed.

Lemma heads_eps (st : state) : heads Eps st st.
Proof. exists []. reflexivity. Qed.

Lemma heads_chr (c : ascii) (cs : list (nat * string)) (pv : option ascii)
    (s : string) :
  heads (Chr c) (mkState cs pv (String c s)) (mkState cs (Some c) s).
Proof. exists []. cbn [run rest caps]. rewrite Ascii.eqb_refl. reflexivity. Qed.

Lemma heads_bol (cs : list (nat * string)) (s : string) :
  heads Bol (mkState cs None s) (mkState cs None s).
Proof. exists []. reflexivity. Qed.

Lemma heads_eol (cs : list (nat * string)) (pv : option ascii) :
  heads Eol (mkState cs pv "") (mkState cs pv "").
Proof. exists []. reflexivity. Qed.

Lemma star_ends_head (p : ascii -> bool) (pv : option ascii) (t s : string) :
  all_in p t = true -> stops p s ->
  exists l, star_ends p pv (t ++ s) = (last_of pv t, s) :: l.
Proof.
  revert pv. induction t as [|c t IH]; intros pv Ht Hs; cbn.
  - destruct s as [|c s]; [eexists; reflexivity|].
    cbn in Hs. cbn. rewrite Hs. eexists. reflexivity.
  - cbn in Ht. apply andb_true_iff in Ht. destruct Ht as [Hc Ht].
    rewrite Hc. destruct (IH (Some c) Ht Hs) as [l ->].
    eexists. reflexivity.
Qed.

(** A greedy repetition first takes the longest run. *)
Lemma heads_star (p : ascii -> bool) (cs : list (nat * string))
    (pv : option ascii) (t s : string) :
  all_in p t = true -> stops p s ->
  heads (Star p) (mkState cs pv (t ++ s)) (mkState cs (last_of pv t) s).
Proof.
  intros Ht Hs. unfold heads. cbn [run prev rest].
  destruct (star_ends_head p pv t s Ht Hs) as [l ->].
  eexists. reflexivity.
Qed.

Lemma heads_plus (p : ascii -> bool) (cs : list (nat * string))
    (pv : option ascii) (t s : string) :
  t <> "" -> all_in p t = true -> stops p s ->
  heads (Plus p) (mkState cs pv (t ++ s)) (mkState cs (last_of pv t) s).
Proof.
  intros Hne Ht Hs. destruct t as [|c t]; [congruence|].
  cbn in Ht. apply andb_true_iff in Ht. destruct Ht as [Hc Ht].
  unfold heads. cbn [run rest String.append]. rewrite Hc.
  destruct (star_ends_head p (Some c) t s Ht Hs) as [l ->].
  eexists. reflexivity.
Qed.

Lemma heads_group (n : nat) (r : regex) (cs cs' : list (nat * string))
    (pv pv' : option ascii) (t s : string) :
  heads r (mkState cs pv (t ++ s)) (mkState cs' pv' s) ->
  heads (Group n r) (mkState cs pv (t ++ s)) (mkState ((n, t) :: cs') pv' s).
Proof.
  intros [l H]. unfold heads. cbn [run]. rewrite H.
  cbn [map rest prev caps]. rewrite taken_append. eexists. reflexivity.
Qed.

(** * The text normalizers *)

(** A pattern anchored at the start matches at no later position. *)
Lemma sub_from_anchored (r : regex) (f : string -> string) (k : nat)
    (c : ascii) (s : string) :
  sub_from (Seq Bol r) f k (Some c) s = drop k s.
Proof.
  revert k c. induction s as [|d s IH]; intros k c.
  - destruct k; reflexivity.
  - destruct k as [|k]; cbn [sub_from drop].
    + unfold first_match. cbn [run prev flat_map hd_error].
      rewrite IH. reflexivity.
    + apply IH.
Qed.

Lemma first_match_ft (letters body : string) :
  letters <> "" -> all_in is_alpha letters = true ->
  first_match ft_prefix_re None ("FT" ++ letters ++ "-" ++ body)
  = Some (mkState [] (Some "-"%char) body).
Proof.
  intros Hne Hal. destruct letters as [|c l]; [congruence|].
  cbn in Hal. apply andb_true_iff in Hal. destruct Hal as [Hc Hl].
  apply heads_first. unfold ft_prefix_re. cbn [seql].
  change ("FT" ++ String c l ++ "-" ++ body)
    with (String "F" (String "T" (String c l ++ String "-" body))).
  eapply heads_seq; [apply heads_bol|].
  eapply heads_seq; [apply heads_chr|].
  eapply heads_seq; [apply heads_chr|].
  eapply heads_seq;
    [apply (heads_plus is_alpha [] _ (String c l) (String "-" body));
     [discriminate | cbn; rewrite Hc, Hl; reflexivity | reflexivity]|].
  assert (L : last_of (Some "T"%char) (String c l) = last_of (Some c) l)
    by reflexivity.
  rewrite L.
  destruct (heads_chr "-" [] (last_of (Some c) l) body) as [tl H].
  exists tl. exact H.
Qed.

(** C8, as the code has it. [clean_phase_state] removes a leading prefix
    made of the letters "FT", one or more ASCII letters of either case and
    a hyphen, and returns every label without such a prefix unchanged. *)
Theorem clean_phase_state_strips_FT_prefix :
  (forall letters body : string,
      letters <> "" -> all_in is_alpha letters = true ->
      clean_phase_state ("FT" ++ letters ++ "-" ++ body) = body)
  /\ (forall s : string,
         (forall letters body : string,
             letters <> "" -> all_in is_alpha letters = true ->
             s <> "FT" ++ letters ++ "-" ++ body) ->
         clean_phase_state s = s)
  /\ clean_phase_state "FTOXID-SLAG" = "SLAG"
  /\ clean_phase_state "ABcd-X" = "ABcd-X".
Proof.
  split; [|split; [|split; reflexivity]].
  - intros letters body Hne Hal.
    unfold clean_phase_state, re_sub.
    change ("FT" ++ letters ++ "-" ++ body)
      with (String "F" (String "T" (letters ++ "-" ++ body))).
    cbn [sub_from].
    change (String "F" (String "T" (letters ++ "-" ++ body)))
      with ("FT" ++ letters ++ "-" ++ body).
    rewrite (first_match_ft letters body Hne Hal). cbn [rest].
    replace ("FT" ++ letters ++ "-" ++ body)
      with (("FT" ++ letters ++ "-") ++ body)
      by (cbn; rewrite append_assoc; reflexivity).
    rewrite taken_append.
    unfold ft_prefix_re. cbn [seql].
    cbn [String.append String.length Nat.sub sub_from].
    rewrite ?Nat.sub_0_r, sub_from_anchored.
    replace (letters ++ String "-" body) with ((letters ++ "-") ++ body)
      by (rewrite append_assoc; reflexivity).
    apply drop_append.
  - intros s Hs. unfold clean_phase_state, re_sub.
    destruct (first_match ft_prefix_re None s) as [m|] eqn:E.
    + exfalso. apply first_match_sound in E.
      destruct E as (t & -> & M).
      unfold ft_prefix_re in M. cbn [seql matches] in M.
      destruct M as (t1 & t2 & -> & [-> _] & t3 & t4 & -> & -> & t5 & t6
                     & -> & -> & t7 & t8 & -> & [Hne Hal] & ->).
      apply (Hs t7 (rest m) Hne Hal).
      cbn. rewrite append_assoc. reflexivity.
    + destruct s as [|c s]; [reflexivity|].
      cbn [sub_from]. rewrite E.
      unfold ft_prefix_re. cbn [seql]. rewrite sub_from_anchored.
      reflexivity.
Qed.

Lemma clean_phase_state_strips_FT_prefix_witness :
  clean_phase_state "FTmisc-Fe-liq" = "Fe-liq"
  /\ clean_phase_state "Slag-liq" = "Slag-liq".
Proof.
  split.
  - apply (proj1 clean_phase_state_strips_FT_prefix "misc" "Fe-liq").
    + discriminate.
    + reflexivity.
  - apply (proj1 (proj2 clean_phase_state_strips_FT_prefix) "Slag-liq").
    intros letters body _ _. discriminate.
Defined.


(** C8 fails on the code: the prefix pattern of the code is not that of two
    uppercase letters, lowercase letters and a hyphen.  "ABcd-X" has such a
    prefix and is returned unchanged; "FTOXID-SLAG" has none and loses
    "FTOXID-". *)
Lemma clean_phase_state_differs_from_spec_pattern :
  ~ (forall s : string, clean_phase_state s = cleanPhaseLabel_spec s).
Proof.
  intro H. specialize (H "ABcd-X"). vm_compute in H. discriminate.
Qed.

(** ** Rounding never yields NaN *)

Lemma shr_1_nonneg (mrs : shr_record) : 0 <= shr_m mrs -> 0 <= shr_m (shr_1 mrs).
Proof.
  destruct mrs as [m r s]. cbn.
  destruct m as [|p|p]; [| |lia]; try destruct p; cbn; lia.
Qed.

Lemma iter_shr_1_nonneg (p : positive) (mrs : shr_record) :
  0 <= shr_m mrs -> 0 <= shr_m (iter_pos shr_1 p mrs).
Proof.
  revert mrs. induction p as [p IH|p IH|]; intros mrs H; cbn.
  - apply IH, IH, shr_1_nonneg, H.
  - apply IH, IH, H.
  - apply shr_1_nonneg, H.
Qed.

Lemma shr_fexp_nonneg (m e : Z) (l : location) :
  0 <= m -> 0 <= shr_m (fst (shr_fexp prec emax m e l)).
Proof.
  intro H. unfold shr_fexp, shr.
  assert (H0 : 0 <= shr_m (shr_record_of_loc m l))
    by (destruct l as [|[]]; exact H).
  destruct (fexp prec emax (Zdigits2 m + e) - e); cbn [fst]; try exact H0.
  apply iter_shr_1_nonneg, H0.
Qed.

Lemma round_nearest_even_nonneg (m : Z) (l : location) :
  0 <= m -> 0 <= round_nearest_even m l.
Proof.
  intro H. destruct l as [|[]]; cbn; try lia.
  destruct (Z.even m); lia.
Qed.

Lemma binary_round_aux_cases (s : bool) (m e : Z) (l : location) :
  0 <= m ->
  let x := binary_round_aux prec emax s m e l in
  x = S754_zero s \/ x = S754_infinity s
  \/ exists m' e', x = S754_finite s m' e'.
Proof.
  intro H. unfold binary_round_aux.
  pose proof (shr_fexp_nonneg m e l H) as H1.
  destruct (shr_fexp prec emax m e l) as [mrs' e'] eqn:E1. cbn [fst] in H1.
  pose proof (shr_fexp_nonneg
                (round_nearest_even (shr_m mrs') (loc_of_shr_record mrs'))
                e' loc_Exact
                (round_nearest_even_nonneg _ _ H1)) as H2.
  destruct (shr_fexp prec emax
              (round_nearest_even (shr_m mrs') (loc_of_shr_record mrs'))
              e' loc_Exact) as [mrs'' e''] eqn:E2.
  cbn [fst] in H2. cbn zeta.
  destruct (shr_m mrs'') as [|p|p]; [auto | | lia].
  destruct (e'' <=? emax - prec); eauto.
Qed.

(** The float of a decimal literal is a zero, a finite number or an
    infinity of the sign of the literal. *)
Lemma float_of_decimal_cases (neg : bool) (m : N) (e : Z) :
  let x := float_of_decimal neg m e in
  x = S754_zero neg \/ x = S754_infinity neg
  \/ exists m' e', x = S754_finite neg m' e'.
Proof.
  unfold float_of_decimal. destruct m as [|p]; [auto|].
  destruct (0 <=? e) eqn:He.
  - unfold binary_round.
    destruct (shl_align _ _ _) as [mz ez].
    apply binary_round_aux_cases. lia.
  - apply Z.leb_gt in He.
    destruct (SFdiv_core_binary prec emax (Z.pos p) 0 (10 ^ (- e)) 0)
      as [[q e'] l] eqn:E.
    apply binary_round_aux_cases.
    unfold SFdiv_core_binary in E.
    destruct (Z.div_eucl _ _) as [q0 r0] eqn:D in E.
    injection E as <- _ _.
    assert (Hd : 0 < 10 ^ (- e)) by (apply Z.pow_pos_nonneg; lia).
    match type of D with
    | Z.div_eucl ?a ?b = _ =>
        assert (Ha : 0 <= a);
        [| pose proof (Z.div_pos a b Ha Hd) as Q;
           unfold Z.div in Q; rewrite D in Q; exact Q]
    end.
    destruct (0 - 0 - _) eqn:S; try lia.
    apply Z.shiftl_nonneg. lia.
Qed.

Lemma py_float_special (t : string) :
  special_literal t = true ->
  exists v, py_float t = Some v /\ is_finite v = false.
Proof.
  unfold py_float, special_literal. cbn zeta.
  destruct (parse_sign (strip t)) as [neg s1]. cbn [snd].
  destruct (String.eqb (lower s1) "inf" || String.eqb (lower s1) "infinity")%bool.
  - intros _. eexists. split; reflexivity.
  - cbn [orb]. intros ->. eexists. split; reflexivity.
Qed.

Lemma py_float_decimal (t : string) :
  special_literal t = false ->
  py_float t = option_map decimal_value (decimal_literal t).
Proof.
  unfold py_float, special_literal, decimal_literal. cbn zeta.
  destruct (parse_sign (strip t)) as [neg s1]. cbn [snd].
  destruct (String.eqb (lower s1) "inf" || String.eqb (lower s1) "infinity")%bool;
    [discriminate|].
  cbn [orb]. intros ->.
  destruct (match digitpart 0 s1 with Some r => r | None => (0%N, 0%nat, s1) end)
    as [[m1 n1] s2].
  destruct (match s2 with
            | String "." s2' =>
                match digitpart m1 s2' with
                | Some r => r
                | None => (m1, 0%nat, s2')
                end
            | _ => (m1, 0%nat, s2)
            end) as [[m2 n2] s3].
  destruct (n1 + n2 =? 0)%nat; [reflexivity|].
  destruct s3 as [|c s4]; [reflexivity|].
  destruct (Ascii.eqb c "e" || Ascii.eqb c "E")%bool; [|reflexivity].
  destruct (parse_exponent s4) as [[e [|? ?]]|]; reflexivity.
Qed.

Lemma fnum_text_value (s : string) :
  fnum (Some s) = match py_float (fnum_text s) with
                  | Some v => v
                  | None => fzero
                  end.
Proof.
  unfold fnum. fold (fnum_text s).
  destruct (String.eqb_spec (fnum_text s) "") as [E|E]; [|reflexivity].
  rewrite E. reflexivity.
Qed.

Lemma fnum_not_finite (s : string) :
  is_finite (fnum (Some s)) = false
  <-> special_literal (fnum_text s) = true
      \/ exists neg m e,
           decimal_literal (fnum_text s) = Some (neg, m, e)
           /\ float_of_decimal neg m e = S754_infinity neg.
Proof.
  rewrite fnum_text_value.
  destruct (special_literal (fnum_text s)) eqn:S.
  - destruct (py_float_special _ S) as (v & -> & F).
    split; [left; reflexivity | intros _; exact F].
  - rewrite (py_float_decimal _ S).
    destruct (decimal_literal (fnum_text s)) as [[[neg m] e]|]; cbn.
    + split.
      * intro F. right. exists neg, m, e. split; [reflexivity|].
        destruct (float_of_decimal_cases neg m e) as [Z|[I|(m' & e' & Fi)]];
          [rewrite Z in F; discriminate | exact I
          | rewrite Fi in F; discriminate].
      * intros [H|(neg' & m' & e' & H & I)]; [discriminate|].
        injection H as <- <- <-. rewrite I. reflexivity.
    + split; [discriminate|].
      intros [H|(neg' & m' & e' & H & _)]; discriminate.
Qed.

(** C5, as the code has it. [fnum] returns a float for every input and
    never raises.  On ASCII text: 0.0 for a missing, empty or unparseable
    text and the value [float] reads otherwise; when the text, trimmed and
    with D replaced by E, is no "inf", "infinity" or "nan", the result is
    the float nearest to the number m * 10^e that the text writes as a
    decimal literal.  "1.5D+02" is read as 15 * 10^1 and gives 150.0, the
    float 150 * 2^45 * 2^-45.  The result is not finite exactly when the
    text, trimmed and with D replaced by E, is an optionally signed "inf",
    "infinity" or "nan" in any letter case, or a decimal literal whose
    number m * 10^e rounds to an infinity: "inf" gives infinity, "nan"
    gives NaN and "1E999", the number 1 * 10^999, gives infinity. *)
Theorem fnum_total :
  fnum None = fzero
  /\ fnum (Some "") = fzero
  /\ (forall s : string,
         plain s ->
         py_float (fnum_text s) = None -> fnum (Some s) = fzero)
  /\ (forall (s : string) (v : float),
         plain s ->
         fnum_text s <> "" -> py_float (fnum_text s) = Some v ->
         fnum (Some s) = v)
  /\ fnum (Some "1.5D+02") = S754_finite false (150 * 2 ^ 45) (-45)
  /\ (forall s : string,
         plain s ->
         (is_finite (fnum (Some s)) = false
          <-> special_literal (fnum_text s) = true
              \/ exists neg m e,
                   decimal_literal (fnum_text s) = Some (neg, m, e)
                   /\ float_of_decimal neg m e = S754_infinity neg))
  /\ fnum (Some "inf") = S754_infinity false
  /\ fnum (Some "nan") = S754_nan
  /\ fnum (Some "1E999") = S754_infinity false
  /\ (forall s : string,
         plain s ->
         special_literal (fnum_text s) = false ->
         fnum (Some s)
         = match decimal_literal (fnum_text s) with
           | Some (neg, m, e) => float_of_decimal neg m e
           | None => fzero
           end)
  /\ (forall s : string,
         plain s ->
         special_literal (fnum_text s) = true ->
         is_finite (fnum (Some s)) = false)
  /\ fnum_text " 1.5D+02 " = "1.5E+02"
  /\ decimal_literal "1.5E+02" = Some (false, 15%N, 1)
  /\ decimal_literal (fnum_text "1E999") = Some (false, 1%N, 999)
  /\ decimal_literal (fnum_text "-2.50") = Some (true, 250%N, -2)
  /\ fnum (Some "abc") = fzero
  /\ fnum (Some "1.5.2") = fzero
  /\ fnum (Some "  ") = fzero.
Proof.
  split; [reflexivity|]. split; [reflexivity|].
  split; [|split; [|split; [vm_compute; reflexivity|split]]].
  - intros s _ H. unfold fnum. fold (fnum_text s). rewrite H.
    destruct (String.eqb (fnum_text s) ""); reflexivity.
  - intros s v _ Hne H. unfold fnum. fold (fnum_text s). rewrite H.
    destruct (String.eqb_spec (fnum_text s) ""); [congruence | reflexivity].
  - intros s _. apply fnum_not_finite.
  - split; [vm_compute; reflexivity|].
    split; [vm_compute; reflexivity|].
    split; [vm_compute; reflexivity|].
    split; [|split].
    + intros s _ S. rewrite fnum_text_value, (py_float_decimal _ S).
      destruct (decimal_literal (fnum_text s)) as [[[neg m] e]|];
        reflexivity.
    + intros s _ S. apply fnum_not_finite. left. exact S.
    + vm_compute. repeat split; reflexivity.
Qed.

Lemma fnum_total_witness :
  fnum (Some "abc") = fzero
  /\ fnum (Some " 2.5 ") = lit "2.5"
  /\ is_finite (fnum (Some "-Infinity")) = false
  /\ fnum (Some "2.5D-01") = float_of_decimal false 25 (-2).
Proof.
  split; [|split; [|split]].
  - apply (proj1 (proj2 (proj2 fnum_total)) "abc"); reflexivity.
  - apply (proj1 (proj2 (proj2 (proj2 fnum_total))) " 2.5 " (lit "2.5")).
    + reflexivity.
    + discriminate.
    + vm_compute. reflexivity.
  - apply (proj2 (proj1 (proj2 (proj2 (proj2 (proj2 (proj2 fnum_total)))))
                    "-Infinity" eq_refl)).
    left. reflexivity.
  - apply (proj1 (proj2 (proj2 (proj2 (proj2 (proj2 (proj2 (proj2 (proj2
             (proj2 fnum_total))))))))) "2.5D-01");
      reflexivity.
Defined.

(** C5 fails on the code: the result of [fnum] is not always finite. *)
Lemma fnum_inf_not_finite :
  ~ (forall s : string, is_finite (fnum (Some s)) = true).
Proof. intro H. specialize (H "inf"). vm_compute in H. discriminate. Qed.

(** ** [str.strip] *)

Lemma lstrip_nonspace (c : ascii) (s : string) :
  is_space c = false -> lstrip (String c s) = String c s.
Proof. intro H. cbn. rewrite H. reflexivity. Qed.

Lemma lstrip_spaces (w s : string) :
  all_in is_space w = true -> lstrip (w ++ s) = lstrip s.
Proof.
  induction w as [|c w IH]; cbn; [reflexivity|].
  intro H. apply andb_true_iff in H. destruct H as [Hc Hw].
  rewrite Hc. apply IH, Hw.
Qed.

Lemma rstrip_spaces (w : string) : all_in is_space w = true -> rstrip w = "".
Proof.
  induction w as [|c w IH]; cbn; [reflexivity|].
  intro H. apply andb_true_iff in H. destruct H as [Hc Hw].
  rewrite (IH Hw), Hc. reflexivity.
Qed.

Lemma rstrip_append_spaces (s w : string) :
  all_in is_space w = true -> rstrip (s ++ w) = rstrip s.
Proof.
  intro Hw. induction s as [|c s IH]; cbn.
  - apply rstrip_spaces, Hw.
  - rewrite IH. reflexivity.
Qed.

Lemma rstrip_snoc (a : string) (c : ascii) :
  is_space c = false -> rstrip (a ++ String c "") = a ++ String c "".
Proof.
  intro Hc. induction a as [|x a IH]; cbn.
  - rewrite Hc. reflexivity.
  - rewrite IH. destruct a; reflexivity.
Qed.

(** A line that starts and ends with a character that is not white space
    is stripped of its newline only. *)
Lemma strip_line (c d : ascii) (a : string) :
  is_space c = false -> is_space d = false ->
  strip (String c (a ++ String d "") ++ nl) = String c (a ++ String d "").
Proof.
  intros Hc Hd. unfold strip.
  change (String c (a ++ String d "") ++ nl)
    with (String c ((a ++ String d "") ++ nl)).
  rewrite lstrip_nonspace by exact Hc.
  change (String c ((a ++ String d "") ++ nl))
    with (String c (a ++ String d "") ++ nl).
  rewrite rstrip_append_spaces by reflexivity.
  apply (rstrip_snoc (String c a) d Hd).
Qed.

(** ** Runs of one class *)

(** Two runs of a class from the same position: the one that is followed
    by a character outside the class extends the other. *)
Lemma run_split (p : ascii -> bool) (a x b y : string) :
  all_in p a = true -> stops p x -> all_in p b = true ->
  a ++ x = b ++ y -> exists c, a = b ++ c /\ y = c ++ x.
Proof.
  revert b. induction a as [|u a IH]; intros b Ha Hx Hb E.
  - destruct b as [|v b]; [exists ""; auto|].
    cbn in E. subst x. cbn in Hx, Hb. rewrite Hx in Hb. discriminate.
  - destruct b as [|v b]; [exists (String u a); auto|].
    cbn in E. injection E as <- E.
    cbn in Ha, Hb.
    apply andb_true_iff in Ha. apply andb_true_iff in Hb.
    destruct (IH b (proj2 Ha) Hx (proj2 Hb) E) as (c & -> & ->).
    exists c. auto.
Qed.

Lemma all_in_head_false (p : ascii -> bool) (c : ascii) (s : string) :
  p c = false -> all_in p (String c s) = true -> False.
Proof. cbn. intros ->. discriminate. Qed.

Lemma run_cons_cases (p : ascii -> bool) (w y z : string) (c : ascii) :
  all_in p w = true -> w ++ y = String c z ->
  (w = "" /\ y = String c z)
  \/ (exists w', w = String c w' /\ p c = true /\ all_in p w' = true
                 /\ w' ++ y = z).
Proof.
  intros Hw E. destruct w as [|u w]; [left; auto|].
  cbn in E. injection E as -> E. cbn in Hw.
  apply andb_true_iff in Hw. right. exists w. tauto.
Qed.

Lemma digit_not_space (c : ascii) : is_digit c = true -> is_space c = false.
Proof.
  destruct c as [[] [] [] [] [] [] [] []]; vm_compute; congruence.
Qed.

(** ** Negative numbers in fixed notation *)

Lemma fmt_negative (k : nat) (t : float) :
  fltb t fzero = true ->
  feqb (fabs t) fzero = false
  /\ exists r, format_fixed k t = String "-" r.
Proof.
  destruct t as [s|s| |s m e]; try discriminate.
  - destruct s; [|discriminate]. intros _. split; [reflexivity|].
    exists "inf". reflexivity.
  - destruct s; [|discriminate]. intros _. split; [reflexivity|].
    cbn. eexists. reflexivity.
Qed.

Lemma fmt3_negative (t : float) :
  fltb t fzero = true -> exists r, fmt3 t = String "-" r.
Proof.
  intro H. destruct (fmt_negative 3 t H) as [E R].
  unfold fmt3. rewrite E. exact R.
Qed.

(** * The reconstructor and negative temperatures *)

(** The page-header pattern rejects a header whose temperature begins with
    a minus sign. *)
Lemma page_re_rejects_minus (pid r : string) :
  all_in is_digit pid = true ->
  first_match page_re None ("Page " ++ pid ++ " - -" ++ r) = None.
Proof.
  intro Hpid.
  destruct (first_match page_re None ("Page " ++ pid ++ " - -" ++ r))
    as [m|] eqn:E; [exfalso|reflexivity].
  apply first_match_sound in E. destruct E as (t & E & M).
  unfold page_re in M. cbn [seql Lit matches] in M.
  destruct M as (t0 & t1 & -> & [-> _] & M).
  destruct M as (tP & t2 & -> & MP & M).
  destruct MP as (? & ? & -> & -> & ? & ? & -> & -> & ? & ? & -> & -> & ->).
  destruct M as (w1 & t3 & -> & [Hw1n Hw1] & M).
  destruct M as (d & t4 & -> & [Hdn Hd] & M).
  destruct M as (w2 & t5 & -> & Hw2 & M).
  destruct M as (? & t6 & -> & -> & M).
  destruct M as (w3 & t7 & -> & Hw3 & M).
  destruct M as (nd & t8 & -> & [Hndn Hnd] & M).
  clear M.
  cbn [String.append] in E. injection E as E.
  rewrite !append_assoc in E.
  (* the white space after "Page" *)
  destruct w1 as [|c1 w1]; [congruence|].
  cbn in E, Hw1. injection E as <- E.
  destruct pid as [|c pid].
  - cbn [String.append] in E. symmetry in E.
    destruct (run_cons_cases _ _ _ _ _ Hw1 E) as [[-> E1]|(w & -> & _ & Hw & E1)].
    + destruct d as [|x d]; [congruence|]. cbn in E1. injection E1 as -> _.
      cbn in Hd. discriminate.
    + destruct (run_cons_cases _ _ _ _ _ Hw E1)
        as [[-> E2]|(w' & -> & Hc & _)]; [|discriminate].
      destruct d as [|x d]; [congruence|]. cbn in E2. injection E2 as -> _.
      cbn in Hd. discriminate.
  - cbn in Hpid. apply andb_true_iff in Hpid. destruct Hpid as [Hc Hpid].
    cbn [String.append] in E. symmetry in E.
    destruct (run_cons_cases _ _ _ _ _ Hw1 E) as [[-> E1]|(w & -> & Hs & _)];
      [|rewrite (digit_not_space c Hc) in Hs; discriminate].
    cbn [String.append] in E1. symmetry in E1.
    change (String c (pid ++ " - -" ++ r))
      with (String c pid ++ " - -" ++ r) in E1.
    destruct (run_split is_digit (String c pid) (" - -" ++ r) d _
                ltac:(cbn; rewrite Hc, Hpid; reflexivity) eq_refl Hd E1)
      as (cc & Epid & E2).
    assert (Hcc : all_in is_digit cc = true).
    { assert (A : all_in is_digit (d ++ cc) = true)
        by (rewrite <- Epid; cbn; rewrite Hc, Hpid; reflexivity).
      rewrite all_in_append in A. apply andb_true_iff in A. tauto. }
    destruct cc as [|x cc].
    + cbn [String.append] in E2.
      destruct (run_cons_cases _ _ _ _ _ Hw2 E2)
        as [[-> E3]|(w & -> & _ & Hw & E3)]; [discriminate|].
      destruct (run_cons_cases _ _ _ _ _ Hw E3)
        as [[-> E4]|(w' & -> & Hc' & _)]; [|discriminate].
      cbn [String.append] in E4. injection E4 as E4.
      rewrite !append_assoc in E4.
      destruct (run_cons_cases _ _ _ _ _ Hw3 E4)
        as [[-> E5]|(w' & -> & _ & Hw' & E5)].
      * destruct nd as [|y nd]; [congruence|]. cbn in E5.
        injection E5 as -> _. cbn in Hnd. discriminate.
      * destruct (run_cons_cases _ _ _ _ _ Hw' E5)
          as [[-> E6]|(w'' & -> & Hc'' & _)]; [|discriminate].
        destruct nd as [|y nd]; [congruence|]. cbn in E6.
        injection E6 as -> _. cbn in Hnd. discriminate.
    + cbn in Hcc. apply andb_true_iff in Hcc. destruct Hcc as [Hx _].
      cbn [String.append] in E2.
      destruct (run_cons_cases _ _ _ _ _ Hw2 E2)
        as [[-> E3]|(w & -> & Hs & _)].
      * cbn in E3. injection E3 as <- _. cbn in Hx. discriminate.
      * rewrite (digit_not_space x Hx) in Hs. discriminate.
Qed.

(** ** The loops pass over the lines once *)

Lemma scan_reactants_length (fe : option float) (ls : list string) :
  (List.length (snd (scan_reactants fe ls)) <= List.length ls)%nat.
Proof.
  revert fe. induction ls as [|l ls IH]; intro fe;
    cbn [scan_reactants List.length snd]; [lia|].
  destruct (negb (String.eqb (strip l) "") && negb (startswith l "PHASE:"))%bool.
  - eapply Nat.le_trans; [apply IH | lia].
  - cbn. lia.
Qed.

Lemma find_reactants_length (ls : list string) :
  (List.length (snd (find_reactants ls)) <= List.length ls)%nat.
Proof.
  induction ls as [|l ls IH]; cbn [find_reactants List.length snd]; [lia|].
  destruct (startswith l "PHASE:"); [cbn; lia|].
  destruct (startswith (strip l) "Reactants (page scope):"); [|lia].
  pose proof (scan_reactants_length None ls). lia.
Qed.

Ltac case_if :=
  match goal with
  | |- context [if ?b then _ else _] => destruct b eqn:?
  end.

Lemma read_phase_rows_length (ls : list string) (rows : list species_row)
    (rest : list string) :
  read_phase_rows ls = Some (rows, rest) ->
  (List.length rest <= List.length ls)%nat.
Proof.
  revert rows. induction ls as [|l ls IH]; intros rows;
    cbn [read_phase_rows List.length].
  - intro H. injection H as _ <-. cbn. lia.
  - cbv zeta. case_if.
    + intro H. injection H as _ <-. cbn. lia.
    + case_if.
      * intro H. apply IH in H. lia.
      * destruct (re_match row_re (strip l)) as [m|].
        -- unfold bind.
           destruct (py_float (group 2 m)); [|discriminate].
           destruct (py_float (group 3 m)); [|discriminate].
           destruct (py_float (group 4 m)); [|discriminate].
           destruct (py_float (group 5 m)); [|discriminate].
           destruct (py_float (group 6 m)); [|discriminate].
           destruct (read_phase_rows ls) as [[rows' rest']|]; [|discriminate].
           intro H. injection H as _ <-.
           specialize (IH rows' eq_refl). lia.
        -- intro H. apply IH in H. lia.
Qed.

Lemma read_solid_rows_length (ls : list string) (rows : list solid)
    (rest : list string) :
  read_solid_rows ls = Some (rows, rest) ->
  (List.length rest <= List.length ls)%nat.
Proof.
  revert rows. induction ls as [|l ls IH]; intros rows;
    cbn [read_solid_rows List.length].
  - intro H. injection H as _ <-. cbn. lia.
  - cbv zeta. case_if.
    + intro H. injection H as _ <-. cbn. lia.
    + destruct (re_match solid_re (strip l)) as [m|].
      * unfold bind.
        destruct (py_float (group 2 m)); [|discriminate].
        destruct (read_solid_rows ls) as [[rows' rest']|]; [|discriminate].
        intro H. injection H as _ <-.
        specialize (IH rows' eq_refl). lia.
      * intro H. apply IH in H. lia.
Qed.

Lemma tl_length {A : Type} (l : list A) :
  (List.length (tl l) <= List.length l)%nat.
Proof. destruct l; cbn; lia. Qed.

Lemma read_sections_length (fuel : nat) (ls : list string)
    (phs : list phase) (sols : list solid) (rest : list string) :
  read_sections fuel ls = Some (phs, sols, rest) ->
  (List.length rest <= List.length ls)%nat.
Proof.
  revert ls phs sols rest.
  induction fuel as [|fuel IH]; intros ls phs sols rest;
    cbn [read_sections].
  - intro H. injection H as _ _ <-. lia.
  - destruct ls as [|l ls]; [intro H; injection H as _ _ <-; cbn; lia|].
    destruct (next_is_page_sep (l :: ls));
      [intro H; injection H as _ _ <-; lia|].
    cbv zeta.
    destruct (startswith (strip l) "PHASE:").
    + unfold bind.
      destruct (split_item1 "PHASE:" (strip l)); [|discriminate].
      destruct (read_phase_rows (tl ls)) as [[rows r1]|] eqn:R;
        [|discriminate].
      destruct (read_sections fuel r1) as [[[p0 s0] r2]|] eqn:S;
        [|discriminate].
      intro H. injection H as _ _ <-.
      apply read_phase_rows_length in R. apply IH in S.
      pose proof (tl_length ls). cbn. lia.
    + destruct (startswith (strip l) "PURE SOLIDS:").
      * unfold bind.
        destruct (read_solid_rows (tl ls)) as [[rows r1]|] eqn:R;
          [|discriminate].
        destruct (read_sections fuel r1) as [[[p0 s0] r2]|] eqn:S;
          [|discriminate].
        intro H. injection H as _ _ <-.
        apply read_solid_rows_length in R. apply IH in S.
        pose proof (tl_length ls). cbn. lia.
      * intro H. apply IH in H. cbn. lia.
Qed.

(** Fuel beyond the number of lines changes nothing. *)
Lemma parse_pages_fuel (n m : nat) (ls : list string) :
  (List.length ls < n)%nat -> (List.length ls < m)%nat ->
  parse_pages n ls = parse_pages m ls.
Proof.
  revert m ls. induction n as [|n IH]; intros m ls Hn Hm; [lia|].
  destruct m as [|m]; [lia|].
  destruct ls as [|l ls]; [reflexivity|]. cbn in Hn, Hm. cbn [parse_pages].
  destruct (re_match page_re (strip l)) as [mt|]; [|apply IH; lia].
  unfold bind. destruct (py_float (group 2 mt)); [|reflexivity].
  pose proof (find_reactants_length ls) as F.
  destruct (find_reactants ls) as [fe ls_j]. cbn [snd] in F.
  destruct (read_sections (S (List.length ls_j)) ls_j)
    as [[[phs sols] ls_k]|] eqn:S; [|reflexivity].
  apply read_sections_length in S.
  rewrite (IH m ls_k) by lia. reflexivity.
Qed.

Lemma is_header_starts (l : string) :
  startswith (strip l) "Page" = false -> is_header l = false.
Proof.
  unfold is_header, re_match, startswith. intro H.
  destruct (first_match page_re None (strip l)) as [m|] eqn:E; [|reflexivity].
  apply first_match_sound in E. destruct E as (t & E & M).
  unfold page_re in M. cbn [seql Lit matches] in M.
  destruct M as (t0 & t1 & -> & [-> _] & tP & t2 & -> & MP & _).
  destruct MP as (? & ? & -> & -> & ? & ? & -> & -> & ? & ? & -> & -> & ->).
  rewrite E in H.
  replace (("" ++ ("P" ++ "a" ++ "g" ++ "e") ++ t2) ++ rest m)
    with ("Page" ++ (t2 ++ rest m)) in H by reflexivity.
  rewrite prefix_append in H. discriminate.
Qed.

(** The main loop passes over lines that are no page header. *)
Lemma parse_pages_skip (pre rest : list string) (n : nat) :
  Forall (fun l => is_header l = false) pre ->
  parse_pages (List.length pre + n) (pre ++ rest)%list = parse_pages n rest.
Proof.
  intro H. induction H as [|l pre Hl _ IH]; [reflexivity|].
  cbn [List.length Nat.add app parse_pages].
  unfold is_header, is_some in Hl.
  destruct (re_match page_re (strip l)); [discriminate|]. exact IH.
Qed.

Lemma negative_header_rejected (pid : string) (t : float) :
  all_in is_digit pid = true -> fltb t fzero = true ->
  is_header (page_header_line pid t ++ nl) = false.
Proof.
  intros Hpid Ht. destruct (fmt3_negative t Ht) as [r Hr].
  unfold is_header, page_header_line. rewrite Hr.
  replace ("Page " ++ pid ++ " - " ++ String "-" r ++ " C")
    with (String "P" (("age " ++ pid ++ " - -" ++ r ++ " ") ++ String "C" ""))
    by (cbn [String.append]; rewrite append_assoc; cbn [String.append];
        rewrite append_assoc; reflexivity).
  rewrite strip_line by reflexivity.
  replace (String "P" (("age " ++ pid ++ " - -" ++ r ++ " ") ++ String "C" ""))
    with ("Page " ++ pid ++ " - -" ++ (r ++ " C"))
    by (cbn [String.append]; rewrite append_assoc; cbn [String.append];
        rewrite append_assoc; reflexivity).
  unfold re_match. rewrite page_re_rejects_minus by exact Hpid. reflexivity.
Qed.

(** C9. A page header with a negative temperature, which the canonicalizer
    writes as "Page N - -T C", is no page header for the reconstructor,
    whose pattern takes digits and dots only for the temperature: the block
    that it opens, up to the next line that starts with "Page", yields no
    record.  The description fallback gives such a header, and the
    condition is then missing from the records. *)
Theorem negative_temperature_block_skipped :
  (forall (pid : string) (t : float),
      all_in is_digit pid = true -> fltb t fzero = true ->
      re_match page_re (strip (page_header_line pid t ++ nl)) = None)
  /\ (forall (pid : string) (t : float) (body rest : list string),
         all_in is_digit pid = true -> fltb t fzero = true ->
         Forall (fun l => startswith (strip l) "Page" = false) body ->
         parse_lines
           (as_read [separator_line; page_header_line pid t] ++ body ++ rest)%list
         = parse_lines rest)
  /\ (exists (lines : list string) (pages : list page),
         convert_lines cold_doc = Some lines
         /\ nth 16 lines "" = page_header_line "2" (lit "-5")
         /\ nth 16 lines "" = "Page 2 - -5.000 C"
         /\ bind (convert_factsage_xml_to_txt cold_doc) parse_txt_pages
            = Some pages
         /\ map page_num pages = [1%N; 3%N]).
Proof.
  split; [|split].
  - intros pid t Hpid Ht.
    pose proof (negative_header_rejected pid t Hpid Ht) as H.
    unfold is_header in H.
    destruct (re_match page_re (strip (page_header_line pid t ++ nl)));
      [discriminate | reflexivity].
  - intros pid t body rest Hpid Ht Hbody.
    set (pre := (as_read [separator_line; page_header_line pid t] ++ body)%list).
    replace (as_read [separator_line; page_header_line pid t] ++ body ++ rest)%list
      with (pre ++ rest)%list by (unfold pre; rewrite <- app_assoc; reflexivity).
    unfold parse_lines.
    rewrite (parse_pages_fuel (S (List.length (pre ++ rest)))
               (List.length pre + S (List.length rest)) (pre ++ rest)%list)
      by (rewrite length_app; lia).
    apply parse_pages_skip. unfold pre, as_read. cbn [map app].
    constructor; [vm_compute; reflexivity|].
    constructor; [apply negative_header_rejected; assumption|].
    eapply Forall_impl; [|exact Hbody].
    intros l Hl. apply is_header_starts, Hl.
  - eexists. eexists.
    split; [vm_compute; reflexivity|].
    split; [vm_compute; reflexivity|].
    split; [vm_compute; reflexivity|].
    split; [vm_compute; reflexivity|].
    vm_compute. reflexivity.
Qed.

Lemma negative_temperature_block_skipped_witness :
  parse_lines
    (as_read [separator_line; page_header_line "2" (lit "-5")]
       ++ as_read ["Fe + Si"; "PHASE: Fe-liq"] ++ [])%list
  = parse_lines [].
Proof.
  apply (proj1 (proj2 negative_temperature_block_skipped) "2" (lit "-5")
           (as_read ["Fe + Si"; "PHASE: Fe-liq"]) []).
  - reflexivity.
  - reflexivity.
  - repeat constructor.
Defined.

(** * Numbers in fixed notation, written and read back *)

Lemma snoc_exists (s : string) (pv : option ascii) :
  s <> "" -> exists a d, s = a ++ String d "" /\ last_of pv s = Some d.
Proof.
  revert pv. induction s as [|c s IH]; intros pv H; [congruence|].
  destruct s as [|c' s].
  - exists "", c. auto.
  - destruct (IH (Some c) ltac:(discriminate)) as (a & d & E & L).
    exists (String c a), d. cbn [String.append last_of] in *.
    rewrite E. auto.
Qed.

Lemma strip_trimmed (s : string) : trimmed s -> strip s = s.
Proof.
  intros [H1 H2]. unfold strip.
  destruct s as [|c s]; [reflexivity|]. cbn in H1.
  rewrite lstrip_nonspace by exact H1.
  destruct (snoc_exists (String c s) None ltac:(discriminate))
    as (a & d & E & L).
  rewrite L in H2. rewrite E. apply rstrip_snoc, H2.
Qed.

Lemma strip_trimmed_line (s : string) : trimmed s -> strip (s ++ nl) = s.
Proof.
  intros [H1 H2]. unfold strip.
  destruct s as [|c s]; [reflexivity|]. cbn in H1.
  cbn [String.append]. rewrite lstrip_nonspace by exact H1.
  change (String c (s ++ nl)) with (String c s ++ nl).
  rewrite rstrip_append_spaces by reflexivity.
  destruct (snoc_exists (String c s) None ltac:(discriminate))
    as (a & d & E & L).
  rewrite L in H2. rewrite E. apply rstrip_snoc, H2.
Qed.

Lemma last_of_nonempty (pv : option ascii) (s : string) :
  s <> "" -> last_of pv s = last_of None s.
Proof. destruct s; [congruence|reflexivity]. Qed.

Lemma last_of_all_in (p : ascii -> bool) (s : string) (d : ascii) :
  all_in p s = true -> last_of None s = Some d -> p d = true.
Proof.
  intros H L.
  destruct s as [|c s]; [discriminate|].
  destruct (snoc_exists (String c s) None ltac:(discriminate))
    as (a & d' & E & L').
  rewrite L in L'. injection L' as <-.
  rewrite E, all_in_append in H. cbn in H.
  apply andb_true_iff in H. destruct H as [_ H].
  apply andb_true_iff in H. tauto.
Qed.

(** ** Decimal digits *)

Lemma uint_digits (d : Decimal.uint) :
  all_in is_digit (NilEmpty.string_of_uint d) = true.
Proof. induction d; cbn; auto. Qed.

Lemma int_digits_append (acc : N) (a b : string) :
  int_digits acc (a ++ b) = int_digits (int_digits acc a) b.
Proof. revert acc. induction a as [|c a IH]; intro acc; cbn; auto. Qed.

Lemma int_digits_of_uint_acc (d : Decimal.uint) (acc : positive) :
  int_digits (Npos acc) (NilEmpty.string_of_uint d)
  = Npos (Pos.of_uint_acc d acc).
Proof.
  revert acc. induction d; intro acc; cbn [NilEmpty.string_of_uint int_digits
    Pos.of_uint_acc]; try reflexivity;
    rewrite <- IHd; f_equal;
    match goal with
    | |- context [digit_val ?c] =>
        let v := eval vm_compute in (digit_val c) in
        change (digit_val c) with v
    end; lia.
Qed.

Lemma int_digits_of_uint (d : Decimal.uint) :
  int_digits 0 (NilEmpty.string_of_uint d) = Pos.of_uint d.
Proof.
  induction d; cbn [NilEmpty.string_of_uint int_digits Pos.of_uint];
    try reflexivity; try exact IHd;
    rewrite <- int_digits_of_uint_acc; f_equal.
Qed.

Lemma str_of_N_nilempty (n : N) :
  str_of_N n = NilEmpty.string_of_uint (N.to_uint n)
  /\ str_of_N n <> "".
Proof.
  unfold str_of_N, NilZero.string_of_uint.
  destruct (N.to_uint n) eqn:E; try (split; [reflexivity|discriminate]).
  exfalso. destruct n as [|p]; [discriminate|].
  cbn in E. exact (DecimalPos.Unsigned.to_uint_nonnil p E).
Qed.

Lemma str_of_N_digits (n : N) : all_in is_digit (str_of_N n) = true.
Proof. rewrite (proj1 (str_of_N_nilempty n)). apply uint_digits. Qed.

Lemma int_digits_str_of_N (n : N) : int_digits 0 (str_of_N n) = n.
Proof.
  rewrite (proj1 (str_of_N_nilempty n)), int_digits_of_uint.
  apply (DecimalN.Unsigned.of_to n).
Qed.

Lemma all_in_repeat (p : ascii -> bool) (c : ascii) (n : nat) :
  p c = true -> all_in p (repeat_char c n) = true.
Proof. intro H. induction n; cbn; [|rewrite H]; auto. Qed.

Lemma int_digits_zeros (n : nat) (s : string) :
  int_digits 0 (repeat_char "0" n ++ s) = int_digits 0 s.
Proof. induction n; cbn; auto. Qed.

Lemma length_repeat (c : ascii) (n : nat) :
  String.length (repeat_char c n) = n.
Proof. induction n; cbn; auto. Qed.

Lemma substring_drop (i : nat) (s : string) :
  (i <= String.length s)%nat -> String.substring 0 i s ++ drop i s = s.
Proof.
  revert s. induction i as [|i IH]; intros s H.
  - destruct s; reflexivity.
  - destruct s as [|c s]; [cbn in H; lia|].
    cbn. rewrite IH by (cbn in H; lia). reflexivity.
Qed.

Lemma length_substring (i : nat) (s : string) :
  (i <= String.length s)%nat -> String.length (String.substring 0 i s) = i.
Proof.
  revert s. induction i as [|i IH]; intros s H.
  - destruct s; reflexivity.
  - destruct s as [|c s]; [cbn in H; lia|].
    cbn. rewrite IH by (cbn in H; lia). reflexivity.
Qed.

(** The digits of [fixed_digits]: an integer part and [k] decimals. *)
Lemma fixed_digits_shape (k : nat) (n : N) :
  exists A B,
    fixed_digits (S k) n = A ++ "." ++ B
    /\ A <> "" /\ all_in is_digit A = true
    /\ String.length B = S k /\ all_in is_digit B = true
    /\ int_digits 0 (A ++ B) = n.
Proof.
  unfold fixed_digits.
  set (ds := repeat_char "0" (S (S k) - String.length (str_of_N n))
               ++ str_of_N n).
  assert (Hlen : (S (S k) <= String.length ds)%nat).
  { unfold ds. rewrite length_append, length_repeat. lia. }
  assert (Hdig : all_in is_digit ds = true).
  { unfold ds. rewrite all_in_append, str_of_N_digits, all_in_repeat;
      reflexivity. }
  assert (Hval : int_digits 0 ds = n).
  { unfold ds. rewrite int_digits_zeros. apply int_digits_str_of_N. }
  set (i := (String.length ds - S k)%nat).
  assert (Hi : (i <= String.length ds)%nat) by (unfold i; lia).
  pose proof (substring_drop i ds Hi) as E.
  pose proof (length_substring i ds Hi) as LA.
  exists (String.substring 0 i ds), (drop i ds).
  rewrite <- E in Hdig. rewrite all_in_append in Hdig.
  apply andb_true_iff in Hdig. destruct Hdig as [HA HB].
  repeat split; try assumption.
  - intro C. rewrite C in LA. change (String.length "") with 0%nat in LA.
    clear E. subst i. lia.
  - assert (L : String.length (String.substring 0 i ds ++ drop i ds)
                = String.length ds) by (rewrite E; reflexivity).
    rewrite length_append, LA in L. unfold i in L. unfold i. lia.
  - rewrite E. exact Hval.
Qed.

Lemma digits_tail_digits (acc : N) (cnt : nat) (D tail : string) :
  all_in is_digit D = true -> stops digit_or_underscore tail ->
  digits_tail acc cnt (D ++ tail)
  = (int_digits acc D, (cnt + String.length D)%nat, tail).
Proof.
  revert acc cnt. induction D as [|c D IH]; intros acc cnt HD Ht.
  - cbn [String.append int_digits String.length]. rewrite Nat.add_0_r.
    destruct tail as [|c s]; [reflexivity|].
    cbn in Ht. unfold digit_or_underscore in Ht.
    apply orb_false_iff in Ht. destruct Ht as [H1 H2].
    cbn [digits_tail]. rewrite H1, H2. reflexivity.
  - cbn in HD. apply andb_true_iff in HD. destruct HD as [Hc HD].
    cbn [String.append digits_tail]. rewrite Hc.
    rewrite (IH _ _ HD Ht). cbn [int_digits String.length].
    f_equal. f_equal. lia.
Qed.

Lemma digitpart_digits (acc : N) (D tail : string) :
  D <> "" -> all_in is_digit D = true -> stops digit_or_underscore tail ->
  digitpart acc (D ++ tail)
  = Some (int_digits acc D, String.length D, tail).
Proof.
  intros Hne HD Ht. destruct D as [|c D]; [congruence|].
  cbn in HD. apply andb_true_iff in HD. destruct HD as [Hc HD].
  cbn [String.append digitpart]. rewrite Hc.
  rewrite (digits_tail_digits _ _ D tail HD Ht). reflexivity.
Qed.

Lemma digit_head (c : ascii) :
  is_digit c = true ->
  is_space c = false
  /\ forall s : string,
       parse_sign (String c s) = (false, String c s)
       /\ (String.eqb (lower (String c s)) "inf"
           || String.eqb (lower (String c s)) "infinity")%bool = false
       /\ String.eqb (lower (String c s)) "nan" = false.
Proof.
  intro H.
  destruct c as [[] [] [] [] [] [] [] []]; vm_compute in H;
    try discriminate H; (split; [reflexivity|]); intro s;
    repeat split; reflexivity.
Qed.

(** [float] on a number in fixed notation. *)
Lemma py_float_fixed (neg : bool) (A B : string) :
  A <> "" -> all_in is_digit A = true ->
  B <> "" -> all_in is_digit B = true ->
  py_float ((if neg then "-" else "") ++ A ++ "." ++ B)
  = Some (float_of_decimal neg (int_digits 0 (A ++ B))
            (- Z.of_nat (String.length B))).
Proof.
  intros HAn HA HBn HB.
  destruct A as [|c A]; [congruence|].
  pose proof HA as HA'. cbn in HA'. apply andb_true_iff in HA'.
  destruct HA' as [Hc _].
  destruct (digit_head c Hc) as [Hsp Hhead].
  assert (Hlast : match last_of None (String c A ++ "." ++ B) with
                  | Some d => is_space d = false
                  | None => True
                  end).
  { destruct (snoc_exists B (last_of None (String c A ++ "."))
                HBn) as (a & d & E & L).
    rewrite <- append_assoc, last_of_append, L.
    assert (Hd : is_digit d = true).
    { rewrite E, all_in_append in HB. cbn in HB.
      apply andb_true_iff in HB. destruct HB as [_ HB].
      apply andb_true_iff in HB. tauto. }
    exact (proj1 (digit_head d Hd)). }
  assert (Tr : trimmed ((if neg then "-" else "") ++ String c A ++ "." ++ B)).
  { split.
    - destruct neg; cbn; [reflexivity | exact Hsp].
    - destruct neg; exact Hlast. }
  unfold py_float. cbv zeta. rewrite (strip_trimmed _ Tr).
  assert (PS : parse_sign ((if neg then "-" else "") ++ String c A ++ "." ++ B)
               = (neg, String c A ++ "." ++ B)).
  { destruct neg; [reflexivity|]. apply (proj1 (Hhead _)). }
  rewrite PS.
  destruct (Hhead (A ++ "." ++ B)) as (_ & H1 & H2).
  cbn [String.append] in *. rewrite H1, H2.
  change (String c (A ++ String "." B)) with (String c A ++ String "." B).
  rewrite (digitpart_digits 0 (String c A) (String "." B) HAn HA eq_refl).
  replace B with (B ++ "") at 1 by apply append_nil_r.
  rewrite (digitpart_digits _ B "" HBn HB I).
  destruct (String.length (String c A) + String.length B =? 0)%nat eqn:Z;
    [cbn in Z; discriminate|].
  change (String c (A ++ B)) with (String c A ++ B).
  rewrite int_digits_append. reflexivity.
Qed.

Lemma feqb_fabs_finite (s : bool) (m : positive) (e : Z) :
  feqb (fabs (S754_finite s m e)) fzero = false.
Proof. reflexivity. Qed.

(** [float] reads the text of a finite float back as [reread_fmt]. *)
Lemma py_float_format_fixed (k : nat) (s : bool) (m : positive) (e : Z) :
  py_float (format_fixed (S k) (S754_finite s m e))
  = Some (reread (S k) (S754_finite s m e)).
Proof.
  cbn [format_fixed reread].
  destruct (fixed_digits_shape k (scaled_round (S k) m e))
    as (A & B & -> & HAn & HA & HBl & HB & Hv).
  rewrite (py_float_fixed s A B HAn HA); [| |exact HB].
  - rewrite Hv, HBl. reflexivity.
  - intro C. rewrite C in HBl. discriminate.
Qed.

Lemma py_float_fmt3 (x : float) :
  is_finite x = true -> py_float (fmt3 x) = Some (reread_fmt 3 x).
Proof.
  destruct x as [s|s| |s m e]; try discriminate; intros _.
  - reflexivity.
  - unfold fmt3. rewrite feqb_fabs_finite. apply py_float_format_fixed.
Qed.

Lemma py_float_fmt4 (x : float) :
  is_finite x = true -> py_float (fmt4 x) = Some (reread_fmt 4 x).
Proof.
  destruct x as [s|s| |s m e]; try discriminate; intros _.
  - reflexivity.
  - unfold fmt4. rewrite feqb_fabs_finite. apply py_float_format_fixed.
Qed.

(** ** The characters of a written number *)

Lemma all_in_weaken (p q : ascii -> bool) (s : string) :
  (forall c, p c = true -> q c = true) ->
  all_in p s = true -> all_in q s = true.
Proof.
  intro H. induction s as [|c s IH]; cbn; [reflexivity|].
  intro A. apply andb_true_iff in A. destruct A as [Hc Hs].
  rewrite (H c Hc), (IH Hs). reflexivity.
Qed.

Lemma digit_classes (c : ascii) :
  is_digit c = true ->
  num_dot c = true /\ num_dot_minus c = true /\ not_m c = true
  /\ non_space c = true.
Proof.
  intro H.
  destruct c as [[] [] [] [] [] [] [] []]; vm_compute in H;
    try discriminate H; repeat split; reflexivity.
Qed.

Lemma num_dot_classes (c : ascii) :
  num_dot c = true ->
  num_dot_minus c = true /\ not_m c = true /\ is_space c = false.
Proof.
  intro H.
  destruct c as [[] [] [] [] [] [] [] []]; vm_compute in H;
    try discriminate H; repeat split; reflexivity.
Qed.

Lemma num_dot_minus_classes (c : ascii) :
  num_dot_minus c = true -> not_m c = true /\ is_space c = false.
Proof.
  intro H.
  destruct c as [[] [] [] [] [] [] [] []]; vm_compute in H;
    try discriminate H; repeat split; reflexivity.
Qed.

Lemma fmt3_fmt (x : float) : fmt3 x = fmt 3 x.
Proof. reflexivity. Qed.

Lemma fmt4_fmt (x : float) : fmt4 x = fmt 4 x.
Proof. reflexivity. Qed.

(** A finite number that is not negative is written with digits and a
    point. *)
Lemma fmt_nonneg (k : nat) (x : float) :
  is_finite x = true -> fltb x fzero = false ->
  fmt (S k) x <> "" /\ all_in num_dot (fmt (S k) x) = true.
Proof.
  destruct x as [s|s| |s m e]; try discriminate; intros _ H.
  - split; [discriminate | reflexivity].
  - destruct s; [discriminate|].
    unfold fmt. rewrite feqb_fabs_finite. cbn [format_fixed].
    destruct (fixed_digits_shape k (scaled_round (S k) m e))
      as (A & B & -> & HAn & HA & HBl & HB & _).
    split; [destruct A; [congruence | discriminate]|].
    cbn [String.append]. rewrite !all_in_append. cbn.
    rewrite (all_in_weaken is_digit num_dot A
               (fun c H => proj1 (digit_classes c H)) HA).
    rewrite (all_in_weaken is_digit num_dot B
               (fun c H => proj1 (digit_classes c H)) HB).
    reflexivity.
Qed.

(** A finite number is written with digits, a point and at most a minus
    sign. *)
Lemma fmt_finite (k : nat) (x : float) :
  is_finite x = true ->
  fmt (S k) x <> "" /\ all_in num_dot_minus (fmt (S k) x) = true.
Proof.
  destruct x as [s|s| |s m e]; try discriminate; intros _.
  - split; [discriminate | reflexivity].
  - unfold fmt. rewrite feqb_fabs_finite. cbn [format_fixed].
    destruct (fixed_digits_shape k (scaled_round (S k) m e))
      as (A & B & -> & HAn & HA & HBl & HB & _).
    split; [destruct s, A; try congruence; discriminate|].
    rewrite !all_in_append. cbn.
    rewrite (all_in_weaken is_digit num_dot_minus A
               (fun c H => proj1 (proj2 (digit_classes c H))) HA).
    rewrite (all_in_weaken is_digit num_dot_minus B
               (fun c H => proj1 (proj2 (digit_classes c H))) HB).
    destruct s; reflexivity.
Qed.

(** No written number holds the letter m or a newline. *)
Lemma fmt_not_m (k : nat) (x : float) : all_in not_m (fmt (S k) x) = true.
Proof.
  destruct x as [s|s| |s m e]; try reflexivity.
  - destruct s; reflexivity.
  - apply (all_in_weaken num_dot_minus not_m);
      [intros c H; apply (proj1 (num_dot_minus_classes c H))|].
    apply (fmt_finite k (S754_finite s m e)). reflexivity.
Qed.

Lemma py_float_fmt (k : nat) (x : float) :
  is_finite x = true -> py_float (fmt (S k) x) = Some (reread_fmt (S k) x).
Proof.
  destruct x as [s|s| |s m e]; try discriminate; intros _.
  - reflexivity.
  - unfold fmt. rewrite feqb_fabs_finite. apply py_float_format_fixed.
Qed.

Lemma stops_class (p q : ascii -> bool) (t s : string) :
  t <> "" -> all_in q t = true ->
  (forall c, q c = true -> p c = false) -> stops p (t ++ s).
Proof.
  intros Hne Ht H. destruct t as [|c t]; [congruence|].
  cbn in Ht. apply andb_true_iff in Ht. cbn. apply H. tauto.
Qed.

(** * The reconstructor on the lines of the canonicalizer *)

Lemma heads_lit (s t : string) (cs : list (nat * string))
    (pv : option ascii) :
  heads (Lit s) (mkState cs pv (s ++ t)) (mkState cs (last_of pv s) t).
Proof.
  revert pv. induction s as [|c s IH]; intro pv.
  - apply heads_eps.
  - destruct s as [|c' s].
    + apply heads_chr.
    + change (Lit (String c (String c' s)))
        with (Seq (Chr c) (Lit (String c' s))).
      eapply heads_seq; [apply heads_chr|]. apply IH.
Qed.

Lemma heads_wordb (cs : list (nat * string)) (pv : option ascii)
    (s : string) :
  xorb (is_word_opt pv) (is_word_opt (head_char s)) = true ->
  heads WordB (mkState cs pv s) (mkState cs pv s).
Proof.
  intro H. exists []. cbn [run prev rest]. rewrite H. reflexivity.
Qed.

Lemma space_stops_digit (c : ascii) : is_space c = true -> is_digit c = false.
Proof.
  intro H.
  destruct c as [[] [] [] [] [] [] [] []]; vm_compute in H;
    try discriminate H; reflexivity.
Qed.

(** The page header of a condition with a temperature that is not
    negative. *)
Lemma header_match (pid T : string) :
  pid <> "" -> all_in is_digit pid = true ->
  T <> "" -> all_in num_dot T = true ->
  re_match page_re ("Page " ++ pid ++ " - " ++ T ++ " C")
  = Some (mkState [(2%nat, T); (1%nat, pid)] (Some "C"%char) "").
Proof.
  intros Hpn Hp HTn HT. apply heads_first. unfold page_re. cbn [seql].
  eapply heads_seq; [apply heads_bol|].
  eapply heads_seq;
    [apply (heads_lit "Page" (" " ++ pid ++ " - " ++ T ++ " C"))|].
  eapply heads_seq;
    [apply (heads_plus is_space _ _ " " (pid ++ " - " ++ T ++ " C"));
     [discriminate | reflexivity
     | apply (stops_class is_space is_digit); auto;
       intros c Hc; apply (proj1 (digit_head c Hc))]|].
  eapply heads_seq;
    [apply heads_group;
     apply (heads_plus is_digit _ _ pid (" - " ++ T ++ " C"));
     [assumption | assumption | reflexivity]|].
  eapply heads_seq;
    [apply (heads_star is_space _ _ " " ("- " ++ T ++ " C"));
     reflexivity|].
  eapply heads_seq; [apply heads_chr|].
  eapply heads_seq;
    [apply (heads_star is_space _ _ " " (T ++ " C"));
     [reflexivity
     | apply (stops_class is_space num_dot); auto;
       intros c Hc; apply (proj2 (proj2 (num_dot_classes c Hc)))]|].
  eapply heads_seq;
    [apply heads_group;
     apply (heads_plus num_dot _ _ T " C");
     [assumption | assumption | reflexivity]|].
  eapply heads_seq;
    [apply (heads_star is_space _ _ " " "C"); reflexivity|].
  apply heads_chr.
Qed.

Lemma space_classes (c : ascii) :
  is_space c = true ->
  non_space c = false /\ num_dot_minus c = false /\ num_dot c = false.
Proof.
  intro H.
  destruct c as [[] [] [] [] [] [] [] []]; vm_compute in H;
    try discriminate H; repeat split; reflexivity.
Qed.

Lemma non_space_not_space (c : ascii) :
  non_space c = true -> is_space c = false.
Proof. unfold non_space. destruct (is_space c); [discriminate|reflexivity]. Qed.

Lemma token_stops_space (p : ascii -> bool) (t s : string) :
  token p t -> (forall c, p c = true -> is_space c = false) ->
  stops is_space (t ++ s).
Proof. intros [Hn Ht] H. apply (stops_class is_space p); assumption. Qed.

Lemma token_stops_space0 (p : ascii -> bool) (t : string) :
  token p t -> (forall c, p c = true -> is_space c = false) ->
  stops is_space t.
Proof.
  intros Ht H. rewrite <- (append_nil_r t).
  apply (token_stops_space p); assumption.
Qed.

Lemma spaces_stop (p : ascii -> bool) (sp s : string) :
  token is_space sp -> (forall c, is_space c = true -> p c = false) ->
  stops p (sp ++ s).
Proof. intros [Hn Ht] H. apply (stops_class p is_space); assumption. Qed.

(** The row pattern on a name and five numbers set apart by white space. *)
Lemma row_match (name s1 g s2 w s3 n s4 x s5 a : string) :
  token non_space name ->
  token is_space s1 -> token num_dot_minus g ->
  token is_space s2 -> token num_dot_minus w ->
  token is_space s3 -> token num_dot_minus n ->
  token is_space s4 -> token num_dot_minus x ->
  token is_space s5 -> token num_dot_minus a ->
  exists pv,
    re_match row_re
      (name ++ s1 ++ g ++ s2 ++ w ++ s3 ++ n ++ s4 ++ x ++ s5 ++ a)
    = Some (mkState [(6%nat, a); (5%nat, x); (4%nat, n); (3%nat, w);
                     (2%nat, g); (1%nat, name)] pv "").
Proof.
  intros Hname H1 Hg H2 Hw H3 Hn H4 Hx H5 Ha.
  eexists. apply heads_first. unfold row_re. cbn [seql].
  assert (SP : forall c, is_space c = true -> non_space c = false)
    by (intros c H; apply (space_classes c H)).
  assert (SN : forall c, is_space c = true -> num_dot_minus c = false)
    by (intros c H; apply (space_classes c H)).
  assert (NS : forall c, num_dot_minus c = true -> is_space c = false)
    by (intros c H; apply (num_dot_minus_classes c H)).
  eapply heads_seq; [apply heads_bol|].
  eapply heads_seq;
    [apply (heads_star is_space _ _ "" _ eq_refl);
     apply (token_stops_space non_space); [assumption|];
     apply non_space_not_space|].
  eapply heads_seq;
    [apply heads_group; apply heads_plus;
     [apply Hname | apply Hname | apply (spaces_stop _ _ _ H1 SP)]|].
  eapply heads_seq;
    [apply heads_plus;
     [apply H1 | apply H1 | apply (token_stops_space _ _ _ Hg NS)]|].
  eapply heads_seq;
    [apply heads_group; apply heads_plus;
     [apply Hg | apply Hg | apply (spaces_stop _ _ _ H2 SN)]|].
  eapply heads_seq;
    [apply heads_plus;
     [apply H2 | apply H2 | apply (token_stops_space _ _ _ Hw NS)]|].
  eapply heads_seq;
    [apply heads_group; apply heads_plus;
     [apply Hw | apply Hw | apply (spaces_stop _ _ _ H3 SN)]|].
  eapply heads_seq;
    [apply heads_plus;
     [apply H3 | apply H3 | apply (token_stops_space _ _ _ Hn NS)]|].
  eapply heads_seq;
    [apply heads_group; apply heads_plus;
     [apply Hn | apply Hn | apply (spaces_stop _ _ _ H4 SN)]|].
  eapply heads_seq;
    [apply heads_plus;
     [apply H4 | apply H4 | apply (token_stops_space _ _ _ Hx NS)]|].
  eapply heads_seq;
    [apply heads_group; apply heads_plus;
     [apply Hx | apply Hx | apply (spaces_stop _ _ _ H5 SN)]|].
  eapply heads_seq;
    [apply heads_plus;
     [apply H5 | apply H5 | apply (token_stops_space0 _ _ Ha NS)]|].
  rewrite <- (append_nil_r a) at 1.
  eapply heads_seq;
    [apply heads_group; apply heads_plus;
     [apply Ha | apply Ha | exact I]|].
  eapply heads_seq;
    [apply (heads_star is_space _ _ "" "" eq_refl I)|].
  apply heads_eol.
Qed.

(** The solids pattern on a name and two numbers. *)
Lemma solid_match (name s1 g s2 a : string) :
  token non_space name ->
  token is_space s1 -> token num_dot_minus g ->
  token is_space s2 -> token num_dot_minus a ->
  exists pv,
    re_match solid_re (name ++ s1 ++ g ++ s2 ++ a)
    = Some (mkState [(3%nat, a); (2%nat, g); (1%nat, name)] pv "").
Proof.
  intros Hname H1 Hg H2 Ha.
  eexists. apply heads_first. unfold solid_re. cbn [seql].
  assert (SP : forall c, is_space c = true -> non_space c = false)
    by (intros c H; apply (space_classes c H)).
  assert (SN : forall c, is_space c = true -> num_dot_minus c = false)
    by (intros c H; apply (space_classes c H)).
  assert (NS : forall c, num_dot_minus c = true -> is_space c = false)
    by (intros c H; apply (num_dot_minus_classes c H)).
  eapply heads_seq; [apply heads_bol|].
  eapply heads_seq;
    [apply (heads_star is_space _ _ "" _ eq_refl);
     apply (token_stops_space non_space); [assumption|];
     apply non_space_not_space|].
  eapply heads_seq;
    [apply heads_group; apply heads_plus;
     [apply Hname | apply Hname | apply (spaces_stop _ _ _ H1 SP)]|].
  eapply heads_seq;
    [apply heads_plus;
     [apply H1 | apply H1 | apply (token_stops_space _ _ _ Hg NS)]|].
  eapply heads_seq;
    [apply heads_group; apply heads_plus;
     [apply Hg | apply Hg | apply (spaces_stop _ _ _ H2 SN)]|].
  eapply heads_seq;
    [apply heads_plus;
     [apply H2 | apply H2 | apply (token_stops_space0 _ _ Ha NS)]|].
  rewrite <- (append_nil_r a) at 1.
  eapply heads_seq;
    [apply heads_group; apply heads_plus;
     [apply Ha | apply Ha | exact I]|].
  eapply heads_seq;
    [apply (heads_star is_space _ _ "" "" eq_refl I)|].
  apply heads_eol.
Qed.

(** ** Columns *)

Lemma spaces_all (n : nat) : all_in is_space (spaces n) = true.
Proof. induction n; cbn; auto. Qed.

Lemma spaces_token (n : nat) : (0 < n)%nat -> token is_space (spaces n).
Proof.
  intro H. split; [destruct n; [lia|discriminate] | apply spaces_all].
Qed.

Lemma pad_token (a b : nat) :
  (0 < b)%nat -> token is_space (spaces a ++ spaces b).
Proof.
  intro H. split.
  - destruct a; [destruct b; [lia|discriminate] | discriminate].
  - rewrite all_in_append, !spaces_all. reflexivity.
Qed.

Lemma append_nonempty_r (a b : string) : b <> "" -> a ++ b <> "".
Proof. destruct a; [auto | discriminate]. Qed.

Lemma last_of_tail (pv : option ascii) (a b : string) :
  b <> "" -> last_of pv (a ++ b) = last_of None b.
Proof.
  intro H. rewrite last_of_append. apply last_of_nonempty, H.
Qed.

(** A text between two tokens without white space is trimmed. *)
Lemma trimmed_join (p q : ascii -> bool) (t mid u : string) :
  token p t -> (forall c, p c = true -> is_space c = false) ->
  token q u -> (forall c, q c = true -> is_space c = false) ->
  trimmed (t ++ mid ++ u).
Proof.
  intros Ht Hp [Hun Hu] Hq. split.
  - apply (token_stops_space p); assumption.
  - rewrite last_of_tail by (apply append_nonempty_r, Hun).
    rewrite last_of_tail by exact Hun.
    destruct (last_of None u) as [d|] eqn:L; [|exact I].
    apply Hq. exact (last_of_all_in q u d Hu L).
Qed.

Lemma strip_indented (w b : string) :
  all_in is_space w = true -> trimmed b -> strip (w ++ b ++ nl) = b.
Proof.
  intros Hw Hb. unfold strip. rewrite lstrip_spaces by exact Hw.
  apply (strip_trimmed_line b Hb).
Qed.

(** A marker without white space that begins a line begins its first
    word. *)
Lemma prefix_of_token (q name sp tail : string) :
  all_in non_space q = true -> token is_space sp ->
  String.prefix q (name ++ sp ++ tail) = true ->
  String.prefix q name = true.
Proof.
  intros Hq [Hsn Hs]. revert name.
  induction q as [|c q IH]; intros name H; [destruct name; reflexivity|].
  cbn in Hq. apply andb_true_iff in Hq. destruct Hq as [Hc Hq].
  destruct name as [|d name].
  - exfalso. destruct sp as [|e sp]; [congruence|].
    cbn in H, Hs. apply andb_true_iff in Hs. destruct Hs as [He _].
    destruct (Ascii.ascii_dec c e) as [->|]; [|discriminate].
    destruct (space_classes e He) as [N _]. congruence.
  - cbn in H |- *.
    destruct (Ascii.ascii_dec c d); [|discriminate].
    apply (IH Hq). exact H.
Qed.

Lemma prefix_false_of_token (q q0 name sp tail : string) :
  String.prefix q0 q = true -> all_in non_space q0 = true ->
  token is_space sp -> String.prefix q0 name = false ->
  String.prefix q (name ++ sp ++ tail) = false.
Proof.
  intros H0 Hq Hsp Hn.
  destruct (String.prefix q (name ++ sp ++ tail)) eqn:E; [|reflexivity].
  pose proof (prefix_trans q0 q _ H0 E) as P.
  apply (prefix_of_token q0 name sp tail Hq Hsp) in P. congruence.
Qed.

(** A line that begins with a well-formed name is no section marker and
    no totals row. *)
Lemma name_line_not_marker (name sp tail : string) :
  name_ok name -> token is_space sp ->
  (String.eqb (name ++ sp ++ tail) ""
   || startswith (name ++ sp ++ tail) "PHASE:"
   || startswith (name ++ sp ++ tail) "PURE SOLIDS:"
   || startswith (name ++ sp ++ tail) "System Thermodynamics:")%bool = false
  /\ is_some (re_match total_re (name ++ sp ++ tail)) = false.
Proof.
  intros ([Hnn Hns] & HT & HP & HU & HS) Hsp. unfold startswith in *.
  split.
  - rewrite (prefix_false_of_token "PHASE:" "PHASE:" name sp tail
               eq_refl eq_refl Hsp HP).
    rewrite (prefix_false_of_token "PURE SOLIDS:" "PURE" name sp tail
               eq_refl eq_refl Hsp HU).
    rewrite (prefix_false_of_token "System Thermodynamics:" "System"
               name sp tail eq_refl eq_refl Hsp HS).
    destruct name; [congruence | reflexivity].
  - unfold re_match.
    destruct (first_match total_re None (name ++ sp ++ tail)) as [m|] eqn:E;
      [exfalso | reflexivity].
    apply first_match_sound in E. destruct E as (t & E & M).
    unfold total_re in M. cbn [seql Lit matches] in M.
    destruct M as (t0 & t1 & -> & [-> _] & w & t2 & -> & Hw & M).
    assert (P : String.prefix "TOTAL" t2 = true).
    { destruct M as (? & ? & -> & -> & ? & ? & -> & -> & ? & ? & -> & ->
                     & ? & ? & -> & -> & ->). reflexivity. }
    destruct w as [|c w].
    + cbn [String.append] in E.
      destruct (prefix_split _ _ P) as [b ->].
      assert (Q : String.prefix "TOTAL" (name ++ sp ++ tail) = true)
        by (rewrite E, append_assoc; apply prefix_append).
      apply (prefix_of_token "TOTAL" name sp tail eq_refl Hsp) in Q.
      congruence.
    + cbn in Hw. apply andb_true_iff in Hw. destruct Hw as [Hc _].
      destruct name as [|d name]; [congruence|].
      cbn in E. injection E as -> _.
      cbn in Hns. apply andb_true_iff in Hns. destruct Hns as [Hd _].
      destruct (space_classes c Hc) as [N _]. congruence.
Qed.

Lemma fmt_token (k : nat) (x : float) :
  is_finite x = true -> token num_dot_minus (fmt (S k) x).
Proof. intro H. exact (fmt_finite k x H). Qed.

Lemma row_line_shape (r : species_row) :
  row_ok r ->
  exists s1 s2 s3 s4 s5,
    token is_space s1 /\ token is_space s2 /\ token is_space s3
    /\ token is_space s4 /\ token is_space s5
    /\ species_row_line r
       = "  " ++ (row_name r ++ s1 ++ fmt3 (row_g r)
                    ++ s2 ++ fmt3 (fmul (row_W r) (lit "100"))
                    ++ s3 ++ fmt3 (row_n r)
                    ++ s4 ++ fmt3 (row_X r)
                    ++ s5 ++ fmt4 (row_a r)).
Proof.
  intros (_ & _ & _ & _ & _ & _ & F1 & F2 & F3 & F4 & F5).
  unfold fits in *.
  exists (spaces (14 - String.length (row_name r))
          ++ spaces (10 - String.length (fmt3 (row_g r)))),
    (spaces (10 - String.length (fmt3 (fmul (row_W r) (lit "100"))))),
    (spaces (8 - String.length (fmt3 (row_n r)))),
    (spaces (8 - String.length (fmt3 (row_X r)))),
    (spaces (12 - String.length (fmt4 (row_a r)))).
  split; [apply pad_token; lia|].
  split; [apply spaces_token; lia|].
  split; [apply spaces_token; lia|].
  split; [apply spaces_token; lia|].
  split; [apply spaces_token; lia|].
  unfold species_row_line, ljust, rjust.
  rewrite !append_assoc. reflexivity.
Qed.

(** The loop over the rows reads a well-formed row line back. *)
Lemma read_phase_rows_row (r : species_row) (ls : list string) :
  row_ok r ->
  read_phase_rows ((species_row_line r ++ nl) :: ls)
  = match read_phase_rows ls with
    | Some (rows, ls') => Some (reread_row r :: rows, ls')
    | None => None
    end.
Proof.
  intro Hr.
  destruct (row_line_shape r Hr)
    as (s1 & s2 & s3 & s4 & s5 & T1 & T2 & T3 & T4 & T5 & E).
  destruct Hr as (Hname & Fg & FW & Fn & FX & Fa & _).
  pose proof (fmt_token 2 _ Fg) as Tg.
  pose proof (fmt_token 2 _ FW) as TW.
  pose proof (fmt_token 2 _ Fn) as Tn.
  pose proof (fmt_token 2 _ FX) as TX.
  pose proof (fmt_token 3 _ Fa) as Ta.
  rewrite <- !fmt3_fmt in *. rewrite <- fmt4_fmt in Ta.
  cbn [read_phase_rows]. cbv zeta. rewrite E, append_assoc.
  assert (Tr : trimmed (row_name r ++ s1 ++ fmt3 (row_g r)
                    ++ s2 ++ fmt3 (fmul (row_W r) (lit "100"))
                    ++ s3 ++ fmt3 (row_n r)
                    ++ s4 ++ fmt3 (row_X r)
                    ++ s5 ++ fmt4 (row_a r))).
  { pose proof (trimmed_join non_space num_dot_minus (row_name r)
                  (s1 ++ fmt3 (row_g r)
                    ++ s2 ++ fmt3 (fmul (row_W r) (lit "100"))
                    ++ s3 ++ fmt3 (row_n r)
                    ++ s4 ++ fmt3 (row_X r) ++ s5)
                  (fmt4 (row_a r)) (proj1 Hname) non_space_not_space Ta
                  (fun c H => proj2 (num_dot_minus_classes c H))) as J.
    rewrite !append_assoc in J. exact J. }
  rewrite (strip_indented "  " _ eq_refl Tr).
  destruct (name_line_not_marker (row_name r) s1
              (fmt3 (row_g r)
                 ++ s2 ++ fmt3 (fmul (row_W r) (lit "100"))
                 ++ s3 ++ fmt3 (row_n r)
                 ++ s4 ++ fmt3 (row_X r)
                 ++ s5 ++ fmt4 (row_a r)) Hname T1) as [M1 M2].
  rewrite M1, M2.
  destruct (row_match (row_name r) s1 (fmt3 (row_g r)) s2
              (fmt3 (fmul (row_W r) (lit "100"))) s3 (fmt3 (row_n r)) s4
              (fmt3 (row_X r)) s5 (fmt4 (row_a r)) (proj1 Hname)
              T1 Tg T2 TW T3 Tn T4 TX T5 Ta) as [pv ->].
  cbn [group caps dict_get Nat.eqb].
  rewrite !py_float_fmt3 by assumption.
  rewrite py_float_fmt4 by assumption.
  cbn [bind].
  destruct (read_phase_rows ls) as [[rows ls']|]; reflexivity.
Qed.

(** The text of any number is without white space. *)
Lemma fmt_no_space (k : nat) (x : float) : token non_space (fmt (S k) x).
Proof.
  destruct x as [s|s| |s m e]; try (split; [discriminate|reflexivity]).
  - destruct s; split; try discriminate; reflexivity.
  - destruct (fmt_finite k (S754_finite s m e) eq_refl) as [Hn Ha].
    split; [exact Hn|].
    apply (all_in_weaken num_dot_minus non_space); [|exact Ha].
    intros c H. unfold non_space.
    rewrite (proj2 (num_dot_minus_classes c H)). reflexivity.
Qed.

Lemma total_tests (tail : string) :
  (String.eqb ("TOTAL" ++ tail) ""
   || startswith ("TOTAL" ++ tail) "PHASE:"
   || startswith ("TOTAL" ++ tail) "PURE SOLIDS:"
   || startswith ("TOTAL" ++ tail) "System Thermodynamics:")%bool = false
  /\ is_some (re_match total_re ("TOTAL" ++ tail)) = true.
Proof.
  split; [reflexivity|].
  assert (H : exists m, re_match total_re ("TOTAL" ++ tail) = Some m).
  { eexists. apply heads_first. unfold total_re. cbn [seql].
    eapply heads_seq; [apply heads_bol|].
    eapply heads_seq;
      [apply (heads_star is_space _ _ "" ("TOTAL" ++ tail) eq_refl eq_refl)|].
    apply (heads_lit "TOTAL" tail). }
  destruct H as [m ->]. reflexivity.
Qed.


(** The loop over the rows passes over the totals row. *)
Lemma read_phase_rows_total (tg tn ta : float) (ls : list string) :
  read_phase_rows ((total_line tg tn ta ++ nl) :: ls) = read_phase_rows ls.
Proof.
  cbn [read_phase_rows]. cbv zeta.
  set (mid := spaces 9 ++ rjust 10 (fmt3 tg)
              ++ rjust 10 (fmt3 (lit "100.00")) ++ rjust 8 (fmt3 tn)
              ++ rjust 8 (fmt3 (lit "1.00"))
              ++ spaces (12 - String.length (fmt4 ta))).
  assert (E : total_line tg tn ta = "  " ++ ("TOTAL" ++ mid ++ fmt4 ta)).
  { unfold total_line, ljust, mid. unfold rjust at 5.
    change (14 - String.length "TOTAL")%nat with 9%nat.
    rewrite !append_assoc. reflexivity. }
  rewrite E, append_assoc.
  assert (Tr : trimmed ("TOTAL" ++ mid ++ fmt4 ta)).
  { apply (trimmed_join non_space non_space);
      [split; [discriminate | reflexivity] | apply non_space_not_space
      | apply (fmt_no_space 3) | apply non_space_not_space]. }
  rewrite (strip_indented "  " _ eq_refl Tr).
  destruct (total_tests (mid ++ fmt4 ta)) as [H1 H2].
  rewrite H1, H2. reflexivity.
Qed.

Lemma read_phase_rows_blank (ls : list string) :
  read_phase_rows (nl :: ls) = Some ([], nl :: ls).
Proof. reflexivity. Qed.

(** The rows of a phase section, read back up to its blank line. *)
Lemma read_phase_rows_section (rows : list species_row) (tg tn ta : float)
    (ls : list string) :
  Forall row_ok rows ->
  read_phase_rows
    (as_read (map species_row_line rows ++ [total_line tg tn ta; ""]) ++ ls)
  = Some (map reread_row rows, nl :: ls).
Proof.
  intro H. unfold as_read. induction H as [|r rows Hr _ IH].
  - cbn [map app]. rewrite read_phase_rows_total. reflexivity.
  - cbn [map app]. rewrite (read_phase_rows_row r _ Hr).
    cbn [map app] in IH. rewrite IH. reflexivity.
Qed.

Lemma solid_line_shape (r : string * float * float) :
  solid_ok r ->
  exists s1 s2,
    token is_space s1 /\ token is_space s2
    /\ solid_row_line r
       = "  " ++ (fst (fst r) ++ s1 ++ fmt3 (solid_g r)
                    ++ s2 ++ fmt4 (snd r)).
Proof.
  destruct r as [[name g] a]. unfold solid_ok, solid_g. cbn [fst snd].
  intros (_ & _ & _ & F1 & F2). unfold fits in *.
  exists (spaces (22 - String.length name)
          ++ spaces (12 - String.length (fmt3 g))),
    (spaces (14 - String.length (fmt4 a))).
  split; [apply pad_token; lia|].
  split; [apply spaces_token; lia|].
  unfold solid_row_line, ljust, rjust.
  rewrite !append_assoc. reflexivity.
Qed.

(** The loop over the pure solids reads a well-formed row line back. *)
Lemma read_solid_rows_row (r : string * float * float) (ls : list string) :
  solid_ok r ->
  read_solid_rows ((solid_row_line r ++ nl) :: ls)
  = match read_solid_rows ls with
    | Some (rows, ls') => Some (reread_solid r :: rows, ls')
    | None => None
    end.
Proof.
  intro Hr.
  destruct (solid_line_shape r Hr) as (s1 & s2 & T1 & T2 & E).
  destruct Hr as (Hname & Fg & Fa & _).
  pose proof (fmt_token 2 _ Fg) as Tg.
  pose proof (fmt_token 3 _ Fa) as Ta.
  rewrite <- fmt3_fmt in Tg. rewrite <- fmt4_fmt in Ta.
  cbn [read_solid_rows]. cbv zeta. rewrite E, append_assoc.
  assert (Tr : trimmed (fst (fst r) ++ s1 ++ fmt3 (solid_g r)
                          ++ s2 ++ fmt4 (snd r))).
  { pose proof (trimmed_join non_space num_dot_minus (fst (fst r))
                  (s1 ++ fmt3 (solid_g r) ++ s2)
                  (fmt4 (snd r)) (proj1 Hname) non_space_not_space Ta
                  (fun c H => proj2 (num_dot_minus_classes c H))) as J.
    rewrite !append_assoc in J. exact J. }
  rewrite (strip_indented "  " _ eq_refl Tr).
  destruct (name_line_not_marker (fst (fst r)) s1
              (fmt3 (solid_g r) ++ s2 ++ fmt4 (snd r)) Hname T1) as [M1 _].
  apply orb_false_iff in M1. destruct M1 as [M1 M4].
  apply orb_false_iff in M1. destruct M1 as [M1 M3].
  apply orb_false_iff in M1. destruct M1 as [M1 M2].
  rewrite M1, M2, M4. cbn [orb].
  destruct (solid_match (fst (fst r)) s1 (fmt3 (solid_g r)) s2
              (fmt4 (snd r)) (proj1 Hname) T1 Tg T2 Ta) as [pv ->].
  cbn [group caps dict_get Nat.eqb].
  rewrite py_float_fmt3 by assumption.
  cbn [bind].
  destruct (read_solid_rows ls) as [[rows ls']|]; reflexivity.
Qed.

Lemma read_solid_rows_section (rows : list (string * float * float))
    (ls : list string) :
  Forall solid_ok rows ->
  read_solid_rows (as_read (map solid_row_line rows ++ [""]) ++ ls)
  = Some (map reread_solid rows, nl :: ls).
Proof.
  intro H. unfold as_read. induction H as [|r rows Hr _ IH].
  - reflexivity.
  - cbn [map app]. rewrite (read_solid_rows_row r _ Hr).
    cbn [map app] in IH. rewrite IH. reflexivity.
Qed.

(** * Further properties of the pipeline *)

(** ** The classifier *)

Lemma contains_iff (x s : string) :
  contains x s = true <-> exists p q, s = p ++ x ++ q.
Proof.
  split.
  - induction s as [|c s IH]; cbn [contains]; intro H.
    + rewrite orb_false_r in H. apply prefix_split in H.
      destruct H as [b ->]. exists "", b. reflexivity.
    + apply orb_true_iff in H. destruct H as [H|H].
      * apply prefix_split in H. destruct H as [b ->].
        exists "", b. reflexivity.
      * destruct (IH H) as (p & q & ->). exists (String c p), q.
        reflexivity.
  - intros (p & q & ->). induction p as [|c p IH].
    + cbn [String.append].
      destruct (x ++ q) eqn:E; cbn [contains]; rewrite <- E;
        rewrite prefix_append; reflexivity.
    + cbn [String.append contains]. rewrite IH. apply orb_true_r.
Qed.

Lemma contains_sub (a b c s : string) :
  contains (a ++ b ++ c) s = true -> contains b s = true.
Proof.
  intro H. apply contains_iff in H. destruct H as (p & q & ->).
  apply contains_iff. exists (p ++ a), (c ++ q).
  rewrite !append_assoc. reflexivity.
Qed.

(** X14. A phase that counts as a liquid, metallic or slag, never counts as a
    precipitate: it is neither a metal-intermetallic phase nor a slag
    solid. *)
Theorem liquid_phase_never_precipitate (name : string) :
  is_metal_liquid_phase name = true \/ is_slag_liquid_phase name = true ->
  is_metal_intermetallic_phase name = false
  /\ is_slag_solid_phase name = false.
Proof.
  intro H.
  assert (L : contains "liq" (lower name) = true).
  { unfold is_metal_liquid_phase, is_slag_liquid_phase in H. cbv zeta in H.
    destruct H as [H|H].
    - apply orb_true_iff in H. destruct H as [H|H].
      + exact (contains_sub "fe-" "liq" "" _ H).
      + exact (contains_sub "" "liq" "uid" _ H).
    - apply andb_true_iff in H. destruct H as [_ H].
      apply orb_true_iff in H. destruct H as [H|H]; [exact H|].
      exact (contains_sub "" "liq" "uid" _ H). }
  unfold is_metal_intermetallic_phase, is_slag_solid_phase. cbv zeta.
  rewrite L. split; reflexivity.
Qed.

Lemma liquid_phase_never_precipitate_witness :
  is_metal_intermetallic_phase "Fe-liq" = false
  /\ is_slag_solid_phase "Fe-liq" = false.
Proof.
  apply (liquid_phase_never_precipitate "Fe-liq"). left. reflexivity.
Defined.

Lemma contains_char_cons (c d : ascii) (s : string) :
  contains (String c "") (String d s)
  = (Ascii.eqb c d || contains (String c "") s)%bool.
Proof.
  cbn [contains String.prefix].
  destruct (ascii_dec c d) as [->|N].
  - rewrite Ascii.eqb_refl. destruct s; reflexivity.
  - destruct (Ascii.eqb_spec c d); [contradiction|]. reflexivity.
Qed.

(** Taking the occurrences of "(s)" out of a text leaves its letters O. *)
Lemma replace_keeps_O (s : string) (skip : nat) :
  (skip = 0 \/ (skip = 1 /\ String.prefix ")" s = true)
   \/ (skip = 2 /\ String.prefix "s)" s = true))%nat ->
  contains "O" s = true ->
  contains "O" (replace_from "(s)" "" skip s) = true.
Proof.
  revert skip. induction s as [|c s IH]; intros skip Hk H.
  - discriminate H.
  - rewrite contains_char_cons in H.
    destruct Hk as [->|[[-> P]|[-> P]]]; cbn [replace_from].
    + destruct (String.prefix "(s)" (String c s)) eqn:E.
      * cbn [String.length Nat.sub String.append].
        cbn [String.prefix] in E.
        destruct (ascii_dec "(" c) as [<-|]; [|discriminate].
        cbn [Ascii.eqb Bool.eqb orb] in H.
        apply IH; [right; right; split; [reflexivity | exact E] | exact H].
      * rewrite contains_char_cons.
        destruct (Ascii.eqb "O" c); [reflexivity|].
        cbn [orb] in *. apply IH; [left; reflexivity | exact H].
    + cbn [String.prefix] in P.
      destruct (ascii_dec ")" c) as [<-|]; [|discriminate].
      cbn [Ascii.eqb Bool.eqb orb] in H.
      apply IH; [left; reflexivity | exact H].
    + cbn [String.prefix] in P.
      destruct (ascii_dec "s" c) as [<-|]; [|discriminate].
      cbn [Ascii.eqb Bool.eqb orb] in H.
      apply IH; [right; left; split; [reflexivity | exact P] | exact H].
Qed.

(** X15. A pure solid is never counted on both sides: one that counts as a
    metal-intermetallic precipitate is no slag solid. *)
Theorem intermetallic_puresolid_not_slag (name : string) :
  is_metal_intermetallic_puresolid name = true ->
  is_slag_puresolid name = false.
Proof.
  unfold is_metal_intermetallic_puresolid, is_slag_puresolid. cbv zeta.
  intro H. apply andb_true_iff in H. destruct H as [_ H].
  apply negb_true_iff in H.
  destruct (contains "O" name) eqn:E; [|reflexivity].
  unfold replace in H.
  rewrite (replace_keeps_O name 0 (or_introl eq_refl) E) in H.
  discriminate H.
Qed.

Lemma intermetallic_puresolid_not_slag_witness :
  is_slag_puresolid "FeSi2(s)" = false.
Proof.
  apply (intermetallic_puresolid_not_slag "FeSi2(s)"). reflexivity.
Defined.

(** ** The best liquid of a run *)

Lemma lex3_le_lt_trans (a b c : Z * Z * Z) :
  lex3 a b <> Gt -> lex3 b c = Lt -> lex3 a c = Lt.
Proof.
  destruct a as [[a1 a2] a3], b as [[b1 b2] b3], c as [[c1 c2] c3].
  unfold lex3.
  destruct (Z.compare_spec a1 b1), (Z.compare_spec b1 c1),
    (Z.compare_spec a1 c1); try lia; try congruence;
  destruct (Z.compare_spec a2 b2), (Z.compare_spec b2 c2),
    (Z.compare_spec a2 c2); try lia; try congruence;
  destruct (Z.compare_spec a3 b3), (Z.compare_spec b3 c3),
    (Z.compare_spec a3 c3); try lia; try congruence.
Qed.

Lemma fleb_fltb_trans (x y z : float) :
  is_nan x = false -> is_nan y = false -> is_nan z = false ->
  fleb x y = true -> fltb y z = true -> fltb x z = true.
Proof.
  intros Hx Hy Hz. rewrite fleb_place, !fltb_place by assumption.
  apply lex3_le_lt_trans.
Qed.

Section MaxBy.
Context {A : Type} (key : A -> float).

Lemma max_by_In (x : A) (l : list A) : In (max_by key x l) (x :: l).
Proof.
  unfold max_by. revert x. induction l as [|y l IH]; intro x; cbn [fold_left].
  - left. reflexivity.
  - destruct (fgtb (key y) (key x)).
    + right. apply IH.
    + destruct (IH x) as [H|H]; [left; exact H | right; right; exact H].
Qed.

Lemma max_by_fold (l pre mid : list A) (b : A) :
  keys_ok key (pre ++ b :: mid ++ l) ->
  Forall (fun y => fltb (key y) (key b) = true) pre ->
  Forall (fun y => fleb (key y) (key b) = true) mid ->
  exists pre' b' post',
    (pre ++ b :: mid ++ l)%list = (pre' ++ b' :: post')%list
    /\ max_by key b l = b'
    /\ Forall (fun y => fltb (key y) (key b') = true) pre'
    /\ Forall (fun y => fleb (key y) (key b') = true) post'.
Proof.
  unfold max_by.
  revert pre mid b. induction l as [|y l IH]; intros pre mid b Hk Hpre Hmid.
  - exists pre, b, mid. rewrite app_nil_r. cbn [fold_left]. auto.
  - cbn [fold_left].
    assert (Kb : is_nan (key b) = false).
    { unfold keys_ok in Hk. rewrite Forall_forall in Hk. apply Hk.
      apply in_or_app. right. left. reflexivity. }
    assert (Ky : is_nan (key y) = false).
    { unfold keys_ok in Hk. rewrite Forall_forall in Hk. apply Hk.
      apply in_or_app. right. right. apply in_or_app. right. left.
      reflexivity. }
    assert (Kin : forall z, In z pre \/ In z mid -> is_nan (key z) = false).
    { unfold keys_ok in Hk. rewrite Forall_forall in Hk. intros z Hz.
      apply Hk. apply in_or_app. destruct Hz as [Hz|Hz]; [left; exact Hz|].
      right. right. apply in_or_app. left. exact Hz. }
    destruct (fgtb (key y) (key b)) eqn:E; unfold fgtb in E.
    + destruct (IH (pre ++ b :: mid)%list [] y) as (pre' & b' & post' & H).
      * cbn [app]. rewrite <- app_assoc. cbn [app]. exact Hk.
      * apply Forall_app. split; [|constructor].
        -- rewrite Forall_forall in *. intros z Hz.
           apply (fleb_fltb_trans (key z) (key b) (key y));
             [apply Kin; left; exact Hz | exact Kb | exact Ky
             | apply fltb_true_fleb, Hpre, Hz | exact E].
        -- exact E.
        -- rewrite Forall_forall in *. intros z Hz.
           apply (fleb_fltb_trans (key z) (key b) (key y));
             [apply Kin; right; exact Hz | exact Kb | exact Ky
             | apply Hmid, Hz | exact E].
      * constructor.
      * exists pre', b', post'. cbn [app] in H. rewrite <- app_assoc in H.
        cbn [app] in H. exact H.
    + destruct (IH pre (mid ++ [y])%list b) as (pre' & b' & post' & H).
      * rewrite <- app_assoc. cbn [app]. exact Hk.
      * exact Hpre.
      * apply Forall_app. split; [exact Hmid|]. constructor; [|constructor].
        apply fltb_false_fleb; assumption.
      * exists pre', b', post'. rewrite <- app_assoc in H. cbn [app] in H.
        exact H.
Qed.

(** [max] returns the first of the elements with the greatest key. *)
Lemma max_by_first (x : A) (l : list A) :
  keys_ok key (x :: l) ->
  exists pre b post,
    x :: l = (pre ++ b :: post)%list
    /\ max_by key x l = b
    /\ Forall (fun y => fltb (key y) (key b) = true) pre
    /\ Forall (fun y => fleb (key y) (key b) = true) post.
Proof.
  intro Hk.
  apply (max_by_fold l [] [] x); [exact Hk | constructor | constructor].
Qed.

End MaxBy.

Lemma scan_collected (g : float) (pages : list page) (st : scan_state) :
  s_stop_T st = None ->
  collected (scan g st pages)
  = (collected st ++ candidates_of (before_stop g pages))%list.
Proof.
  revert st. induction pages as [|pg pages IH]; intros st Hs.
  - cbn. rewrite app_nil_r. reflexivity.
  - cbn [scan before_stop].
    destruct (slag_step_keeps g st pg) as [Hc Ht].
    rewrite Ht, Hs. cbn [is_some negb]. rewrite andb_true_r.
    destruct (non_empty (metal_phases_here g pg)).
    + cbn [collected candidates_of flat_map]. rewrite app_nil_r. exact Hc.
    + destruct (liquid_step_collects (slag_step g st pg) pg) as [Hc1 Ht1].
      destruct (slag_liquid_step_keeps (liquid_step (slag_step g st pg) pg) pg)
        as [Hc2 Ht2].
      rewrite IH by (rewrite Ht2, Ht1, Ht; exact Hs).
      rewrite Hc2, Hc1, Hc. cbn [candidates_of flat_map].
      rewrite app_assoc. reflexivity.
Qed.

Lemma analysis_collected (sim : list page) :
  collected (scan G_MIN init_scan (sorted_desc T_C sim)) = liquids_seen sim.
Proof. apply (scan_collected G_MIN _ init_scan). reflexivity. Qed.

(** X16. The best liquid of a run is the first, from the highest temperature
    down, of the liquids with the greatest silicon value among those seen
    before the scan stops. *)
Theorem best_liquid_is_first_maximum (sim : list page) :
  keys_ok c_Si_w (liquids_seen sim) ->
  liquids_seen sim <> [] ->
  exists pre b post,
    liquids_seen sim = (pre ++ b :: post)%list
    /\ best_T (analyze_simulation sim) = Some (c_T_C b)
    /\ best_Si (analyze_simulation sim) = Some (c_Si_w b)
    /\ best_comp (analyze_simulation sim) = c_comp b
    /\ Forall (fun c => fltb (c_Si_w c) (c_Si_w b) = true) pre
    /\ Forall (fun c => fleb (c_Si_w c) (c_Si_w b) = true) post.
Proof.
  intros Hk Hne.
  unfold analyze_simulation, analyze_simulation_with. cbv zeta.
  rewrite analysis_collected.
  destruct (liquids_seen sim) as [|c cs] eqn:E; [congruence|].
  destruct (max_by_first c_Si_w c cs Hk) as (pre & b & post & H1 & H2 & H3 & H4).
  exists pre, b, post. rewrite H2. cbn [best_T best_Si best_comp].
  repeat split; try assumption; reflexivity.
Qed.

Lemma best_liquid_is_first_maximum_witness :
  exists pre b post,
    liquids_seen tie_pages = (pre ++ b :: post)%list
    /\ best_T (analyze_simulation tie_pages) = Some (c_T_C b)
    /\ best_Si (analyze_simulation tie_pages) = Some (c_Si_w b)
    /\ best_comp (analyze_simulation tie_pages) = c_comp b
    /\ Forall (fun c => fltb (c_Si_w c) (c_Si_w b) = true) pre
    /\ Forall (fun c => fleb (c_Si_w c) (c_Si_w b) = true) post.
Proof.
  apply (best_liquid_is_first_maximum tie_pages).
  - vm_compute. repeat constructor.
  - vm_compute. discriminate.
Defined.

Lemma dict_of_nonempty {K V : Type} (keq : K -> K -> bool)
    (l : list (K * V)) :
  l <> [] -> dict_of keq l <> [].
Proof.
  assert (S : forall k v (d : list (K * V)), dict_set keq k v d <> []).
  { intros k v [|[k' v'] d]; cbn; [discriminate|].
    destruct (keq k k'); discriminate. }
  assert (F : forall (l : list (K * V)) d, d <> [] ->
              fold_left (fun d kv => dict_set keq (fst kv) (snd kv) d) l d
              <> []).
  { clear l. induction l as [|kv l IH]; intros d Hd; cbn; [exact Hd|].
    apply IH, S. }
  destruct l as [|kv l]; [congruence|]. intros _.
  unfold dict_of. cbn [fold_left]. apply F, S.
Qed.

Lemma candidate_comp_nonempty (pg : page) (c : candidate) :
  In c (candidate_of pg) -> c_comp c <> [].
Proof.
  unfold candidate_of.
  destruct (first_phase is_metal_liquid_phase pg) as [liq|] eqn:E;
    [|intros []].
  intros [<-|[]]. cbn [c_comp].
  unfold first_phase in E. apply find_some in E. destruct E as [_ E].
  apply andb_true_iff in E. destruct E as [_ E].
  unfold comp_of_rows. apply dict_of_nonempty.
  unfold has_rows in E. destruct (ph_rows liq); [discriminate|].
  discriminate.
Qed.

(** X17. A run enters the ranking exactly when a metallic liquid with rows was
    seen before its scan stopped: the best composition of such a run is
    never empty, so the second test of the filter never rejects a run. *)
Theorem run_ranked_iff_liquid_seen (sim : list page) :
  valid_run (analyze_simulation sim) = non_empty (liquids_seen sim)
  /\ valid_run (analyze_simulation sim)
     = is_some (best_Si (analyze_simulation sim)).
Proof.
  unfold valid_run, analyze_simulation, analyze_simulation_with. cbv zeta.
  rewrite analysis_collected.
  destruct (liquids_seen sim) as [|c cs] eqn:E; [split; reflexivity|].
  cbn [best_Si best_comp is_some non_empty andb].
  assert (H : c_comp (max_by c_Si_w c cs) <> []).
  { pose proof (max_by_In c_Si_w c cs) as Hin. rewrite <- E in Hin.
    unfold liquids_seen, candidates_of in Hin.
    apply in_flat_map in Hin. destruct Hin as (pg & _ & Hin).
    exact (candidate_comp_nonempty pg _ Hin). }
  destruct (c_comp (max_by c_Si_w c cs)); [congruence|]. split; reflexivity.
Qed.

(** ** The first slag solids of a run *)

Lemma scan_slag_fixed (g : float) (pages : list page) (st : scan_state)
    (t : float) :
  s_slag_first_T st = Some t ->
  s_slag_first_T (scan g st pages) = Some t
  /\ s_slag_first_phases (scan g st pages) = s_slag_first_phases st
  /\ s_slag_comp_before (scan g st pages) = s_slag_comp_before st.
Proof.
  revert st. induction pages as [|pg pages IH]; intros st Hs.
  - cbn. auto.
  - cbn [scan].
    assert (E : slag_step g st pg = st) by (unfold slag_step; rewrite Hs; reflexivity).
    rewrite E.
    destruct (non_empty (metal_phases_here g pg)
              && negb (is_some (s_stop_T st)))%bool.
    + cbn. auto.
    + assert (K : s_slag_first_T (slag_liquid_step (liquid_step st pg) pg)
                  = Some t
                  /\ s_slag_first_phases
                       (slag_liquid_step (liquid_step st pg) pg)
                     = s_slag_first_phases st
                  /\ s_slag_comp_before
                       (slag_liquid_step (liquid_step st pg) pg)
                     = s_slag_comp_before st).
      { unfold slag_liquid_step, liquid_step.
        destruct (first_phase is_slag_liquid_phase pg),
          (first_phase is_metal_liquid_phase pg); cbn; auto. }
      destruct K as (K1 & K2 & K3).
      destruct (IH _ K1) as (A & B & C).
      rewrite A, B, C, K2, K3. auto.
Qed.

Lemma scan_slag_first (g : float) (pre : list page) (pg : page)
    (post : list page) (st : scan_state) :
  s_stop_T st = None -> s_slag_first_T st = None ->
  Forall (fun q => slag_phases_here g q = []
                   /\ metal_phases_here g q = []) pre ->
  slag_phases_here g pg <> [] ->
  let st' := scan g st (pre ++ pg :: post) in
  s_slag_first_T st' = Some (T_C pg)
  /\ s_slag_first_phases st' = sorted_set (slag_phases_here g pg)
  /\ s_slag_comp_before st'
     = match last_slag_liquid pre with
       | Some c => Some c
       | None => prev_slag_comp st
       end.
Proof.
  revert st. induction pre as [|q pre IH]; intros st Hs Hf Hpre Hpg;
    cbv zeta.
  - cbn [app scan last_slag_liquid].
    assert (E : slag_step g st pg
                = mkScan (collected st) (s_stop_T st) (s_stop_phases st)
                    (prev_slag_comp st) (Some (T_C pg))
                    (sorted_set (slag_phases_here g pg))
                    (prev_slag_comp st)).
    { unfold slag_step. rewrite Hf.
      destruct (slag_phases_here g pg); [congruence | reflexivity]. }
    rewrite E. cbn [s_stop_T]. rewrite Hs. cbn [is_some negb].
    rewrite andb_true_r.
    destruct (non_empty (metal_phases_here g pg)).
    + cbn. auto.
    + match goal with
      | |- context [scan g ?s post] =>
          destruct (scan_slag_fixed g post s (T_C pg)) as (A & B & C)
      end.
      { unfold slag_liquid_step, liquid_step.
        destruct (first_phase is_slag_liquid_phase pg),
          (first_phase is_metal_liquid_phase pg); reflexivity. }
      rewrite A, B, C.
      unfold slag_liquid_step, liquid_step.
      destruct (first_phase is_slag_liquid_phase pg),
        (first_phase is_metal_liquid_phase pg); cbn; auto.
  - inversion Hpre as [|? ? [Hq1 Hq2] Hpre']; subst.
    cbn [app scan].
    assert (E : slag_step g st q = st)
      by (unfold slag_step; rewrite Hf, Hq1; reflexivity).
    rewrite E, Hq2. cbn [non_empty andb].
    set (st1 := slag_liquid_step (liquid_step st q) q).
    assert (K : s_stop_T st1 = None /\ s_slag_first_T st1 = None
                /\ prev_slag_comp st1
                   = match first_phase is_slag_liquid_phase q with
                     | Some l => Some (comp_of_rows (ph_rows l))
                     | None => prev_slag_comp st
                     end).
    { unfold st1, slag_liquid_step, liquid_step.
      destruct (first_phase is_slag_liquid_phase q),
        (first_phase is_metal_liquid_phase q); cbn; auto. }
    destruct K as (K1 & K2 & K3).
    destruct (IH st1 K1 K2 Hpre' Hpg) as (A & B & C).
    split; [exact A | split; [exact B|]].
    rewrite C, K3. cbn [last_slag_liquid].
    destruct (last_slag_liquid pre); [reflexivity|].
    destruct (first_phase is_slag_liquid_phase q); reflexivity.
Qed.

(** X18. The first page of the scan with a slag solid, when no precipitate
    stops the scan before it, gives the slag temperature and the sorted,
    duplicate-free names of its slag solids; the slag composition before
    the first solids is that of the slag liquid of the last earlier page
    that has one, and is empty when there is none. *)
Theorem slag_first_appearance (sim pre : list page) (pg : page)
    (post : list page) :
  sorted_desc T_C sim = (pre ++ pg :: post)%list ->
  Forall (fun q => slag_phases_here G_MIN q = []
                   /\ metal_phases_here G_MIN q = []) pre ->
  slag_phases_here G_MIN pg <> [] ->
  let r := analyze_simulation sim in
  slag_first_T r = Some (T_C pg)
  /\ slag_first_phases r = sorted_set (slag_phases_here G_MIN pg)
  /\ slag_comp_before r = or_empty (last_slag_liquid pre).
Proof.
  intros Hsim Hpre Hpg. cbv zeta.
  unfold analyze_simulation, analyze_simulation_with. cbv zeta.
  rewrite Hsim.
  destruct (scan_slag_first G_MIN pre pg post init_scan eq_refl eq_refl
              Hpre Hpg) as (A & B & C).
  cbv zeta in A, B, C.
  assert (C' : or_empty (s_slag_comp_before
                           (scan G_MIN init_scan (pre ++ pg :: post)))
               = or_empty (last_slag_liquid pre)).
  { rewrite C. destruct (last_slag_liquid pre); reflexivity. }
  destruct (collected (scan G_MIN init_scan (pre ++ pg :: post)));
    cbn [slag_first_T slag_first_phases slag_comp_before];
    rewrite A, B, C'; auto.
Qed.

Lemma slag_first_appearance_witness :
  let r := analyze_simulation slag_pages in
  slag_first_T r = Some (T_C (slag_page 3 "1400" "Olivine" "100"))
  /\ slag_first_phases r
     = sorted_set
         (slag_phases_here G_MIN (slag_page 3 "1400" "Olivine" "100"))
  /\ slag_comp_before r
     = or_empty
         (last_slag_liquid
            [slag_page 1 "1600" "Slag-liq" "40";
             slag_page 2 "1500" "Slag-liq" "45"]).
Proof.
  apply (slag_first_appearance slag_pages
           [slag_page 1 "1600" "Slag-liq" "40";
            slag_page 2 "1500" "Slag-liq" "45"]
           (slag_page 3 "1400" "Olivine" "100") []).
  - vm_compute. reflexivity.
  - repeat constructor.
  - vm_compute. discriminate.
Defined.

(** ** What the canonicalizer lists *)

Lemma phase_rows_reach (d : species_def) (results : list (string * attrs))
    (ph_id : string) :
  Forall (fun r => fltb (row_g r) G_MIN = false) (phase_rows d results ph_id).
Proof.
  unfold phase_rows. apply Forall_flat_map. apply Forall_forall.
  intros sid _. destruct (dict_get String.eqb sid (species_in_solutions d));
    [|constructor].
  cbv zeta.
  match goal with
  | |- context [if fltb ?g G_MIN then _ else _] =>
      destruct (fltb g G_MIN) eqn:E
  end; constructor; [exact E | constructor].
Qed.

Lemma solid_rows_reach (solids results : list (string * attrs)) :
  Forall (fun r => fgeb (solid_g r) G_MIN = true) (solid_rows solids results).
Proof.
  unfold solid_rows. apply Forall_flat_map. apply Forall_forall.
  intros [sid sp] _. destruct (dict_get String.eqb sid results);
    [|constructor].
  cbv zeta.
  match goal with
  | |- context [if fgeb ?g G_MIN then _ else _] =>
      destruct (fgeb g G_MIN) eqn:E
  end; constructor; [exact E | constructor].
Qed.

(** X9. The canonicalizer lists no species row whose mass is below [G_MIN]
    and only the pure solids whose mass is at least [G_MIN]. *)
Theorem listed_masses_reach_G_MIN (d : species_def)
    (solids : list (string * attrs))
    (metas : list (string * (string * float))) (page : ET.element)
    (v : page_values) :
  page_values_of d solids metas page = Some v ->
  Forall (fun sec => Forall (fun r => fltb (row_g r) G_MIN = false) (snd sec))
    (v_sections v)
  /\ Forall (fun r => fgeb (solid_g r) G_MIN = true) (v_solids v).
Proof.
  unfold page_values_of. destruct (page_temperature page) as [tC tK].
  destruct (dict_by_id ET.attrib (ET.findall "result" page)) as [results|];
    [|discriminate].
  cbn [bind].
  destruct (dict_by_id (fun s => fnum (ET.get "g" (ET.attrib s)))
              (ET.findall "solution" page)) as [phase_mass|]; [|discriminate].
  cbn [bind]. intro H. injection H as <-. cbn [v_sections v_solids].
  split; [|apply solid_rows_reach].
  apply Forall_map. apply Forall_forall. intros ph_id _. cbn [snd].
  apply phase_rows_reach.
Qed.

Lemma listed_masses_reach_G_MIN_witness :
  Forall (fun sec => Forall (fun r => fltb (row_g r) G_MIN = false) (snd sec))
    (v_sections sample_values)
  /\ Forall (fun r => fgeb (solid_g r) G_MIN = true) (v_solids sample_values).
Proof.
  apply (listed_masses_reach_G_MIN sample_def sample_solids sample_metas
           sample_page sample_values).
  vm_compute. reflexivity.
Defined.

(** ** The reconstructor on other text *)

(** X12. An ASCII text without a page header line gives no page. *)
Theorem no_header_no_pages (lines : list string) :
  Forall plain lines ->
  Forall (fun l => is_header l = false) lines ->
  parse_lines lines = Some [].
Proof.
  intros _ H. unfold parse_lines.
  pose proof (parse_pages_skip lines [] 1 H) as E.
  rewrite app_nil_r, Nat.add_1_r in E. exact E.
Qed.

Lemma no_header_no_pages_witness :
  parse_lines (as_read ["Fe + Si"; "PHASE: Fe-liq"; "  Si  1.000"])
  = Some [].
Proof.
  apply (no_header_no_pages
           (as_read ["Fe + Si"; "PHASE: Fe-liq"; "  Si  1.000"]));
    repeat constructor.
Defined.

Lemma strip_header_line (pid T : string) :
  strip (("Page " ++ pid ++ " - " ++ T ++ " C") ++ nl)
  = "Page " ++ pid ++ " - " ++ T ++ " C".
Proof.
  replace ("Page " ++ pid ++ " - " ++ T ++ " C")
    with (String "P" (("age " ++ pid ++ " - " ++ T ++ " ") ++ String "C" "")).
  - apply strip_line; reflexivity.
  - repeat (cbn [String.append]; rewrite ?append_assoc). reflexivity.
Qed.

(** X13. A page header whose temperature text, made of digits and points, is
    no number makes the reconstructor raise: the pattern accepts it and
    [float] rejects it. *)
Theorem bad_temperature_raises (pid T : string) (rest : list string) :
  pid <> "" -> all_in is_digit pid = true ->
  T <> "" -> all_in num_dot T = true ->
  py_float T = None ->
  parse_lines ((("Page " ++ pid ++ " - " ++ T ++ " C") ++ nl) :: rest) = None.
Proof.
  intros Hp Hd Ht Hn Hf. unfold parse_lines. cbn [List.length parse_pages].
  rewrite strip_header_line, (header_match pid T Hp Hd Ht Hn).
  cbn [group caps dict_get Nat.eqb]. rewrite Hf. reflexivity.
Qed.

Lemma bad_temperature_raises_witness :
  parse_lines ((("Page " ++ "1" ++ " - " ++ "1.2.3" ++ " C") ++ nl) :: [])
  = None.
Proof.
  apply (bad_temperature_raises "1" "1.2.3" []);
    first [discriminate | reflexivity].
Defined.

(** ** The subscripts of a formula *)

Lemma digit_run (s : string) :
  exists t u, s = t ++ u /\ all_in is_digit t = true /\ stops is_digit u.
Proof.
  induction s as [|c s (t & u & E & Ht & Hu)].
  - exists "", "". repeat split.
  - destruct (is_digit c) eqn:D.
    + exists (String c t), u. cbn [String.append all_in]. rewrite E, D, Ht.
      repeat split. exact Hu.
    + exists "", (String c s). repeat split. exact D.
Qed.

Lemma sub_from_skip (r : regex) (f : string -> string) (t s : string)
    (pv : option ascii) :
  sub_from r f (String.length t) pv (t ++ s) = sub_from r f 0 (last_of pv t) s.
Proof.
  revert pv. induction t as [|c t IH]; intro pv.
  - reflexivity.
  - cbn [String.length String.append sub_from last_of]. apply IH.
Qed.

Lemma formula_no_match (pv : option ascii) (s : string) :
  stops is_digit s \/ is_some (option_map formula_char pv) = false
  \/ option_map formula_char pv = Some false ->
  first_match formula_digits_re pv s = None.
Proof.
  unfold first_match, formula_digits_re. cbn [run prev].
  intros [H|[H|H]].
  - destruct pv as [c|]; [|reflexivity].
    destruct (is_alpha c || Ascii.eqb c ")")%bool; [|reflexivity].
    cbn [flat_map run rest].
    destruct s as [|d s]; [reflexivity|]. cbn [stops] in H. rewrite H.
    reflexivity.
  - destruct pv as [c|]; [discriminate H | reflexivity].
  - destruct pv as [c|]; [|discriminate H]. cbn [option_map] in H.
    injection H as H. unfold formula_char in H. rewrite H. reflexivity.
Qed.

Lemma sub_digit_glyph (c : ascii) :
  is_digit c = true -> sub_digit c = subscript_glyph c.
Proof.
  destruct c as [[] [] [] [] [] [] [] []]; intro H;
    first [discriminate H | reflexivity].
Qed.

Lemma subscript_spec_digits (t u : string) :
  all_in is_digit t = true ->
  subscript_spec true (t ++ u) = translate_sub t ++ subscript_spec true u.
Proof.
  induction t as [|c t IH]; intro H.
  - reflexivity.
  - cbn [all_in] in H. apply andb_true_iff in H. destruct H as [D H].
    cbn [String.append subscript_spec translate_sub]. rewrite D, (IH H).
    rewrite <- (sub_digit_glyph c D), append_assoc. reflexivity.
Qed.

Lemma subscript_spec_stops (a b : bool) (u : string) :
  stops is_digit u -> subscript_spec a u = subscript_spec b u.
Proof.
  destruct u as [|c u]; [reflexivity|]. cbn [stops subscript_spec].
  intros ->. reflexivity.
Qed.

Lemma digit_not_formula (c : ascii) :
  is_digit c = true -> formula_char c = false.
Proof.
  destruct c as [[] [] [] [] [] [] [] []]; cbn; congruence.
Qed.

Lemma sub_from_spec (n : nat) (s : string) (pv : option ascii) :
  (String.length s <= n)%nat ->
  sub_from formula_digits_re translate_sub 0 pv s
  = subscript_spec match pv with
                   | Some c => formula_char c
                   | None => false
                   end s.
Proof.
  revert s pv. induction n as [|n IH]; intros s pv Hn.
  - destruct s; [reflexivity | cbn in Hn; lia].
  - destruct s as [|c s]; [reflexivity|].
    cbn [String.length] in Hn. cbn [sub_from subscript_spec].
    destruct (is_digit c) eqn:D.
    + rewrite <- (sub_digit_glyph c D).
      destruct (match pv with Some c0 => formula_char c0 | None => false end)
        eqn:F.
      * destruct pv as [p|]; [|discriminate F].
        destruct (digit_run s) as (t & u & E & Ht & Hu). subst s.
        assert (M : first_match formula_digits_re (Some p)
                      (String c (t ++ u))
                    = Some (mkState [] (last_of (Some p) (String c t)) u)).
        { apply heads_first. unfold formula_digits_re.
          eapply heads_seq.
          - exists []. cbn [run prev]. unfold formula_char in F.
            rewrite F. reflexivity.
          - apply (heads_plus is_digit [] (Some p) (String c t) u);
              [discriminate | cbn [all_in]; rewrite D, Ht; reflexivity
              | exact Hu]. }
        rewrite M. cbv zeta. cbn [rest].
        change (String c (t ++ u)) with (String c t ++ u).
        rewrite taken_append. cbn [String.length Nat.sub].
        rewrite Nat.sub_0_r, sub_from_skip.
        rewrite IH by (rewrite length_append in Hn; lia).
        cbn [translate_sub]. rewrite append_assoc. f_equal.
        rewrite (subscript_spec_digits t u Ht). f_equal.
        apply subscript_spec_stops, Hu.
      * rewrite formula_no_match.
        -- rewrite IH by lia. rewrite (digit_not_formula c D). reflexivity.
        -- destruct pv as [p|]; [right; right | right; left];
             [cbn; rewrite F|]; reflexivity.
    + rewrite formula_no_match by (left; exact D).
      rewrite IH by lia. reflexivity.
Qed.

(** X11. In an ASCII text [subscript_formula_digits] replaces a digit d by
    its subscript, the character U+2080 + d, exactly when the run of digits
    it stands in follows a letter or a closing parenthesis, and leaves
    every other character as it is: "Fe2O3" becomes "Fe₂O₃", the leading 2
    and the 13 of "2 Fe2(SiO3)2 + 13 O2" stay, and the ten digits after a
    letter become the ten subscripts of the table of the source. *)
Theorem subscript_formula_digits_spec :
  (forall text : string,
      plain text -> subscript_formula_digits text = subscript_spec false text)
  /\ subscript_formula_digits "Fe2O3" = "Fe₂O₃"
  /\ subscript_formula_digits "2 Fe2(SiO3)2 + 13 O2" = "2 Fe₂(SiO₃)₂ + 13 O₂"
  /\ subscript_formula_digits "x0123456789" = "x₀₁₂₃₄₅₆₇₈₉"
  /\ subscript_formula_digits "0123456789" = "0123456789"
  /\ map subscript_glyph
       ["0"; "1"; "2"; "3"; "4"; "5"; "6"; "7"; "8"; "9"]%char
     = ["₀"; "₁"; "₂"; "₃"; "₄"; "₅"; "₆"; "₇"; "₈"; "₉"].
Proof.
  split; [|vm_compute; repeat split; reflexivity].
  intros text _. unfold subscript_formula_digits, re_sub.
  apply (sub_from_spec (String.length text) text None). lia.
Qed.

Lemma subscript_formula_digits_spec_witness :
  subscript_formula_digits "Mg3(PO4)2 at 25 C"
  = subscript_spec false "Mg3(PO4)2 at 25 C".
Proof.
  apply (proj1 subscript_formula_digits_spec "Mg3(PO4)2 at 25 C").
  vm_compute. reflexivity.
Defined.

(** ** Compositions *)

Lemma dict_get_set (k k' : string) {V : Type} (v : V)
    (d : list (string * V)) :
  dict_get String.eqb k (dict_set String.eqb k' v d)
  = if String.eqb k k' then Some v else dict_get String.eqb k d.
Proof.
  induction d as [|[k0 v0] d IH]; cbn [dict_set dict_get].
  - reflexivity.
  - destruct (String.eqb_spec k' k0) as [->|N]; cbn [dict_get].
    + destruct (String.eqb k k0); reflexivity.
    + destruct (String.eqb_spec k k0) as [->|N'].
      * destruct (String.eqb_spec k0 k'); [congruence | reflexivity].
      * exact IH.
Qed.

Lemma find_app {A : Type} (f : A -> bool) (a b : list A) :
  find f (a ++ b)
  = match find f a with
    | Some x => Some x
    | None => find f b
    end.
Proof.
  induction a as [|x a IH]; cbn [app find]; [reflexivity|].
  destruct (f x); [reflexivity | exact IH].
Qed.

Lemma dict_get_fold (k : string) {V : Type} (l : list (string * V))
    (d : list (string * V)) :
  dict_get String.eqb k
    (fold_left (fun d kv => dict_set String.eqb (fst kv) (snd kv) d) l d)
  = match find (fun kv => String.eqb k (fst kv)) (rev l) with
    | Some kv => Some (snd kv)
    | None => dict_get String.eqb k d
    end.
Proof.
  revert d. induction l as [|[k' v] l IH]; intro d.
  - reflexivity.
  - cbn [fold_left rev fst snd]. rewrite IH, dict_get_set.
    rewrite find_app.
    destruct (find (fun kv => String.eqb k (fst kv)) (rev l));
      [reflexivity|].
    cbn [find fst snd]. destruct (String.eqb k k'); reflexivity.
Qed.

(** X20. In the composition of a liquid a species name stands for its last
    row: the value looked up under a name is that of the last row of that
    name, and a name without row is not found. *)
Theorem comp_of_rows_last_row (rows : list species_row) (name : string) :
  (Forall (fun q => row_name q <> name) rows ->
   dict_get String.eqb name (comp_of_rows rows) = None)
  /\ (forall pre r post,
         rows = (pre ++ r :: post)%list -> row_name r = name ->
         Forall (fun q => row_name q <> name) post ->
         dict_get String.eqb name (comp_of_rows rows)
         = Some (row_W r, row_a r, row_g r)).
Proof.
  unfold comp_of_rows, dict_of.
  assert (N : forall l : list species_row,
             Forall (fun q => row_name q <> name) l ->
             find (fun kv : string * (float * float * float) =>
                     String.eqb name (fst kv))
               (rev (map (fun r => (row_name r, (row_W r, row_a r, row_g r)))
                       l)) = None).
  { intros l Hl. rewrite <- map_rev.
    assert (Hr : Forall (fun q => row_name q <> name) (rev l)).
    { apply Forall_forall. intros q Hq. rewrite Forall_forall in Hl.
      apply Hl, in_rev, Hq. }
    induction Hr as [|q l' Hq _ IH]; [reflexivity|].
    cbn [map find fst]. destruct (String.eqb_spec name (row_name q));
      [congruence | exact IH]. }
  split.
  - intro H. rewrite dict_get_fold, (N rows H). reflexivity.
  - intros pre r post -> Hr Hpost. rewrite dict_get_fold.
    rewrite map_app, rev_app_distr. cbn [map rev].
    rewrite <- !app_assoc, find_app, (N post Hpost).
    cbn [app find fst snd]. rewrite Hr, String.eqb_refl. reflexivity.
Qed.

(** ** The rows of the report *)

Lemma enumerate_nth {A : Type} (l : list A) (start : N) (i : nat) (x : A) :
  nth_error l i = Some x ->
  nth_error (enumerate start l) i = Some ((start + N.of_nat i)%N, x).
Proof.
  revert start i. induction l as [|y l IH]; intros start [|i] H;
    try discriminate.
  - cbn in H. injection H as ->. cbn. rewrite N.add_0_r. reflexivity.
  - cbn [nth_error enumerate] in *. rewrite (IH _ _ H). f_equal. f_equal.
    lia.
Qed.

(** X21. The report has one row for each hit, in the order of the ranking, and
    the row of the hit at position [i], counted from 0, carries the rank
    [i + 1]. *)
Theorem report_rows_ranks (hits : list analysis) :
  List.length (report_rows hits) = List.length hits
  /\ forall (i : nat) (r : analysis),
       nth_error hits i = Some r ->
       nth_error (report_rows hits) i
       = Some (report_row (N.of_nat (S i)) r)
       /\ hd_error (report_row (N.of_nat (S i)) r)
          = Some (str_of_N (N.of_nat (S i))).
Proof.
  unfold report_rows. split.
  - rewrite length_map. generalize 1%N.
    induction hits as [|h hits IH]; intro n; [reflexivity|].
    cbn [enumerate List.length]. rewrite IH. reflexivity.
  - intros i r H. split; [|reflexivity].
    rewrite nth_error_map, (enumerate_nth hits 1 i r H). cbn [option_map].
    f_equal. f_equal. lia.
Qed.

(** ** Writing and reading the lines *)

Lemma readlines_line (l : string) (text : string) :
  all_in no_newline l = true ->
  readlines (l ++ nl ++ text) = (l ++ nl) :: readlines text.
Proof.
  induction l as [|c l IH]; intro H.
  - reflexivity.
  - cbn [all_in] in H. apply andb_true_iff in H. destruct H as [Hc Hl].
    cbn [String.append readlines]. cbv zeta. rewrite (IH Hl).
    unfold no_newline in Hc. apply negb_true_iff, orb_false_iff in Hc.
    destruct Hc as [-> ->]. reflexivity.
Qed.

Lemma write_lines_cons (l : string) (lines : list string) :
  write_lines (l :: lines) = l ++ nl ++ write_lines lines.
Proof.
  unfold write_lines. cbn [map String.concat].
  destruct (map (fun l0 => l0 ++ String "010" "") lines) eqn:E.
  - cbn [String.concat]. rewrite append_nil_r. reflexivity.
  - cbn [String.append]. rewrite append_assoc. reflexivity.
Qed.

Lemma readlines_lines (lines : list string) :
  Forall (fun l => all_in no_newline l = true) lines ->
  readlines (write_lines lines) = as_read lines.
Proof.
  intro H. induction H as [|l lines Hl _ IH].
  - reflexivity.
  - rewrite write_lines_cons, (readlines_line l _ Hl), IH. reflexivity.
Qed.

(** X7. Lines without a newline or carriage return, written to the file and
    read again, come back one by one, each with its newline. *)
Theorem readlines_write_lines (lines : list string) :
  Forall (fun l => all_in no_newline l = true) lines ->
  readlines (write_lines lines) = as_read lines.
Proof. exact (readlines_lines lines). Qed.

Lemma readlines_write_lines_witness :
  readlines (write_lines ["Page 1 - 1600.000 C"; ""; "PHASE: Fe-liq"])
  = as_read ["Page 1 - 1600.000 C"; ""; "PHASE: Fe-liq"].
Proof.
  apply (readlines_write_lines ["Page 1 - 1600.000 C"; ""; "PHASE: Fe-liq"]).
  repeat constructor.
Defined.

(** * The canonical text read back *)

(** ** The reactant lines *)

Lemma search_from_anchored (r : regex) (c : ascii) (s : string) :
  search_from (Seq Bol r) (Some c) s = None.
Proof.
  revert c. induction s as [|d s IH]; intro c; cbn [search_from].
  - reflexivity.
  - unfold first_match. cbn [run prev flat_map hd_error]. apply IH.
Qed.

Lemma re_search_anchored (r : regex) (s : string) :
  re_search (Seq Bol r) s = first_match (Seq Bol r) None s.
Proof.
  unfold re_search. destruct s as [|c s]; cbn [search_from].
  - destruct (first_match (Seq Bol r) None ""); reflexivity.
  - rewrite search_from_anchored.
    destruct (first_match (Seq Bol r) None (String c s)); reflexivity.
Qed.

(** A lazy repetition passes over the text after which the rest of the
    pattern finds nothing. *)
Lemma heads_lazy_seq (p : ascii -> bool) (r2 : regex)
    (cs : list (nat * string)) (t s : string) (pv : option ascii)
    (st' : state) :
  all_in p t = true ->
  (forall a c b pv', t = a ++ String c b ->
                     run r2 (mkState cs pv' (String c b ++ s)) = []) ->
  heads r2 (mkState cs (last_of pv t) s) st' ->
  heads (Seq (LazyStar p) r2) (mkState cs pv (t ++ s)) st'.
Proof.
  revert pv. induction t as [|c t IH]; intros pv Ht Hskip [l Hl].
  - unfold heads. cbn [run prev rest caps String.append last_of] in *.
    destruct s as [|d s]; cbn [lazy_ends].
    + cbn [map flat_map]. unfold move. cbn [fst snd caps]. rewrite Hl.
      cbn [app]. eexists. reflexivity.
    + destruct (p d); cbn [map flat_map]; unfold move; cbn [fst snd caps];
        rewrite Hl; cbn [app]; eexists; reflexivity.
  - cbn [all_in] in Ht. apply andb_true_iff in Ht. destruct Ht as [Hc Ht].
    destruct (IH (Some c) Ht) as [l' Hl'].
    + intros a c0 b pv' E. apply (Hskip (String c a) c0 b pv').
      cbn [String.append]. rewrite E. reflexivity.
    + exists l. exact Hl.
    + unfold heads in *.
      cbn [run prev rest caps String.append lazy_ends] in *.
      rewrite Hc. cbn [map flat_map]. unfold move at 1. cbn [fst snd caps].
      rewrite (Hskip "" c t pv eq_refl). cbn [app].
      exists l'. unfold move in *. cbn [caps] in *. exact Hl'.
Qed.

Lemma fe_tail_not_m (cs : list (nat * string)) (pv : option ascii)
    (c : ascii) (b : string) :
  Ascii.eqb c "m" = false -> run fe_tail (mkState cs pv (String c b)) = [].
Proof.
  intro H. unfold fe_tail. cbn [seql].
  match goal with
  | |- run (Seq _ ?r) _ = _ => generalize r; intro R
  end.
  cbn [run rest]. rewrite Ascii.eqb_sym, H. reflexivity.
Qed.

Lemma fe_tail_m_other (cs : list (nat * string)) (pv : option ascii)
    (d : ascii) (b : string) :
  is_space d = false -> Ascii.eqb d "=" = false ->
  run fe_tail (mkState cs pv (String "m" (String d b))) = [].
Proof.
  intros Hs He. unfold fe_tail. cbn [seql].
  match goal with
  | |- run (Seq _ (Seq _ (Seq _ ?r))) _ = _ => generalize r; intro R
  end.
  cbn [run rest prev caps]. rewrite Ascii.eqb_refl.
  cbn [flat_map star_ends rest prev]. rewrite Hs.
  cbn [map flat_map app]. unfold move. cbn [fst snd caps rest].
  rewrite Ascii.eqb_sym, He. reflexivity.
Qed.

(** The texts that the lazy repetition of the Fe pattern passes over. *)
Lemma passes_not_m (t s : string) (cs : list (nat * string)) :
  all_in not_m t = true ->
  forall a c b pv', t = a ++ String c b ->
                    run fe_tail (mkState cs pv' (String c b ++ s)) = [].
Proof.
  intros Ht a c b pv' E. subst t. rewrite all_in_append in Ht.
  apply andb_true_iff in Ht. destruct Ht as [_ Ht]. cbn [all_in] in Ht.
  apply andb_true_iff in Ht. destruct Ht as [Hc _].
  unfold not_m in Hc. apply andb_true_iff in Hc. destruct Hc as [_ Hc].
  apply negb_true_iff in Hc.
  cbn [String.append]. apply fe_tail_not_m, Hc.
Qed.

Lemma split_append (t1 t2 a : string) (c : ascii) (b : string) :
  t1 ++ t2 = a ++ String c b ->
  (exists b1, t1 = a ++ String c b1 /\ b = b1 ++ t2)
  \/ (exists a2, a = t1 ++ a2 /\ t2 = a2 ++ String c b).
Proof.
  revert a. induction t1 as [|x t1 IH]; intros a E.
  - right. exists a. auto.
  - destruct a as [|y a].
    + cbn in E. injection E as -> <-. left. exists t1. auto.
    + cbn in E. injection E as -> E. destruct (IH a E) as [[b1 [-> ->]]|[a2 [-> ->]]].
      * left. exists b1. auto.
      * right. exists a2. auto.
Qed.

Lemma passes_app (t1 t2 s : string) (cs : list (nat * string)) :
  (forall a c b pv', t1 = a ++ String c b ->
                     run fe_tail (mkState cs pv' (String c b ++ t2 ++ s)) = []) ->
  (forall a c b pv', t2 = a ++ String c b ->
                     run fe_tail (mkState cs pv' (String c b ++ s)) = []) ->
  forall a c b pv', t1 ++ t2 = a ++ String c b ->
                    run fe_tail (mkState cs pv' (String c b ++ s)) = [].
Proof.
  intros H1 H2 a c b pv' E.
  destruct (split_append t1 t2 a c b E) as [[b1 [E1 ->]]|[a2 [_ E2]]].
  - change (String c (b1 ++ t2) ++ s) with (String c ((b1 ++ t2) ++ s)).
    rewrite append_assoc. apply (H1 a c b1 pv' E1).
  - apply (H2 a2 c b pv' E2).
Qed.

Lemma passes_mol (s : string) (cs : list (nat * string)) :
  forall a c b pv', "mol | " = a ++ String c b ->
                    run fe_tail (mkState cs pv' (String c b ++ s)) = [].
Proof.
  apply (passes_app "m" "ol | " s cs).
  - intros a c b pv' E. destruct a as [|x a].
    + cbn in E. injection E as <- <-. apply fe_tail_m_other; reflexivity.
    + cbn in E. injection E as _ E. destruct a; discriminate E.
  - apply passes_not_m. reflexivity.
Qed.

Lemma fe_tail_match (G : string) (cs : list (nat * string))
    (pv : option ascii) (s : string) :
  G <> "" -> all_in num_dot G = true ->
  heads fe_tail (mkState cs pv ("m = " ++ G ++ " g" ++ s))
    (mkState ((1%nat, G) :: cs) (Some "g"%char) s).
Proof.
  intros Hn HG. unfold fe_tail. cbn [seql].
  eapply heads_seq; [apply heads_chr|].
  eapply heads_seq;
    [apply (heads_star is_space _ _ " " ("= " ++ G ++ " g" ++ s));
     reflexivity|].
  eapply heads_seq; [apply heads_chr|].
  eapply heads_seq;
    [apply (heads_star is_space _ _ " " (G ++ " g" ++ s));
     [reflexivity
     | apply (stops_class is_space num_dot); auto;
       intros c Hc; apply (proj2 (proj2 (num_dot_classes c Hc)))]|].
  eapply heads_seq;
    [apply heads_group;
     apply (heads_plus num_dot _ _ G (" g" ++ s));
     [assumption | assumption | reflexivity]|].
  eapply heads_seq;
    [apply (heads_star is_space _ _ " " ("g" ++ s)); reflexivity|].
  apply heads_chr.
Qed.

(** The line of the reactant "Fe" gives its mass. *)
Lemma fe_line_match (n g : float) :
  is_finite g = true -> fltb g fzero = false ->
  exists m, re_search fe_re (reactant_line ("Fe", n, g) ++ nl) = Some m
            /\ group 1 m = fmt3 g.
Proof.
  intros Fg Ng.
  destruct (fmt_nonneg 2 g Fg Ng) as [Gn Gd]. rewrite <- fmt3_fmt in Gn, Gd.
  exists (mkState [(1%nat, fmt3 g)] (Some "g"%char) nl).
  split; [|reflexivity].
  change fe_re
    with (Seq Bol (Seq (Star is_space) (Seq (Lit "Fe") (Seq WordB
            (Seq (LazyStar any_but_newline) fe_tail))))).
  rewrite re_search_anchored. apply heads_first.
  assert (E : reactant_line ("Fe", n, g) ++ nl
              = "  " ++ "Fe"
                  ++ (("   n = " ++ fmt3 n ++ " ") ++ "mol | ")
                  ++ "m = " ++ fmt3 g ++ " g" ++ nl).
  { unfold reactant_line, ljust.
    repeat (cbn [String.append String.length Nat.sub spaces];
            rewrite ?append_assoc).
    reflexivity. }
  rewrite E.
  eapply heads_seq; [apply heads_bol|].
  eapply heads_seq;
    [apply (heads_star is_space _ _ "  "); reflexivity|].
  eapply heads_seq; [apply (heads_lit "Fe")|].
  eapply heads_seq; [apply heads_wordb; reflexivity|].
  apply heads_lazy_seq.
  - rewrite !all_in_append.
    assert (A : all_in any_but_newline (fmt3 n) = true).
    { rewrite fmt3_fmt.
      apply (all_in_weaken not_m any_but_newline); [|apply fmt_not_m].
      intros c Hc. unfold not_m in Hc. apply andb_true_iff in Hc. tauto. }
    rewrite A. reflexivity.
  - apply passes_app; [|apply passes_mol].
    apply passes_not_m. rewrite !all_in_append.
    rewrite fmt3_fmt, fmt_not_m. reflexivity.
  - apply fe_tail_match; assumption.
Qed.

Lemma reactant_line_shape (name : string) (n g : float) :
  exists sp,
    token is_space sp
    /\ reactant_line (name, n, g) ++ nl
       = "  " ++ name ++ sp
           ++ ("n = " ++ fmt3 n ++ " mol | m = " ++ fmt3 g ++ " g" ++ nl).
Proof.
  exists (spaces (4 - String.length name) ++ spaces 1).
  split; [apply pad_token; lia|].
  unfold reactant_line, ljust.
  repeat (cbn [String.append spaces]; rewrite ?append_assoc).
  reflexivity.
Qed.

(** The Fe pattern passes by the line of another reactant. *)
Lemma other_line_no_match (name : string) (n g : float) :
  other_reactant name ->
  re_search fe_re (reactant_line (name, n, g) ++ nl) = None.
Proof.
  intros [Hname Hword].
  destruct (reactant_line_shape name n g) as (sp & Hsp & E). rewrite E.
  set (tail := "n = " ++ fmt3 n ++ " mol | m = " ++ fmt3 g ++ " g" ++ nl).
  change fe_re
    with (Seq Bol (Seq (Star is_space) (Seq (Lit "Fe") (Seq WordB
            (Seq (LazyStar any_but_newline) fe_tail))))).
  rewrite re_search_anchored.
  match goal with
  | |- ?x = None => destruct x as [m|] eqn:M; [exfalso | reflexivity]
  end.
  apply first_match_sound in M. destruct M as (t & Et & M).
  cbn [matches Lit] in M.
  destruct M as (t0 & t1 & -> & [-> _] & M).
  destruct M as (w & t2 & -> & Hw & M).
  destruct M as (tF & t3 & -> & MF & M).
  destruct MF as (? & ? & -> & -> & ->).
  destruct M as (t4 & t5 & -> & [-> Hx] & _).
  cbn [String.append] in Et, Hx. rewrite !append_assoc in Et.
  cbn [String.append] in Et.
  cbn [last_of is_word_opt] in Hx.
  change (is_word "e") with true in Hx.
  assert (S1 : stops is_space (name ++ sp ++ tail))
    by (apply (token_stops_space non_space); [exact Hname
                                              | apply non_space_not_space]).
  destruct (run_split is_space "  " (name ++ sp ++ tail) w
              (String "F" (String "e" (t5 ++ rest m)))
              eq_refl S1 Hw Et) as (c & Ec & E2).
  assert (Hc : c = "").
  { destruct c as [|x c]; [reflexivity|]. exfalso.
    assert (Sx : is_space x = true).
    { assert (A : all_in is_space (w ++ String x c) = true)
        by (rewrite <- Ec; reflexivity).
      rewrite all_in_append in A. apply andb_true_iff in A.
      destruct A as [_ A]. cbn in A. apply andb_true_iff in A. tauto. }
    cbn in E2. injection E2 as <- _. discriminate Sx. }
  subst c. cbn [String.append] in E2.
  assert (P : String.prefix "Fe" (name ++ sp ++ tail) = true).
  { rewrite <- E2. exact (prefix_append "Fe" (t5 ++ rest m)). }
  apply (prefix_of_token "Fe" name sp tail eq_refl Hsp) in P.
  pose proof (Hword P) as W.
  apply prefix_split in P. destruct P as [nm ->].
  cbn [drop String.append] in W.
  cbn [String.append] in E2. injection E2 as E2.
  destruct nm as [|y nm]; [discriminate W|].
  cbn [String.append] in E2. rewrite E2 in Hx.
  cbn [head_char is_word_opt] in Hx, W. rewrite W in Hx. discriminate Hx.
Qed.

Lemma reactant_line_tests (name : string) (n g : float) :
  token non_space name ->
  (negb (String.eqb (strip (reactant_line (name, n, g) ++ nl)) "")
   && negb (startswith (reactant_line (name, n, g) ++ nl) "PHASE:"))%bool
  = true.
Proof.
  intro Hname.
  assert (E : reactant_line (name, n, g)
              = "  " ++ (name ++ (spaces (4 - String.length name)
                                    ++ " n = " ++ fmt3 n ++ " mol | m = "
                                    ++ fmt3 g ++ " ")
                           ++ "g")).
  { unfold reactant_line, ljust.
    repeat (cbn [String.append spaces]; rewrite ?append_assoc).
    reflexivity. }
  rewrite E.
  assert (Tr : trimmed (name ++ (spaces (4 - String.length name)
                                   ++ " n = " ++ fmt3 n ++ " mol | m = "
                                   ++ fmt3 g ++ " ") ++ "g")).
  { apply (trimmed_join non_space non_space);
      [exact Hname | apply non_space_not_space
      | split; [discriminate | reflexivity] | apply non_space_not_space]. }
  rewrite append_assoc, (strip_indented "  " _ eq_refl Tr).
  destruct name as [|c name]; [destruct Hname; congruence|].
  reflexivity.
Qed.

Lemma fe_is_token : token non_space "Fe".
Proof. split; [discriminate | reflexivity]. Qed.

(** The loop over the reactant lines, up to the blank line after them. *)
Lemma scan_reactants_lines (rs : list (string * float * float))
    (fe : option float) (rest : list string) :
  Forall reactant_ok rs ->
  scan_reactants fe (as_read (map reactant_line rs) ++ nl :: rest)
  = (fe_mass_from fe rs, nl :: rest).
Proof.
  intro H. revert fe. unfold as_read.
  induction H as [|[[name n] g] rs Hr _ IH]; intro fe.
  - reflexivity.
  - cbn [map app scan_reactants fe_mass_from fold_left fst snd].
    unfold reactant_ok in Hr. cbn [fst snd] in Hr.
    destruct Hr as [(-> & Fg & Ng)|Ho].
    + rewrite (reactant_line_tests "Fe" n g fe_is_token).
      destruct (fe_line_match n g Fg Ng) as (m & -> & ->).
      rewrite (py_float_fmt3 g Fg). cbn [String.eqb Ascii.eqb Bool.eqb].
      apply IH.
    + rewrite (reactant_line_tests name n g (proj1 Ho)).
      rewrite (other_line_no_match name n g Ho).
      assert (N : String.eqb name "Fe" = false).
      { destruct (String.eqb_spec name "Fe") as [->|]; [|reflexivity].
        destruct Ho as [_ Ho]. specialize (Ho eq_refl). discriminate Ho. }
      rewrite N. apply IH.
Qed.

(** ** The lines before the reactants *)

Lemma strip_nl (s : string) : strip (s ++ nl) = strip s.
Proof.
  unfold strip. induction s as [|c s IH].
  - reflexivity.
  - cbn [String.append lstrip]. destruct (is_space c); [exact IH|].
    change (String c (s ++ nl)) with (String c s ++ nl).
    apply rstrip_append_spaces. reflexivity.
Qed.

Lemma prefix_nl (q s : string) :
  all_in non_space q = true -> q <> "" ->
  String.prefix q (s ++ nl) = String.prefix q s.
Proof.
  revert s. induction q as [|c q IH]; intros s Hq Hn; [congruence|].
  cbn [all_in] in Hq. apply andb_true_iff in Hq. destruct Hq as [Hc Hq].
  destruct s as [|d s].
  - cbn [String.append nl String.prefix].
    destruct (ascii_dec c "010") as [->|]; [discriminate Hc | reflexivity].
  - cbn [String.append String.prefix]. destruct (ascii_dec c d); [|reflexivity].
    destruct q as [|c' q]; [destruct s; reflexivity|].
    apply IH; [exact Hq | discriminate].
Qed.

Lemma strip_keeps_head (c : ascii) (s : string) :
  is_space c = false -> exists r, strip (String c s) = String c r.
Proof.
  intro H. unfold strip. rewrite (lstrip_nonspace c s H).
  cbn [rstrip]. rewrite H.
  destruct (rstrip s); eexists; reflexivity.
Qed.

Lemma find_reactants_head (formula : string) (tC tK patm : float)
    (ls : list string) :
  formula_ok formula ->
  find_reactants
    (as_read [formula; summary_line tC tK patm; "";
              "Reactants (page scope):"] ++ ls)
  = scan_reactants None ls.
Proof.
  intros [F1 F2]. unfold as_read. cbn [map app find_reactants].
  unfold startswith in *.
  rewrite (prefix_nl "PHASE:" formula eq_refl) by discriminate.
  rewrite F1, strip_nl, F2.
  assert (S1 : String.prefix "PHASE:" (summary_line tC tK patm ++ nl) = false)
    by reflexivity.
  rewrite S1.
  destruct (strip_keeps_head "T"
              (" = " ++ fmt3 tC ++ " C | T(K) = " ++ fmt3 tK ++ " | P = "
                     ++ fmt3 patm ++ " atm" ++ nl) eq_refl) as [r Hr].
  assert (S2 : strip (summary_line tC tK patm ++ nl) = String "T" r).
  { rewrite <- Hr. f_equal. unfold summary_line.
    repeat (cbn [String.append]; rewrite ?append_assoc). reflexivity. }
  rewrite S2.
  reflexivity.
Qed.

(** ** The sections of a page *)

Lemma partition_none (sep s : string) :
  contains sep s = false -> partition sep s = None.
Proof.
  induction s as [|c s IH]; cbn [contains partition]; intro H;
    apply orb_false_iff in H; destruct H as [-> H]; [reflexivity|].
  rewrite (IH H). reflexivity.
Qed.

Lemma partition_prefix (sep s : string) :
  String.prefix sep s = true ->
  partition sep s = Some ("", drop (String.length sep) s).
Proof. destruct s; cbn [partition]; intros ->; reflexivity. Qed.

Lemma contains_cons (sub : string) (c : ascii) (s : string) :
  contains sub (String c s)
  = (String.prefix sub (String c s) || contains sub s)%bool.
Proof. reflexivity. Qed.

Lemma title_tests (pname : string) :
  trimmed pname -> contains "PHASE:" pname = false ->
  let st := strip (("PHASE: " ++ pname) ++ nl) in
  startswith st "PHASE:" = true
  /\ (let* item := split_item1 "PHASE:" st in Some (strip item)) = Some pname.
Proof.
  intros Ht Hc. cbv zeta.
  destruct pname as [|c pname]; [split; reflexivity|].
  assert (Tr : trimmed ("PHASE: " ++ String c pname)).
  { destruct Ht as [H1 H2]. split; [reflexivity|].
    rewrite last_of_tail by discriminate. exact H2. }
  rewrite (strip_trimmed_line _ Tr).
  split; [exact (prefix_append "PHASE:" (" " ++ String c pname))|].
  unfold split_item1.
  assert (P1 : partition "PHASE:" ("PHASE: " ++ String c pname)
               = Some ("", " " ++ String c pname)).
  { rewrite (partition_prefix "PHASE:" ("PHASE: " ++ String c pname)
               (prefix_append "PHASE:" (" " ++ String c pname))).
    reflexivity. }
  rewrite P1.
  assert (C2 : contains "PHASE:" (" " ++ String c pname) = false).
  { change (" " ++ String c pname) with (String " " (String c pname)).
    rewrite contains_cons, Hc. reflexivity. }
  rewrite (partition_none _ _ C2). cbn [bind]. f_equal.
  unfold strip. rewrite (lstrip_spaces " " (String c pname) eq_refl).
  apply (strip_trimmed _ Ht).
Qed.

Lemma next_sep_false (l0 : string) (ls : list string) :
  startswith l0 (repeat_char "=" 10) = false ->
  next_is_page_sep (l0 :: ls) = false.
Proof. intro H. destruct ls; cbn [next_is_page_sep]; rewrite ?H; reflexivity. Qed.

Lemma read_sections_blank (fuel : nat) (ls : list string) :
  read_sections (S fuel) (nl :: ls) = read_sections fuel ls.
Proof.
  cbn [read_sections].
  assert (E : next_is_page_sep (nl :: ls) = false)
    by (destruct ls; reflexivity).
  rewrite E. reflexivity.
Qed.

Lemma read_sections_end (fuel : nat) (rest : list string) :
  rest_ok rest -> read_sections fuel rest = Some ([], [], rest).
Proof.
  intros [->|H]; destruct fuel; try reflexivity.
  cbn [read_sections]. rewrite H. destruct rest; reflexivity.
Qed.

Lemma sorted_desc_Forall {A : Type} (key : A -> float) (P : A -> Prop)
    (l : list A) :
  Forall P l -> Forall P (sorted_desc key l).
Proof.
  apply Permutation_Forall, Permutation_sym, sorted_desc_perm.
Qed.

(** One phase section. *)
Lemma read_sections_section (fuel : nat) (sec : string * list species_row)
    (next : list string) :
  section_ok sec ->
  read_sections (S fuel) (as_read (section_lines sec) ++ next)
  = let* (phs, sols, r) := read_sections fuel (nl :: next) in
    Some (section_phase sec :: phs, sols, r).
Proof.
  destruct sec as [pname rows]. intros (Ht & Hc & Hrows).
  cbn [fst snd] in *.
  unfold section_lines, as_read. rewrite !map_app. cbn [map app].
  rewrite <- !app_assoc. cbn [read_sections].
  rewrite next_sep_false by reflexivity.
  destruct (title_tests pname Ht Hc) as [T1 T2]. cbv zeta in T1, T2.
  rewrite T1.
  destruct (split_item1 "PHASE:" (strip (("PHASE: " ++ pname) ++ nl)))
    as [item|]; [|discriminate T2].
  cbn [bind] in T2. injection T2 as T2. cbn [bind tl]. rewrite T2.
  pose proof (read_phase_rows_section (sorted_desc row_g rows)
                (total_of row_g rows) (total_of row_n rows)
                (total_of row_a rows) next
                (sorted_desc_Forall row_g row_ok rows Hrows)) as R.
  unfold as_read in R. rewrite map_app, <- app_assoc in R.
  cbn [map] in R. rewrite R.
  cbn [bind]. unfold section_phase. cbn [fst snd].
  destruct (read_sections fuel (nl :: next)) as [[[phs sols] r]|];
    reflexivity.
Qed.

(** The phase sections of a page, after the blank line before them. *)
Lemma read_sections_sections (secs : list (string * list species_row))
    (fuel : nat) (next : list string) :
  Forall section_ok secs ->
  read_sections (2 * List.length secs + fuel)
    (nl :: as_read (flat_map section_lines secs) ++ next)
  = let* (phs, sols, r) := read_sections fuel (nl :: next) in
    Some ((map section_phase secs ++ phs)%list, sols, r).
Proof.
  intro H. revert fuel. induction H as [|sec secs Hsec _ IH]; intro fuel.
  - cbn [List.length Nat.mul Nat.add flat_map as_read map app].
    destruct (read_sections fuel (nl :: next)) as [[[phs sols] r]|];
      reflexivity.
  - replace (2 * List.length (sec :: secs) + fuel)%nat
      with (S (S (2 * List.length secs + fuel))) by (cbn [List.length]; lia).
    rewrite read_sections_blank. cbn [flat_map].
    unfold as_read. rewrite map_app, <- app_assoc.
    fold (as_read (section_lines sec)).
    fold (as_read (flat_map section_lines secs)).
    rewrite (read_sections_section _ sec _ Hsec), IH.
    destruct (read_sections fuel (nl :: next)) as [[[phs sols] r]|];
      reflexivity.
Qed.

(** The section of the pure solids and the end of the block. *)
Lemma read_sections_solids (rows : list (string * float * float))
    (fuel : nat) (rest : list string) :
  Forall solid_ok rows -> rest_ok rest ->
  (List.length (solids_lines rows) < fuel)%nat ->
  read_sections fuel (nl :: as_read (solids_lines rows) ++ rest)
  = Some ([], map reread_solid (sorted_desc solid_g rows), rest).
Proof.
  intros Hrows Hrest Hfuel.
  destruct rows as [|r0 rows].
  - destruct fuel as [|fuel]; [cbn in Hfuel; lia|].
    rewrite read_sections_blank.
    cbn [solids_lines as_read map app]. apply read_sections_end, Hrest.
  - set (rs := r0 :: rows) in *.
    assert (E : solids_lines rs
                = (["PURE SOLIDS:"; solids_header_line]
                     ++ map solid_row_line (sorted_desc solid_g rs)
                     ++ [""])%list) by reflexivity.
    rewrite E in *. cbn [app List.length] in Hfuel.
    destruct fuel as [|fuel]; [lia|]. rewrite read_sections_blank.
    destruct fuel as [|fuel]; [lia|].
    unfold as_read. rewrite !map_app. cbn [map app].
    rewrite <- !app_assoc. cbn [read_sections].
    rewrite next_sep_false by reflexivity.
    assert (S1 : startswith (strip ("PURE SOLIDS:" ++ nl)) "PHASE:" = false)
      by reflexivity.
    assert (S2 : startswith (strip ("PURE SOLIDS:" ++ nl)) "PURE SOLIDS:"
                 = true) by reflexivity.
    rewrite S1, S2. cbn [tl].
    pose proof (read_solid_rows_section (sorted_desc solid_g rs) rest
                  (sorted_desc_Forall solid_g solid_ok rs Hrows)) as R.
    unfold as_read in R. rewrite map_app, <- app_assoc in R. cbn [map] in R.
    rewrite R. cbn [bind].
    destruct fuel as [|fuel]; [lia|].
    rewrite read_sections_blank, (read_sections_end _ rest Hrest).
    cbn [bind]. rewrite app_nil_r. reflexivity.
Qed.

Lemma sections_fuel (secs : list (string * list species_row)) :
  (2 * List.length secs <= List.length (flat_map section_lines secs))%nat.
Proof.
  induction secs as [|[pname rows] secs IH]; cbn [flat_map List.length];
    [lia|].
  rewrite length_app. unfold section_lines at 1.
  cbn [app List.length]. lia.
Qed.

(** The sections of a page, read with the fuel that [parse_pages] gives. *)
Lemma read_sections_page (secs : list (string * list species_row))
    (solids : list (string * float * float)) (rest : list string)
    (fuel : nat) :
  Forall section_ok secs -> Forall solid_ok solids -> rest_ok rest ->
  (List.length (nl :: as_read (flat_map section_lines secs)
                   ++ as_read (solids_lines solids) ++ rest) < fuel)%nat ->
  read_sections fuel
    (nl :: as_read (flat_map section_lines secs)
        ++ as_read (solids_lines solids) ++ rest)
  = Some (map section_phase secs,
          map reread_solid (sorted_desc solid_g solids), rest).
Proof.
  intros Hsecs Hsolids Hrest Hfuel.
  pose proof (sections_fuel secs) as B.
  cbn [List.length] in Hfuel. rewrite !length_app in Hfuel.
  unfold as_read in Hfuel. rewrite !length_map in Hfuel.
  replace fuel
    with (2 * List.length secs + (fuel - 2 * List.length secs))%nat by lia.
  rewrite (read_sections_sections secs _ _ Hsecs).
  rewrite (read_sections_solids solids _ rest Hsolids Hrest) by lia.
  cbn [bind]. rewrite app_nil_r. reflexivity.
Qed.

(** ** A block and a document *)

Lemma as_read_app (a b : list string) :
  as_read (a ++ b) = (as_read a ++ as_read b)%list.
Proof. apply map_app. Qed.

Lemma block_lines_read (formula : string) (v : page_values)
    (rest : list string) :
  (as_read (block_lines formula v) ++ rest)%list
  = ((separator_line ++ nl)%string
       :: (page_header_line (v_pid v) (v_tC v) ++ nl)%string
       :: (as_read [formula; summary_line (v_tC v) (v_tK v) (v_patm v); "";
                    "Reactants (page scope):"]
             ++ as_read (map reactant_line (v_reactants v))
             ++ nl :: as_read (flat_map section_lines (v_sections v))
             ++ as_read (solids_lines (v_solids v)) ++ rest))%list.
Proof.
  unfold block_lines. rewrite !as_read_app. cbn [as_read map app].
  rewrite <- !app_assoc. cbn [app]. rewrite <- !app_assoc. reflexivity.
Qed.

Lemma parse_pages_cons (fuel : nat) (l : string) (ls : list string) :
  parse_pages (S fuel) (l :: ls)
  = match re_match page_re (strip l) with
    | None => parse_pages fuel ls
    | Some m =>
        let num := int_digits 0 (group 1 m) in
        let* temp_C := py_float (group 2 m) in
        let '(fe_mass_g, ls_j) := find_reactants ls in
        let* (phs, sols, ls_k) :=
          read_sections (S (List.length ls_j)) ls_j in
        let* pages := parse_pages fuel ls_k in
        Some (mkPage num temp_C fe_mass_g phs sols :: pages)
    end.
Proof. reflexivity. Qed.

Lemma parse_block (formula : string) (v : page_values)
    (rest : list string) :
  values_ok formula v -> rest_ok rest ->
  parse_lines (as_read (block_lines formula v) ++ rest)
  = let* pages := parse_lines rest in Some (page_read v :: pages).
Proof.
  intros (Hp1 & Hp2 & Ht1 & Ht2 & Hf & Hr & Hs & Hd) Hrest.
  unfold parse_lines. rewrite block_lines_read.
  remember (as_read [formula; summary_line (v_tC v) (v_tK v) (v_patm v);
                     ""; "Reactants (page scope):"]
              ++ as_read (map reactant_line (v_reactants v))
              ++ nl :: as_read (flat_map section_lines (v_sections v))
              ++ as_read (solids_lines (v_solids v)) ++ rest)%list
    as body eqn:Ebody.
  cbn [List.length].
  assert (Sep : re_match page_re (strip (separator_line ++ nl)) = None)
    by (vm_compute; reflexivity).
  rewrite parse_pages_cons, Sep, parse_pages_cons.
  unfold page_header_line.
  destruct (fmt_nonneg 2 (v_tC v) Ht1 Ht2) as [Gn Gd].
  rewrite <- fmt3_fmt in Gn, Gd.
  rewrite strip_header_line, (header_match _ _ Hp1 Hp2 Gn Gd).
  cbv zeta. cbn [group caps dict_get Nat.eqb].
  rewrite (py_float_fmt3 _ Ht1). cbn [bind].
  assert (L : (List.length rest < List.length body)%nat).
  { rewrite Ebody. rewrite !length_app. cbn [List.length].
    rewrite !length_app. lia. }
  rewrite Ebody at 1.
  rewrite (find_reactants_head formula _ _ _ _ Hf).
  rewrite (scan_reactants_lines _ None _ Hr).
  rewrite (read_sections_page _ _ rest _ Hs Hd Hrest)
    by apply Nat.lt_succ_diag_r.
  cbn [bind].
  rewrite (parse_pages_fuel (S (List.length body)) (S (List.length rest)) rest)
    by lia.
  unfold page_read. reflexivity.
Qed.

Lemma mapM_map {A B C : Type} (f : A -> option B) (g : B -> C)
    (l : list A) :
  mapM (fun x => let* v := f x in Some (g v)) l
  = let* vs := mapM f l in Some (map g vs).
Proof.
  induction l as [|x l IH]; cbn [mapM]; [reflexivity|].
  destruct (f x) as [v|]; cbn [bind]; [|reflexivity].
  rewrite IH. destruct (mapM f l); reflexivity.
Qed.

Lemma convert_lines_values (root : ET.element) :
  convert_lines root
  = let* fv := document_values root in
    Some (flat_map (block_lines (fst fv)) (snd fv)).
Proof.
  unfold convert_lines, document_values.
  destruct (read_species_def root) as [d|]; [|reflexivity].
  destruct (read_solid_species_map root) as [solids|]; [|reflexivity].
  destruct (read_reactants_meta root) as [metas|]; [|reflexivity].
  cbn [bind]. unfold page_block. rewrite mapM_map.
  destruct (mapM (page_values_of d solids metas) (ET.findall "page" root))
    as [vs|]; [|reflexivity].
  cbn [bind fst snd]. rewrite flat_map_concat_map. reflexivity.
Qed.

Lemma block_starts_page (formula : string) (v : page_values)
    (rest : list string) :
  rest_ok (as_read (block_lines formula v) ++ rest).
Proof.
  right. rewrite block_lines_read. cbn [next_is_page_sep].
  apply andb_true_iff. split; [reflexivity|].
  unfold page_header_line. rewrite !append_assoc.
  apply contains_iff. exists "", (" " ++ v_pid v ++ " - " ++ fmt3 (v_tC v)
                                      ++ " C" ++ nl).
  reflexivity.
Qed.

(** The blocks of a document, read back one after the other. *)
Lemma parse_blocks (formula : string) (vs : list page_values) :
  Forall (values_ok formula) vs ->
  parse_lines (as_read (flat_map (block_lines formula) vs))
  = Some (map page_read vs).
Proof.
  intro H. induction H as [|v vs Hv _ IH]; [reflexivity|].
  cbn [flat_map map]. rewrite as_read_app.
  rewrite (parse_block formula v _ Hv).
  - rewrite IH. reflexivity.
  - destruct vs as [|v' vs]; [left; reflexivity|].
    cbn [flat_map]. rewrite as_read_app. apply block_starts_page.
Qed.

(** *** Every written line is one line *)

Lemma space_is_newline_free (c : ascii) :
  non_space c = true -> no_newline c = true.
Proof.
  destruct c as [[] [] [] [] [] [] [] []]; vm_compute; congruence.
Qed.

Lemma token_no_newline (t : string) :
  all_in non_space t = true -> all_in no_newline t = true.
Proof. apply all_in_weaken, space_is_newline_free. Qed.

Lemma fmt3_no_newline (x : float) : all_in no_newline (fmt3 x) = true.
Proof. rewrite fmt3_fmt. apply token_no_newline, (fmt_no_space 2). Qed.

Lemma fmt4_no_newline (x : float) : all_in no_newline (fmt4 x) = true.
Proof. rewrite fmt4_fmt. apply token_no_newline, (fmt_no_space 3). Qed.

Lemma spaces_no_newline (n : nat) : all_in no_newline (spaces n) = true.
Proof. induction n; [reflexivity | exact IHn]. Qed.

Lemma rjust_no_newline (w : nat) (t : string) :
  all_in no_newline t = true -> all_in no_newline (rjust w t) = true.
Proof.
  intro H. unfold rjust. rewrite all_in_append, spaces_no_newline, H.
  reflexivity.
Qed.

Lemma ljust_no_newline (w : nat) (t : string) :
  all_in no_newline t = true -> all_in no_newline (ljust w t) = true.
Proof.
  intro H. unfold ljust. rewrite all_in_append, spaces_no_newline, H.
  reflexivity.
Qed.

Lemma digits_no_newline (t : string) :
  all_in is_digit t = true -> all_in no_newline t = true.
Proof.
  apply all_in_weaken. intros c Hc. apply space_is_newline_free.
  apply (proj2 (proj2 (proj2 (digit_classes c Hc)))).
Qed.

Ltac newline_free :=
  repeat (rewrite all_in_append);
  rewrite ?rjust_no_newline, ?ljust_no_newline, ?fmt3_no_newline,
    ?fmt4_no_newline, ?spaces_no_newline;
  repeat match goal with
         | H : all_in no_newline ?t = true |- context [all_in no_newline ?t] =>
             rewrite H
         end;
  repeat match goal with
         | |- context [all_in no_newline ?t] =>
             change (all_in no_newline t) with true
         end;
  try reflexivity; try assumption;
  try (apply fmt3_no_newline); try (apply fmt4_no_newline).

Lemma row_line_no_newline (r : species_row) :
  row_ok r -> all_in no_newline (species_row_line r) = true.
Proof.
  intros [[[_ Hn] _] _]. apply token_no_newline in Hn.
  unfold species_row_line. newline_free.
Qed.

Lemma solid_line_no_newline (r : string * float * float) :
  solid_ok r -> all_in no_newline (solid_row_line r) = true.
Proof.
  destruct r as [[name g] a]. intros [[[_ Hn] _] _]. cbn [fst] in Hn.
  apply token_no_newline in Hn.
  unfold solid_row_line. newline_free.
Qed.

Lemma reactant_line_no_newline (r : string * float * float) :
  reactant_ok r -> all_in no_newline (reactant_line r) = true.
Proof.
  destruct r as [[name n] g]. unfold reactant_ok. cbn [fst snd].
  intro H.
  assert (Hn : all_in no_newline name = true).
  { destruct H as [(-> & _)|[[_ H] _]]; [reflexivity|].
    apply token_no_newline, H. }
  unfold reactant_line. newline_free.
Qed.

Lemma Forall_map_lines {A : Type} (f : A -> string) (P : A -> Prop)
    (l : list A) :
  (forall x, P x -> all_in no_newline (f x) = true) ->
  Forall P l -> Forall (fun t => all_in no_newline t = true) (map f l).
Proof.
  intros Hf H. apply Forall_map. revert H. apply Forall_impl. exact Hf.
Qed.

Lemma section_lines_no_newline (sec : string * list species_row) :
  section_ok sec -> all_in no_newline (fst sec) = true ->
  Forall (fun t => all_in no_newline t = true) (section_lines sec).
Proof.
  destruct sec as [pname rows]. intros (_ & _ & Hrows) Hp.
  cbn [fst snd] in *. unfold section_lines.
  constructor; [cbn [String.append all_in]; exact Hp|].
  constructor; [reflexivity|].
  apply Forall_app. split.
  - apply (Forall_map_lines species_row_line row_ok);
      [apply row_line_no_newline|].
    apply sorted_desc_Forall, Hrows.
  - constructor; [|constructor; [reflexivity | constructor]].
    unfold total_line. newline_free.
Qed.

Lemma solids_lines_no_newline (rows : list (string * float * float)) :
  Forall solid_ok rows ->
  Forall (fun t => all_in no_newline t = true) (solids_lines rows).
Proof.
  intro H. destruct rows as [|r rows]; [constructor|].
  set (rs := r :: rows) in *.
  change (solids_lines rs)
    with (["PURE SOLIDS:"; solids_header_line]
            ++ map solid_row_line (sorted_desc solid_g rs) ++ [""])%list.
  constructor; [reflexivity|]. constructor; [reflexivity|].
  apply Forall_app. split; [|constructor; [reflexivity | constructor]].
  apply (Forall_map_lines solid_row_line solid_ok);
    [apply solid_line_no_newline|].
  apply sorted_desc_Forall, H.
Qed.

Lemma block_lines_no_newline (formula : string) (v : page_values) :
  values_ok formula v -> written_ok formula v ->
  Forall (fun t => all_in no_newline t = true) (block_lines formula v).
Proof.
  intros (_ & Hp & _ & _ & _ & Hr & Hs & Hd) [Wf Ws].
  apply digits_no_newline in Hp.
  unfold block_lines.
  constructor; [reflexivity|].
  constructor; [unfold page_header_line; newline_free|].
  constructor; [exact Wf|].
  constructor; [unfold summary_line; newline_free|].
  constructor; [reflexivity|]. constructor; [reflexivity|].
  apply Forall_app. split;
    [apply (Forall_map_lines reactant_line reactant_ok);
     [apply reactant_line_no_newline | exact Hr]|].
  constructor; [reflexivity|].
  apply Forall_app. split; [|apply solids_lines_no_newline, Hd].
  apply Forall_flat_map. apply Forall_forall. intros sec Hsec.
  apply section_lines_no_newline.
  - exact (proj1 (Forall_forall _ _) Hs sec Hsec).
  - exact (proj1 (Forall_forall _ _) Ws sec Hsec).
Qed.

Lemma read_written_document (root : ET.element) (formula : string)
    (vs : list page_values) :
  document_values root = Some (formula, vs) ->
  Forall (values_ok formula) vs -> Forall (written_ok formula) vs ->
  (let* txt := convert_factsage_xml_to_txt root in parse_txt_pages txt)
  = Some (map page_read vs).
Proof.
  intros Hd Hv Hw. unfold convert_factsage_xml_to_txt, parse_txt_pages.
  rewrite convert_lines_values, Hd. cbn [bind fst snd].
  rewrite readlines_lines; [apply parse_blocks, Hv|].
  apply Forall_flat_map. apply Forall_forall. intros v Hin.
  apply block_lines_no_newline.
  - exact (proj1 (Forall_forall _ _) Hv v Hin).
  - exact (proj1 (Forall_forall _ _) Hw v Hin).
Qed.

(** ** The round trips *)

Ltac ok :=
  hnf;
  lazymatch goal with
  | |- _ /\ _ => split; ok
  | |- Forall ?P ?l =>
      let l' := eval vm_compute in l in
      change (Forall P l');
      first [apply Forall_nil | apply Forall_cons; ok]
  | |- _ \/ _ => first [left; solve [ok] | right; solve [ok]]
  | |- _ -> _ =>
      let H := fresh in
      intro H; first [vm_compute in H; discriminate H | ok]
  | |- True => exact I
  | |- le _ _ => vm_compute; repeat constructor
  | |- _ = _ => vm_compute; reflexivity
  end.

(** X6. The text that [fmt3] or [fmt4] writes for a finite number is read by
    [float] without error, as the double nearest to the written decimal
    number; a zero of either sign is read as 0.0. *)
Theorem number_text_read_back (x : float) :
  is_finite x = true ->
  py_float (fmt3 x) = Some (reread_fmt 3 x)
  /\ py_float (fmt4 x) = Some (reread_fmt 4 x).
Proof.
  intro H. split; [apply py_float_fmt3, H | apply py_float_fmt4, H].
Qed.

Lemma number_text_read_back_witness :
  py_float (fmt3 (lit "83.7675")) = Some (reread_fmt 3 (lit "83.7675"))
  /\ py_float (fmt4 (lit "83.7675")) = Some (reread_fmt 4 (lit "83.7675")).
Proof. apply (number_text_read_back (lit "83.7675")). vm_compute. reflexivity. Defined.

(** X3. The rows of a phase section, as the canonicalizer writes them with
    the totals row and the blank line after them, are read by the loop
    over the rows one by one, in the written order: each row keeps its
    name, every number is the one read from its written text, and the
    weight column holds the hundredfold of the weight that was given; the
    totals row gives no row, and the loop stops at the blank line. *)
Theorem phase_rows_read_back (rows : list species_row) (tg tn ta : float)
    (ls : list string) :
  Forall (fun r => plain (row_name r)) rows ->
  Forall row_ok rows ->
  read_phase_rows
    (as_read (map species_row_line rows ++ [total_line tg tn ta; ""]) ++ ls)
  = Some (map reread_row rows, nl :: ls).
Proof. intros _. exact (read_phase_rows_section rows tg tn ta ls). Qed.

Lemma phase_rows_read_back_witness :
  read_phase_rows
    (as_read (map species_row_line sample_rows
                ++ [total_line (lit "100") (lit "1.77") (lit "0.9515"); ""])
       ++ [])
  = Some (map reread_row sample_rows, nl :: []).
Proof.
  apply (phase_rows_read_back sample_rows (lit "100") (lit "1.77")
           (lit "0.9515") []); ok.
Defined.

(** X4. The rows of the pure solids, as the canonicalizer writes them with the
    blank line after them, are read one by one, in the written order: each
    keeps its name and has the mass read from its written text; the
    activity is not kept. *)
Theorem solid_rows_read_back (rows : list (string * float * float))
    (ls : list string) :
  Forall (fun r => plain (fst (fst r))) rows ->
  Forall solid_ok rows ->
  read_solid_rows (as_read (map solid_row_line rows ++ [""]) ++ ls)
  = Some (map reread_solid rows, nl :: ls).
Proof. intros _. exact (read_solid_rows_section rows ls). Qed.

Lemma solid_rows_read_back_witness :
  read_solid_rows
    (as_read (map solid_row_line (v_solids sample_values) ++ [""]) ++ [])
  = Some (map reread_solid (v_solids sample_values), nl :: []).
Proof.
  apply (solid_rows_read_back (v_solids sample_values) []); ok.
Defined.

(** X5. The loop over the reactant lines takes the Fe mass from the line of
    the reactant named "Fe", as the number read from its written text,
    passes by the lines of the other reactants, also of those whose name
    begins with "Fe" as a part of a longer word, and stops at the blank
    line. *)
Theorem reactant_lines_give_Fe_mass (rs : list (string * float * float))
    (fe : option float) (rest : list string) :
  Forall (fun r => plain (fst (fst r))) rs ->
  Forall reactant_ok rs ->
  scan_reactants fe (as_read (map reactant_line rs) ++ nl :: rest)
  = (fe_mass_from fe rs, nl :: rest).
Proof. intros _. exact (scan_reactants_lines rs fe rest). Qed.

Lemma reactant_lines_give_Fe_mass_witness :
  scan_reactants None
    (as_read (map reactant_line
                [("FeO", lit "0.2", lit "14.37"); ("Fe", lit "1.5", lit "83.7675");
                 ("Si", lit "0.1", lit "2.80855")]) ++ nl :: [])
  = (fe_mass_from None
       [("FeO", lit "0.2", lit "14.37"); ("Fe", lit "1.5", lit "83.7675");
        ("Si", lit "0.1", lit "2.80855")], nl :: []).
Proof.
  apply (reactant_lines_give_Fe_mass
           [("FeO", lit "0.2", lit "14.37"); ("Fe", lit "1.5", lit "83.7675");
            ("Si", lit "0.1", lit "2.80855")] None []); ok.
Defined.

(** X2. The block of a page, read back: from the block that the canonicalizer
    writes for well-formed values with ASCII names and a page id of at most
    4300 digits, followed by nothing or by a further block, the
    reconstructor returns one page, with the page number, the temperature
    read from its written text, the Fe mass of the reactant "Fe", the
    phases in the written order with their rows by decreasing mass, and the
    pure solids by decreasing mass; the pages of the following lines come
    after it. *)
Theorem block_read_back (f0 : string) (v : page_values)
    (rest : list string) :
  plain f0 -> plain_values v -> short_id v ->
  values_ok (subscript_formula_digits f0) v -> rest_ok rest ->
  parse_lines (as_read (block_lines (subscript_formula_digits f0) v) ++ rest)
  = let* pages := parse_lines rest in Some (page_read v :: pages).
Proof.
  intros _ _ _. exact (parse_block (subscript_formula_digits f0) v rest).
Qed.

Lemma block_read_back_witness :
  parse_lines
    (as_read (block_lines (subscript_formula_digits "Fe + Si") sample_values)
       ++ [])
  = let* pages := parse_lines [] in Some (page_read sample_values :: pages).
Proof.
  apply (block_read_back "Fe + Si" sample_values []).
  - ok.
  - ok.
  - ok.
  - ok.
  - left. reflexivity.
Defined.

(** X1. The canonical text of a document, read back: when every tag,
    attribute name and attribute value of the document is ASCII text, no
    reactant id of the header holds an apostrophe, every page id has at
    most 4300 digits, the values of every page are well formed and the
    formula and the phase names are written on one line, the reconstructor
    returns one page for each page of the document, in the order of the
    document, as [page_read] gives it. *)
Theorem document_read_back (root : ET.element) (formula : string)
    (vs : list page_values) :
  document_values root = Some (formula, vs) ->
  plain_element root = true ->
  quote_free_ids root ->
  plain (ET.get_or "formula" "" (ET.attrib root)) ->
  Forall plain_values vs ->
  Forall short_id vs ->
  Forall (values_ok formula) vs -> Forall (written_ok formula) vs ->
  (let* txt := convert_factsage_xml_to_txt root in parse_txt_pages txt)
  = Some (map page_read vs).
Proof.
  intros H _ _ _ _ _. exact (read_written_document root formula vs H).
Qed.

Lemma document_read_back_witness :
  (let* txt := convert_factsage_xml_to_txt (two_condition_doc true) in
   parse_txt_pages txt)
  = Some (map page_read sample_pages).
Proof.
  apply (document_read_back (two_condition_doc true) sample_formula
           sample_pages).
  - vm_compute. reflexivity.
  - vm_compute. reflexivity.
  - ok.
  - ok.
  - ok.
  - ok.
  - ok.
  - ok.
Defined.

(** ** The order of the written rows *)

(** X8. The rows of a phase section are written by decreasing mass: the row
    lines between the column header and the totals row are those of a
    rearrangement of the rows in which no row has a greater mass than a
    row before it. *)
Theorem section_rows_by_decreasing_mass (pname : string)
    (rows : list species_row) :
  keys_ok row_g rows ->
  exists sorted,
    Permutation sorted rows
    /\ StronglySorted (key_ge row_g) sorted
    /\ section_lines (pname, rows)
       = ([("PHASE: " ++ pname)%string; phase_header_line]
            ++ map species_row_line sorted
            ++ [total_line (total_of row_g rows) (total_of row_n rows)
                  (total_of row_a rows); ""])%list.
Proof.
  intro H. exists (sorted_desc row_g rows).
  split; [apply sorted_desc_perm|].
  split; [apply sorted_desc_sorted, H | reflexivity].
Qed.

Lemma section_rows_by_decreasing_mass_witness :
  exists sorted,
    Permutation sorted sample_rows
    /\ StronglySorted (key_ge row_g) sorted
    /\ section_lines ("Fe-liq", sample_rows)
       = ([("PHASE: " ++ "Fe-liq")%string; phase_header_line]
            ++ map species_row_line sorted
            ++ [total_line (total_of row_g sample_rows)
                  (total_of row_n sample_rows)
                  (total_of row_a sample_rows); ""])%list.
Proof.
  apply (section_rows_by_decreasing_mass "Fe-liq" sample_rows).
  vm_compute. repeat constructor.
Defined.

(** ** Elements without id *)

Lemma mapM_none {A B : Type} (f : A -> option B) (l : list A) (x : A) :
  In x l -> f x = None -> mapM f l = None.
Proof.
  intros Hin Hx. induction l as [|y l IH]; [destruct Hin|].
  cbn [mapM]. destruct Hin as [->|Hin].
  - rewrite Hx. reflexivity.
  - destruct (f y); [|reflexivity]. cbn [bind]. rewrite (IH Hin).
    reflexivity.
Qed.

Lemma dict_by_id_none {V : Type} (f : ET.element -> V)
    (l : list ET.element) (e : ET.element) :
  In e l -> ET.get "id" (ET.attrib e) = None -> dict_by_id f l = None.
Proof.
  intros Hin He. unfold dict_by_id.
  rewrite (mapM_none _ l e Hin); [reflexivity|].
  rewrite He. reflexivity.
Qed.

(** X10. A result or solution element without an id, on any page, makes the
    canonicalizer raise: nothing is written for the document. *)
Theorem missing_id_raises (root page e : ET.element) :
  In page (ET.findall "page" root) ->
  In e (ET.findall "result" page) \/ In e (ET.findall "solution" page) ->
  ET.get "id" (ET.attrib e) = None ->
  convert_factsage_xml_to_txt root = None.
Proof.
  intros Hp He Hid. unfold convert_factsage_xml_to_txt, convert_lines.
  destruct (read_species_def root) as [d|]; [|reflexivity].
  destruct (read_solid_species_map root) as [solids|]; [|reflexivity].
  destruct (read_reactants_meta root) as [metas|]; [|reflexivity].
  cbn [bind].
  rewrite (mapM_none _ _ page Hp); [reflexivity|].
  unfold page_block, page_values_of.
  destruct (page_temperature page) as [tC tK].
  destruct He as [He|He].
  - rewrite (dict_by_id_none _ _ e He Hid). reflexivity.
  - destruct (dict_by_id ET.attrib (ET.findall "result" page));
      [|reflexivity].
    cbn [bind]. rewrite (dict_by_id_none _ _ e He Hid). reflexivity.
Qed.

Lemma missing_id_raises_witness :
  convert_factsage_xml_to_txt doc_without_id = None.
Proof.
  apply (missing_id_raises doc_without_id page_without_id
           (ET.Element "result" [("g", "98"); ("W", "0.98")] [])).
  - vm_compute. left. reflexivity.
  - left. vm_compute. left. reflexivity.
  - reflexivity.
Defined.

(** ** The order of the pages of a run *)

Lemma lex3_eq (a b : Z * Z * Z) : lex3 a b = Eq -> a = b.
Proof.
  destruct a as [[a1 a2] a3], b as [[b1 b2] b3]. unfold lex3.
  destruct (Z.compare_spec a1 b1); try discriminate.
  destruct (Z.compare_spec a2 b2); try discriminate.
  destruct (Z.compare_spec a3 b3); try discriminate.
  intros _. congruence.
Qed.

Section Unique.
Context {A : Type} (gt : A -> A -> Prop).
Hypothesis gt_asym : forall a b, gt a b -> gt b a -> False.

(** Two rearrangements of one list that are both in strict order are
    equal. *)
Lemma sorted_unique (l1 l2 : list A) :
  Permutation l1 l2 -> StronglySorted gt l1 -> StronglySorted gt l2 ->
  l1 = l2.
Proof.
  revert l2. induction l1 as [|a l1 IH]; intros l2 P S1 S2.
  - apply Permutation_nil in P. congruence.
  - destruct l2 as [|b l2];
      [apply Permutation_sym, Permutation_nil in P; discriminate|].
    inversion S1 as [|? ? S1' F1]; subst.
    inversion S2 as [|? ? S2' F2]; subst.
    assert (E : a = b).
    { assert (Ia : In a (b :: l2))
        by (apply (Permutation_in a P); left; reflexivity).
      assert (Ib : In b (a :: l1))
        by (apply (Permutation_in b (Permutation_sym P)); left; reflexivity).
      destruct Ia as [Ia|Ia]; [congruence|].
      destruct Ib as [Ib|Ib]; [congruence|].
      rewrite Forall_forall in F1, F2.
      destruct (gt_asym a b (F1 b Ib) (F2 a Ia)). }
    subst b. f_equal. apply IH; try assumption.
    apply (Permutation_cons_inv P).
Qed.

End Unique.

Lemma sorted_desc_strict {A : Type} (key : A -> float) (l : list A) :
  keys_ok key l -> NoDup (map (fun x => place (key x)) l) ->
  StronglySorted (fun a b => fltb (key b) (key a) = true) (sorted_desc key l).
Proof.
  intros Hk Hn.
  pose proof (sorted_desc_perm key l) as P.
  pose proof (sorted_desc_sorted key l Hk) as S.
  assert (Hk' : keys_ok key (sorted_desc key l))
    by (unfold keys_ok; apply (Permutation_Forall (Permutation_sym P)), Hk).
  assert (Hn' : NoDup (map (fun x => place (key x)) (sorted_desc key l))).
  { apply (Permutation_NoDup
             (Permutation_map _ (Permutation_sym P)) Hn). }
  clear P Hk Hn. induction S as [|a s S IH F]; [constructor|].
  inversion Hk' as [|? ? Ka Ks]; subst.
  cbn [map] in Hn'. inversion Hn' as [|? ? Na Ns]; subst.
  constructor; [apply IH; assumption|].
  unfold keys_ok in Ks. rewrite Forall_forall in F, Ks.
  apply Forall_forall. intros b Hb.
  apply fltb_place; [apply Ks, Hb | exact Ka|].
  pose proof (F b Hb) as L. unfold key_ge in L.
  apply fleb_place in L; [|apply Ks, Hb | exact Ka].
  destruct (lex3 (place (key b)) (place (key a))) eqn:E;
    [|reflexivity | congruence].
  apply lex3_eq in E. exfalso. apply Na. rewrite <- E.
  apply (in_map (fun x => place (key x))), Hb.
Qed.

Lemma fltb_asym (x y : float) : fltb x y = true -> fltb y x = true -> False.
Proof.
  intros H1 H2.
  assert (Nx : is_nan x = false)
    by (destruct x; try reflexivity; discriminate H1).
  assert (Ny : is_nan y = false)
    by (destruct y; try reflexivity; destruct x; discriminate H1).
  apply fltb_place in H1; try assumption.
  apply fltb_place in H2; try assumption.
  rewrite lex3_antisym, H1 in H2. discriminate H2.
Qed.

(** X19. The analysis of a run does not depend on the order in which its pages
    are given, when no temperature is NaN and the temperatures are
    pairwise different. *)
Theorem analysis_independent_of_page_order (sim sim' : list page) :
  Permutation sim sim' ->
  keys_ok T_C sim -> NoDup (map temp_place sim) ->
  analyze_simulation sim' = analyze_simulation sim.
Proof.
  intros P Hk Hn.
  assert (E : sorted_desc T_C sim' = sorted_desc T_C sim).
  { apply (sorted_unique (fun a b => fltb (T_C b) (T_C a) = true)).
    - intros a b H1 H2. exact (fltb_asym _ _ H1 H2).
    - eapply Permutation_trans; [apply sorted_desc_perm|].
      eapply Permutation_trans; [apply Permutation_sym, P|].
      apply Permutation_sym, sorted_desc_perm.
    - apply sorted_desc_strict.
      + unfold keys_ok. apply (Permutation_Forall P), Hk.
      + apply (Permutation_NoDup (Permutation_map _ P) Hn).
    - apply sorted_desc_strict; assumption. }
  unfold analyze_simulation, analyze_simulation_with. cbv zeta.
  rewrite E. reflexivity.
Qed.

Lemma analysis_independent_of_page_order_witness :
  analyze_simulation
    [si_page 3 "1400" "7"; si_page 1 "1600" "5"; si_page 2 "1500" "7"]
  = analyze_simulation tie_pages.
Proof.
  apply (analysis_independent_of_page_order tie_pages
           [si_page 3 "1400" "7"; si_page 1 "1600" "5";
            si_page 2 "1500" "7"]).
  - unfold tie_pages.
    eapply perm_trans; [|apply perm_swap].
    eapply perm_trans; [apply perm_skip, perm_swap|].
    apply Permutation_refl.
  - vm_compute. repeat constructor.
  - vm_compute. repeat constructor; cbn; intuition discriminate.
Defined.

(** ** Rows that are not read back *)

(** Two runs of a class that start at one position and both end before a
    character outside the class are the same run. *)
Lemma run_unique (p : ascii -> bool) (a x b y : string) :
  all_in p a = true -> stops p x -> all_in p b = true -> stops p y ->
  a ++ x = b ++ y -> a = b /\ x = y.
Proof.
  intros Ha Hx Hb Hy E.
  destruct (run_split p a x b y Ha Hx Hb E) as (c & E1 & E2).
  destruct (run_split p b y a x Hb Hy Ha (eq_sym E)) as (c' & E3 & E4).
  assert (L : String.length c = 0%nat).
  { pose proof (f_equal String.length E1) as L1.
    pose proof (f_equal String.length E3) as L2.
    rewrite length_append in L1, L2. lia. }
  destruct c; [|discriminate L].
  rewrite append_nil_r in E1. cbn [String.append] in E2. auto.
Qed.

Lemma row_re_rejects_letters (name s1 F T : string) :
  token non_space name -> token is_space s1 ->
  F = "nan" \/ F = "inf" \/ F = "-inf" ->
  re_match row_re (name ++ s1 ++ F ++ T) = None.
Proof.
  intros Hname Hs1 HF. unfold re_match.
  destruct (first_match row_re None (name ++ s1 ++ F ++ T)) as [m|] eqn:E;
    [exfalso | reflexivity].
  apply first_match_sound in E. destruct E as (t & E & M).
  unfold row_re in M. cbn [seql matches] in M.
  destruct M as (t0 & t1 & -> & [-> _] & M).
  destruct M as (w0 & t2 & -> & Hw0 & M).
  destruct M as (N & t3 & -> & [HNn HN] & M).
  destruct M as (W1 & t4 & -> & [HW1n HW1] & M).
  destruct M as (G & t5 & -> & [HGn HG] & M).
  destruct M as (W2 & t6 & -> & [HW2n HW2] & _).
  rewrite !append_assoc in E. cbn [String.append] in E.
  assert (SN : forall s, stops is_space (N ++ s))
    by (intro s; apply (token_stops_space non_space);
        [split; assumption | apply non_space_not_space]).
  assert (SG : forall s, stops is_space (G ++ s))
    by (intro s; apply (token_stops_space num_dot_minus);
        [split; assumption
        | intros c Hc; apply (proj2 (num_dot_minus_classes c Hc))]).
  assert (Sname : forall s, stops is_space (name ++ s))
    by (intro s; apply (token_stops_space non_space);
        [exact Hname | apply non_space_not_space]).
  assert (SW : forall (p : ascii -> bool) W s,
             (forall c, is_space c = true -> p c = false) ->
             W <> "" -> all_in is_space W = true -> stops p (W ++ s))
    by (intros p W s Hp Wn Wa; apply spaces_stop; [split; assumption | exact Hp]).
  destruct (run_unique is_space "" (name ++ s1 ++ F ++ T) w0 _
              eq_refl (Sname _) Hw0 (SN _) E) as [<- E1].
  destruct (run_unique non_space name (s1 ++ F ++ T) N _
              (proj2 Hname)
              (SW non_space s1 _ (fun c Hc => proj1 (space_classes c Hc))
                  (proj1 Hs1) (proj2 Hs1))
              HN
              (SW non_space W1 _ (fun c Hc => proj1 (space_classes c Hc))
                  HW1n HW1)
              E1) as [_ E2].
  assert (SF : stops is_space (F ++ T))
    by (destruct HF as [->|[->| ->]]; reflexivity).
  destruct (run_unique is_space s1 (F ++ T) W1 _
              (proj2 Hs1) SF HW1 (SG _) E2) as [_ E3].
  destruct HF as [->|[->| ->]].
  - destruct G as [|g0 G]; [congruence|].
    cbn in E3. injection E3 as <- _. discriminate HG.
  - destruct G as [|g0 G]; [congruence|].
    cbn in E3. injection E3 as <- _. discriminate HG.
  - destruct (run_unique num_dot_minus "-" ("inf" ++ T) G _
                eq_refl eq_refl HG
                (SW num_dot_minus W2 _
                    (fun c Hc => proj1 (proj2 (space_classes c Hc)))
                    HW2n HW2)
                E3) as [_ E4].
    destruct W2 as [|w W2]; [congruence|].
    cbn in E4. injection E4 as <- _. discriminate HW2.
Qed.

Lemma fmt3_nonfinite (x : float) :
  is_finite x = false -> fmt3 x = "nan" \/ fmt3 x = "inf" \/ fmt3 x = "-inf".
Proof.
  destruct x as [s|s| |s m e]; try discriminate; intros _.
  - destruct s; [right; right | right; left]; reflexivity.
  - left. reflexivity.
Qed.

(** X22. A species row whose mass is not finite is written by the canonicalizer
    and passed over by the reconstructor: its line gives no row, and the
    loop goes on with the next line without raising. *)
Theorem nonfinite_mass_row_lost (r : species_row) (ls : list string) :
  plain (row_name r) -> name_ok (row_name r) ->
  is_finite (row_g r) = false ->
  read_phase_rows ((species_row_line r ++ nl) :: ls) = read_phase_rows ls.
Proof.
  intros _ Hname Hg.
  pose proof (fmt3_nonfinite (row_g r) Hg) as HF.
  set (F := fmt3 (row_g r)) in *.
  set (s1 := spaces (14 - String.length (row_name r))
             ++ spaces (10 - String.length F)).
  set (mid := rjust 10 (fmt3 (fmul (row_W r) (lit "100")))
              ++ rjust 8 (fmt3 (row_n r)) ++ rjust 8 (fmt3 (row_X r))
              ++ spaces (12 - String.length (fmt4 (row_a r)))).
  assert (Hs1 : token is_space s1).
  { apply pad_token. destruct HF as [->|[->| ->]]; cbn; lia. }
  assert (E : species_row_line r
              = "  " ++ (row_name r ++ (s1 ++ F ++ mid) ++ fmt4 (row_a r))).
  { unfold species_row_line, ljust, s1, mid. fold F.
    unfold rjust at 1 5. rewrite !append_assoc. reflexivity. }
  assert (Tr : trimmed (row_name r ++ (s1 ++ F ++ mid) ++ fmt4 (row_a r))).
  { apply (trimmed_join non_space non_space);
      [exact (proj1 Hname) | apply non_space_not_space
      | rewrite fmt4_fmt; apply (fmt_no_space 3)
      | apply non_space_not_space]. }
  cbn [read_phase_rows]. cbv zeta.
  rewrite E, append_assoc, (strip_indented "  " _ eq_refl Tr).
  rewrite !append_assoc.
  destruct (name_line_not_marker (row_name r) s1
              (F ++ mid ++ fmt4 (row_a r)) Hname Hs1) as [M1 M2].
  rewrite M1, M2.
  rewrite (row_re_rejects_letters (row_name r) s1 F
             (mid ++ fmt4 (row_a r)) (proj1 Hname) Hs1 HF).
  reflexivity.
Qed.

Lemma nonfinite_mass_row_lost_witness :
  read_phase_rows
    ((species_row_line
        (mkRow "Fe" (fnum (Some "inf")) (lit "0.98") (lit "1.7") (lit "0.9")
           (lit "0.95")) ++ nl) :: [])
  = read_phase_rows [].
Proof.
  apply (nonfinite_mass_row_lost
           (mkRow "Fe" (fnum (Some "inf")) (lit "0.98") (lit "1.7")
              (lit "0.9") (lit "0.95")) []).
  - vm_compute. reflexivity.
  - repeat split; first [discriminate | reflexivity].
  - vm_compute. reflexivity.
Defined.

(** X23. A row line with six fields of which one, made of digits, points and
    minus signs, is no number for [float] makes the reconstructor raise;
    a lone minus sign is such a field. *)
Theorem bad_row_number_raises (name s1 g s2 w s3 n s4 x s5 a : string)
    (ls : list string) :
  plain name -> name_ok name ->
  token is_space s1 -> token num_dot_minus g ->
  token is_space s2 -> token num_dot_minus w ->
  token is_space s3 -> token num_dot_minus n ->
  token is_space s4 -> token num_dot_minus x ->
  token is_space s5 -> token num_dot_minus a ->
  py_float g = None \/ py_float w = None \/ py_float n = None
  \/ py_float x = None \/ py_float a = None ->
  read_phase_rows
    (((name ++ s1 ++ g ++ s2 ++ w ++ s3 ++ n ++ s4 ++ x ++ s5 ++ a) ++ nl)
       :: ls)
  = None.
Proof.
  intros _ Hname T1 Tg T2 Tw T3 Tn T4 Tx T5 Ta Hbad.
  assert (Tr : trimmed (name ++ (s1 ++ g ++ s2 ++ w ++ s3 ++ n ++ s4 ++ x
                                    ++ s5) ++ a)).
  { apply (trimmed_join non_space num_dot_minus);
      [exact (proj1 Hname) | apply non_space_not_space | exact Ta
      | intros c Hc; apply (proj2 (num_dot_minus_classes c Hc))]. }
  rewrite !append_assoc in Tr.
  cbn [read_phase_rows]. cbv zeta.
  rewrite (strip_trimmed_line _ Tr).
  destruct (name_line_not_marker name s1
              (g ++ s2 ++ w ++ s3 ++ n ++ s4 ++ x ++ s5 ++ a) Hname T1)
    as [M1 M2].
  rewrite M1, M2.
  destruct (row_match name s1 g s2 w s3 n s4 x s5 a (proj1 Hname)
              T1 Tg T2 Tw T3 Tn T4 Tx T5 Ta) as [pv ->].
  cbn [group caps dict_get Nat.eqb].
  destruct (py_float g); [|reflexivity].
  destruct (py_float w); [|reflexivity].
  destruct (py_float n); [|reflexivity].
  destruct (py_float x); [|reflexivity].
  destruct (py_float a); [|reflexivity].
  destruct Hbad as [H|[H|[H|[H|H]]]]; discriminate H.
Qed.

Lemma bad_row_number_raises_witness :
  read_phase_rows
    ((("Fe" ++ "  " ++ "95.000" ++ " " ++ "-" ++ " " ++ "1.700" ++ " "
         ++ "0.900" ++ " " ++ "0.9500") ++ nl) :: [])
  = None.
Proof.
  apply (bad_row_number_raises "Fe" "  " "95.000" " " "-" " " "1.700" " "
           "0.900" " " "0.9500" []);
    try (repeat split; first [discriminate | reflexivity]).
  right. left. reflexivity.
Defined.

(** * The round trip of the canonical text *)






